(** * Eion knowledge extraction: a shallow embedding of the Python sources

    The development follows the repository's modules:
    - [PyStr]: Python [str] values as sequences of Unicode code points;
    - [KnowledgeModels]: internal/knowledge/python/knowledge_models.py;
    - [LLMClient]: internal/llm/python/llm_client.py (sanitisation, retry);
    - [NumaClient]: internal/numa/python/numa_client.py (sanitisation);
    - [NumaExtractor]: internal/numa/python/numa_extractor.py (reflexion loop,
      edge resolution);
    - [KnowledgeService]: internal/knowledge/python/knowledge_service.py
      (in-house entity scan and edge resolution);
    - [NumaModule]: internal/numa/python/numa_module.py (rule-based scan);
    - [ExtractionService], [ExtractionHandlers]:
      internal/memory/python/extraction_service.py (service, add_episode
      command);
    - [EmbeddingService]: internal/numa/python/embedding_service.py
      (fallback embedding);
    - [PyDict], [PromptCache]: the prompt cache of numa_module.py;
    - [LLMGenerate], [OpenAIClient]: the public call and the OpenAI client
      of llm_client.py;
    - [NumaResult]: the result formatters of numa_client.py;
    - [EionKnowledgeService]: add_episode of knowledge_service.py.

    Definitions come first; the lemmas and theorems about them follow. *)

From Stdlib Require Import NArith ZArith List String Ascii Bool Lia DecimalString DecimalNat.
From stdpp Require Import base decidable option list gmap strings.
Import ListNotations.
Local Open Scope N_scope.

(* ===================================================================== *)
(** * Part I: definitions                                                 *)
(* ===================================================================== *)

(** ** Python strings *)

Module PyStr.

(** A Python [str] is a sequence of code points; [ord c] is the number. *)
Definition pystr : Type := list N.

(** An ASCII literal of this file as a Python string. *)
Definition cps (s : string) : pystr :=
  map N_of_ascii (list_ascii_of_string s).

(** [sep.join(parts)]. *)
Fixpoint join (sep : pystr) (parts : list pystr) : pystr :=
  match parts with
  | [] => []
  | [p] => p
  | p :: rest => p ++ sep ++ join sep rest
  end.

(** [c in s] for a single character [c]. *)
Definition char_in (c : N) (s : pystr) : bool :=
  existsb (N.eqb c) s.

(** [s.replace(c, '')] for a single character [c]: every occurrence goes. *)
Definition remove_char (c : N) (s : pystr) : pystr :=
  List.filter (fun x => negb (N.eqb x c)) s.

(** Code points that UTF-8 cannot encode: the surrogates U+D800..U+DFFF. *)
Definition is_surrogate (c : N) : bool :=
  (0xD800 <=? c) && (c <=? 0xDFFF).

(** [s.encode('utf-8', errors='ignore').decode('utf-8')]: the encoder skips
    what it cannot encode, and decoding its own output gives back the rest. *)
Definition utf8_roundtrip_ignore (s : pystr) : pystr :=
  List.filter (fun c => negb (is_surrogate c)) s.

(** [A-Z] and [a-z] as the [re] module reads them without IGNORECASE. *)
Definition is_upper_az (c : N) : bool := (65 <=? c) && (c <=? 90).
Definition is_lower_az (c : N) : bool := (97 <=? c) && (c <=? 122).

(** [str.isspace] of one character, which is also what [\s] matches in a
    [str] pattern (CPython's _PyUnicode_IsWhitespace). *)
Definition is_space (c : N) : bool :=
  ((0x09 <=? c) && (c <=? 0x0D)) || ((0x1C <=? c) && (c <=? 0x20))
  || (c =? 0x85) || (c =? 0xA0) || (c =? 0x1680)
  || ((0x2000 <=? c) && (c <=? 0x200A))
  || (c =? 0x2028) || (c =? 0x2029) || (c =? 0x202F) || (c =? 0x205F)
  || (c =? 0x3000).

(** [str.lower] on one ASCII letter; other code points are left alone. *)
Definition lower_az (c : N) : N :=
  if is_upper_az c then c + 32 else c.

(** The literal ['\n\r\t']. *)
Definition nl_cr_tab : pystr := [10; 13; 9].

(** [s.strip()]: leading and trailing whitespace goes. *)
Fixpoint lstrip (s : pystr) : pystr :=
  match s with
  | c :: s' => if is_space c then lstrip s' else s
  | [] => []
  end.

Definition strip (s : pystr) : pystr :=
  rev (lstrip (rev (lstrip s))).

(** Truth value of a string: non-empty. *)
Definition truthy (s : pystr) : bool :=
  match s with [] => false | _ :: _ => true end.

(** [s.split(c)] for a single character [c]. *)
Fixpoint split_on (c : N) (s : pystr) : list pystr :=
  match s with
  | [] => [[]]
  | x :: s' =>
      match split_on c s' with
      | cur :: rest => if x =? c then [] :: cur :: rest else (x :: cur) :: rest
      | [] => [[x]]
      end
  end.

(** [s.split()]: the maximal runs of non-whitespace. *)
Fixpoint split_ws_from (cur : pystr) (s : pystr) : list pystr :=
  match s with
  | [] => match cur with [] => [] | _ => [rev cur] end
  | x :: s' =>
      if is_space x then
        match cur with [] => split_ws_from [] s' | _ => rev cur :: split_ws_from [] s' end
      else split_ws_from (x :: cur) s'
  end.

Definition split_ws (s : pystr) : list pystr := split_ws_from [] s.

(** [re.split(r'[.!?]+', s)]: the pieces between maximal runs of
    [.], [!] and [?]. *)
Definition is_sentence_end (c : N) : bool := (c =? 46) || (c =? 33) || (c =? 63).

Fixpoint split_sentences_from (cur : pystr) (in_run : bool) (s : pystr) : list pystr :=
  match s with
  | [] => [rev cur]
  | x :: s' =>
      if is_sentence_end x then
        if in_run then split_sentences_from cur true s'
        else rev cur :: split_sentences_from [] true s'
      else split_sentences_from (x :: cur) false s'
  end.

Definition split_sentences (s : pystr) : list pystr := split_sentences_from [] false s.

(** [re.sub(r'\s+', ' ', s)]. *)
Fixpoint collapse_ws_from (in_run : bool) (s : pystr) : pystr :=
  match s with
  | [] => []
  | x :: s' =>
      if is_space x then
        if in_run then collapse_ws_from true s' else 32 :: collapse_ws_from true s'
      else x :: collapse_ws_from false s'
  end.

Definition collapse_ws (s : pystr) : pystr := collapse_ws_from false s.

(** [list(dict.fromkeys(l))]: the first occurrence of each key, in order. *)
Definition dict_fromkeys (l : list pystr) : list pystr :=
  fold_left (fun keys k => if bool_decide (k ∈ keys) then keys else keys ++ [k]) l [].

(** [str(n)] for a non-negative integer. *)
Definition str_of_nat (n : nat) : pystr :=
  cps (NilEmpty.string_of_uint (Nat.to_uint n)).

(** [needle in hay] for strings. *)
Fixpoint starts_with (needle hay : pystr) : bool :=
  match needle, hay with
  | [], _ => true
  | _ :: _, [] => false
  | a :: n', b :: h' => (a =? b) && starts_with n' h'
  end.

Fixpoint contains (needle hay : pystr) : bool :=
  starts_with needle hay ||
  match hay with
  | [] => false
  | _ :: h' => contains needle h'
  end.

End PyStr.
Export PyStr.

(** ** Exceptions and outcomes *)

(** The classes the code tells apart with [isinstance]; every value of
    [exn] is an instance of [Exception] (what [except Exception] catches). *)
Inductive exn_class : Type :=
| RateLimitError
| JSONDecodeError
| HTTPStatusError (status_code : Z)
| RuntimeError
| ValueError
| OtherException.

Record exn : Type := Exn { exn_cls : exn_class; exn_msg : pystr }.

(** [str(e)]. *)
Definition str_exn (e : exn) : pystr := exn_msg e.

(** A call either returns or raises. *)
Inductive outcome (A : Type) : Type :=
| Returns (a : A)
| Raises (e : exn).
Arguments Returns {A} a.
Arguments Raises {A} e.

(** ** llm_client.py *)

Module LLMClient.

(** [is_server_or_retry_error(exception)]. *)
Definition is_server_or_retry_error (exception : exn) : bool :=
  match exn_cls exception with
  | RateLimitError | JSONDecodeError => true
  | HTTPStatusError status_code =>
      ((500 <=? status_code) && (status_code <? 600))%Z
  | _ => false
  end.

Definition zero_width : pystr := [0x200b; 0x200c; 0x200d; 0xfeff; 0x2060].

(** [LLMClient._clean_input]. *)
Definition _clean_input (input_str : pystr) : pystr :=
  let cleaned := utf8_roundtrip_ignore input_str in
  let cleaned := fold_left (fun s char => remove_char char s) zero_width cleaned in
  List.filter (fun char => (32 <=? char) || char_in char nl_cr_tab) cleaned.

(** The [@retry] decorator's policy: [stop_after_attempt(4)]. *)
Definition stop_after_attempt : nat := 4.

(** [_generate_response_with_retry] under tenacity's loop.  [_generate_response]
    is the abstract method: [attempt n] is the outcome of its [n]-th call
    (numbered from 1, tenacity's [attempt_number]).  After a failed attempt
    tenacity asks [retry] first (an exception that is not retryable is raised
    as it is), then [stop] ([reraise=True]: the last exception is raised),
    and otherwise sleeps and calls again; the sleep ([wait_random_exponential])
    changes no value and is left out.  The method's own [try] re-raises
    what it catches.  The result comes with the number of calls made.
    [budget] counts the calls left and starts at [stop_after_attempt]. *)
Fixpoint retry_loop {R : Type} (attempt : nat -> outcome R)
    (budget : nat) (attempt_number : nat) : outcome R * nat :=
  match attempt attempt_number with
  | Returns r => (Returns r, attempt_number)
  | Raises e =>
      if negb (is_server_or_retry_error e) then (Raises e, attempt_number)
      else if (stop_after_attempt <=? attempt_number)%nat then (Raises e, attempt_number)
      else match budget with
           | O => (Raises e, attempt_number)
           | S budget' => retry_loop attempt budget' (S attempt_number)
           end
  end.

Definition _generate_response_with_retry {R : Type}
    (_generate_response : nat -> outcome R) : outcome R * nat :=
  retry_loop _generate_response stop_after_attempt 1%nat.

End LLMClient.

(** ** numa_client.py *)

Module NumaClient.

Definition zero_width : pystr := [0x200b; 0x200c; 0x200d; 0xfeff; 0x2060].

(** [NumaClient._clean_input]: the same text as the LLM client's. *)
Definition _clean_input (input_str : pystr) : pystr :=
  let cleaned := utf8_roundtrip_ignore input_str in
  let cleaned := fold_left (fun s char => remove_char char s) zero_width cleaned in
  List.filter (fun char => (32 <=? char) || char_in char nl_cr_tab) cleaned.

End NumaClient.


(** ** knowledge_models.py *)

Module KnowledgeModels.

Inductive EpisodeType : Type := message | text | json | conversation.

(** The pydantic models, without their clock fields ([created_at],
    [valid_at]): nothing below reads a timestamp. *)
Record EpisodicNode : Type := {
  episode_uuid : pystr;
  episode_group_id : pystr;
  episode_source : EpisodeType;
  episode_content : pystr;
  episode_source_description : option pystr }.

Record EntityNode : Type := {
  node_uuid : pystr;
  node_name : pystr;
  node_labels : list pystr;
  node_summary : pystr;
  node_group_id : pystr }.

Record EdgeNode : Type := {
  edge_uuid : pystr;
  source_node_uuid : pystr;
  target_node_uuid : pystr;
  edge_relation_type : pystr;
  edge_summary : pystr;
  edge_group_id : pystr }.

(** The dictionaries a client answers with, each with the keys of its
    model; the value under ["summary"] is a string or [None]. *)
Record ExtractedEntity : Type := {
  entity_name : pystr;
  entity_type_id : Z;
  entity_summary : option pystr }.

Record ExtractedEdge : Type := {
  source_name : pystr;
  target_name : pystr;
  relation_type : pystr;
  summary : option pystr }.

Record Message : Type := { role : pystr; content : pystr }.

(** The [response_model] argument of [generate_response]. *)
Inductive ResponseModel : Type :=
| ExtractedEntities | ExtractedEdges | MissedEntities | DuplicateEntities.

(** The dictionary a client returns; a key may be missing. *)
Record Response : Type := {
  extracted_entities : option (list ExtractedEntity);
  extracted_edges : option (list ExtractedEdge);
  missed_entities : option (list pystr) }.

(** The literal [{}]. *)
Definition empty_response : Response :=
  {| extracted_entities := None; extracted_edges := None; missed_entities := None |}.

End KnowledgeModels.
Export KnowledgeModels.

(** ** Calls to a backend, as state passing *)

(** One call of [generate_response], as the callee receives it. *)
Record Call : Type := { call_messages : list Message; call_model : ResponseModel }.

(** What an extraction runs against: the backend's own state, the calls
    made so far (oldest first) and the number of [uuid4()] draws made in
    this world (the draws of two worlds are numbered apart). *)
Record World (B : Type) : Type := {
  backend : B;
  calls : list Call;
  uuids_drawn : nat }.
Arguments backend {B} w.
Arguments calls {B} w.
Arguments uuids_drawn {B} w.

(** The client interface both extractors are written against:
    [generate_response(messages, response_model)] returns a dictionary or
    raises, and may change the backend. *)
Class Client (B : Type) : Type := {
  generate_response : list Message -> ResponseModel -> B -> outcome Response * B }.

(** What Python's runtime and libraries contribute and this development
    does not define: [repr] of the entity-type list and of a list of names
    inside an f-string, the values [uuid.uuid4()] draws, the Unicode tables
    behind [str.lower], [str.title], [str.isupper] and the [\w] of [re],
    the [re] searches whose patterns are not modelled below (given by the
    pattern's text), [datetime.fromisoformat] (its error, if the string
    does not parse), [str] of a class object, the order in which this
    process lists the set [{'Entity', name}] of two different strings (it
    follows the process's salted string hashes; [entity_label_first name]
    says that ['Entity'] comes first) and the [ValidationError] pydantic
    raises when the model of the given name is built with [summary=None]. *)
Class PyRuntime : Type := {
  repr_entity_types : list (Z * pystr * option pystr) -> pystr;
  repr_names : list pystr -> pystr;
  uuid4 : nat -> pystr;
  py_lower : pystr -> pystr;
  py_title : pystr -> pystr;
  py_isupper : N -> bool;
  is_word_char : N -> bool;
  re_finditer_ignorecase : string -> pystr -> list pystr;
  re_findall_pairs_ignorecase : string -> pystr -> list (pystr * pystr);
  re_search_ignorecase_dotall : string -> pystr -> option (pystr * option pystr);
  fromisoformat_error : pystr -> option exn;
  str_local_entity_type : pystr;
  entity_label_first : pystr -> bool;
  none_summary_error : string -> exn }.

(** What is asked of [str.lower] where a statement compares names up to
    letter case: on text made of ASCII letters and whitespace it lowers
    the letters and leaves the rest. *)
Definition lower_on_plain_text `{PyRuntime} : Prop :=
  forall s, Forall (fun c => is_space c || is_upper_az c || is_lower_az c = true) s ->
            py_lower s = map lower_az s.

(** Computations that call the backend and may raise. *)
Definition M (B A : Type) : Type := World B -> outcome A * World B.

Definition ret {B A : Type} (a : A) : M B A := fun w => (Returns a, w).

Definition raise {B A : Type} (e : exn) : M B A := fun w => (Raises e, w).

Definition bind {B A A' : Type} (m : M B A) (k : A -> M B A') : M B A' :=
  fun w =>
    match m w with
    | (Returns a, w') => k a w'
    | (Raises e, w') => (Raises e, w')
    end.

Notation "x <- m ;; k" := (bind m (fun x => k))
  (at level 100, m at next level, right associativity).

(** [await client.generate_response(messages, response_model=...)]. *)
Definition call {B : Type} `{Client B} (messages : list Message)
    (response_model : ResponseModel) : M B Response :=
  fun w =>
    let w1 := {| backend := backend w;
                 calls := calls w ++ [{| call_messages := messages; call_model := response_model |}];
                 uuids_drawn := uuids_drawn w |} in
    match generate_response messages response_model (backend w) with
    | (r, b') => (r, {| backend := b'; calls := calls w1; uuids_drawn := uuids_drawn w1 |})
    end.

(** [str(uuid.uuid4())]. *)
Definition fresh_uuid {B : Type} `{PyRuntime} : M B pystr :=
  fun w => (Returns (uuid4 (uuids_drawn w)),
            {| backend := backend w; calls := calls w; uuids_drawn := S (uuids_drawn w) |}).

(** A client whose [generate_response] returns whatever it is asked, as
    [NumaClient.generate_response] does: its [except Exception] answers
    with the empty response of the model. *)
Definition client_never_raises {B : Type} `{Client B} : Prop :=
  forall (messages : list Message) (response_model : ResponseModel) (b : B),
  exists r b', generate_response messages response_model b = (Returns r, b').

(** The calls of one kind among [cs]. *)
Definition calls_of (m : ResponseModel) (cs : list Call) : list Call :=
  List.filter (fun c => match call_model c, m with
                        | ExtractedEntities, ExtractedEntities
                        | ExtractedEdges, ExtractedEdges
                        | MissedEntities, MissedEntities
                        | DuplicateEntities, DuplicateEntities => true
                        | _, _ => false
                        end) cs.

(** ** numa_extractor.py *)

Module NumaExtractor.

Definition MAX_REFLEXION_ITERATIONS : nat := 3.
Definition SEMAPHORE_LIMIT : nat := 5.

(** The [entity_types] argument: [None], a dict (type name, the class's
    [__doc__]) or a list (each item given by its [str]). *)
Inductive EntityTypes : Type :=
| NoEntityTypes
| EntityTypesDict (items : list (pystr * option pystr))
| EntityTypesList (items : list pystr).

(** One entry of [entity_types_context]:
    (entity_type_id, entity_type_name, entity_type_description). *)
Definition EntityTypeInfo : Type := (Z * pystr * option pystr)%type.

Definition enumerate {A : Type} (l : list A) : list (nat * A) :=
  combine (seq 0 (length l)) l.

Definition entity_types_context (entity_types : EntityTypes) : list EntityTypeInfo :=
  [(0%Z, cps "Entity",
    Some (cps "Default entity classification. Use this entity type if the entity is not one of the other listed types."))]
  ++ match entity_types with
     | NoEntityTypes => []
     | EntityTypesDict items =>
         map (fun '(i, (type_name, doc)) => (Z.of_nat i + 1, type_name, doc)%Z) (enumerate items)
     | EntityTypesList items =>
         map (fun '(i, et) => (Z.of_nat i + 1, et, Some (cps "Entity type: " ++ et))%Z) (enumerate items)
     end.

(** The [context] dictionary of [extract_nodes], without
    ['episode_timestamp'], which no prompt reads. *)
Record NodeContext : Type := {
  ctx_episode_content : pystr;
  ctx_previous_episodes : list pystr;
  ctx_custom_prompt : pystr;
  ctx_entity_types : list EntityTypeInfo;
  ctx_source_description : option pystr }.

Definition extract_message_system : pystr := cps
"You are an AI assistant that extracts entity nodes from conversational messages.

Your task is to extract entity nodes mentioned **explicitly or implicitly** in the CURRENT MESSAGE.

**EXCLUDE** entities mentioned only in the PREVIOUS MESSAGES (they are for context only).

Guidelines:
1. Extract all entities, concepts, or actors mentioned in the current message
2. Include people, places, organizations, objects, concepts, events, and any other significant entities
3. Use the provided entity types to classify each entity
4. Provide a brief summary for each entity if additional context is available
5. Only extract entities that are actually mentioned or referenced in the current message".

Definition extract_text_system : pystr := cps
"You are an AI assistant that extracts entity nodes from text.

Your task is to extract all significant entities, concepts, or actors mentioned in the TEXT.

Guidelines:
1. Extract all significant entities, concepts, or actors mentioned in the text
2. Include people, places, organizations, objects, concepts, events, and any other significant entities
3. Use the provided entity types to classify each entity
4. Provide a brief summary for each entity if additional context is available
5. Be thorough but precise in your extraction".

Definition extract_json_system : pystr := cps
"You are an AI assistant that extracts entity nodes from JSON data.

Your task is to extract all significant entities, concepts, or actors mentioned in the JSON.

Guidelines:
1. Extract entities from both keys and values in the JSON
2. Include people, places, organizations, objects, concepts, events, and any other significant entities
3. Use the provided entity types to classify each entity
4. Provide a brief summary for each entity if additional context is available
5. Parse the JSON structure to understand the data context".

Definition reflexion_system : pystr := cps
"You are an AI assistant that reviews entity extractions to find missed entities.

Your task is to identify important entities that may have been overlooked in the initial extraction.

Guidelines:
1. Review the episode content and previously extracted entities
2. Look for important entities that were missed
3. Only suggest entities that are clearly mentioned or strongly implied
4. Focus on entities that are significant to understanding the content
5. Do not suggest entities that are too generic or not clearly present".

Definition extract_edges_system : pystr := cps
"You are an AI assistant that extracts relationships between entities.

Your task is to identify explicit relationships between the entities mentioned in the text.

Guidelines:
1. Only extract relationships that are explicitly stated or strongly implied
2. Focus on meaningful relationships that add value to understanding
3. Use clear, descriptive relationship types
4. Ensure both source and target entities are from the provided entity list
5. Provide a brief summary of the relationship if additional context is available".

Definition two_messages (system_message user_content : pystr) : list Message :=
  [ {| role := cps "system"; content := system_message |};
    {| role := cps "user"; content := user_content |} ].

Definition _create_extract_message_prompt `{PyRuntime} (context : NodeContext) : list Message :=
  two_messages extract_message_system
    (cps "
<PREVIOUS MESSAGES>
" ++ join [10] (ctx_previous_episodes context) ++ cps "
</PREVIOUS MESSAGES>

<CURRENT MESSAGE>
" ++ ctx_episode_content context ++ cps "
</CURRENT MESSAGE>

<ENTITY TYPES>
" ++ repr_entity_types (ctx_entity_types context) ++ cps "
</ENTITY TYPES>

" ++ ctx_custom_prompt context ++ cps "

Extract entities mentioned in the CURRENT MESSAGE only.").

Definition _create_extract_text_prompt `{PyRuntime} (context : NodeContext) : list Message :=
  two_messages extract_text_system
    (cps "
<TEXT>
" ++ ctx_episode_content context ++ cps "
</TEXT>

<ENTITY TYPES>
" ++ repr_entity_types (ctx_entity_types context) ++ cps "
</ENTITY TYPES>

" ++ ctx_custom_prompt context ++ cps "

Extract all significant entities from the text.").

Definition _create_extract_json_prompt `{PyRuntime} (context : NodeContext) : list Message :=
  two_messages extract_json_system
    (cps "
<JSON>
" ++ ctx_episode_content context ++ cps "
</JSON>

<ENTITY TYPES>
" ++ repr_entity_types (ctx_entity_types context) ++ cps "
</ENTITY TYPES>

" ++ ctx_custom_prompt context ++ cps "

Extract all significant entities from the JSON data.").

Definition _create_reflexion_prompt `{PyRuntime} (episode_content : pystr)
    (previous_episodes : list pystr) (extracted : list pystr) : list Message :=
  two_messages reflexion_system
    (cps "
<EPISODE CONTENT>
" ++ episode_content ++ cps "
</EPISODE CONTENT>

<PREVIOUSLY EXTRACTED ENTITIES>
" ++ repr_names extracted ++ cps "
</PREVIOUSLY EXTRACTED ENTITIES>

<PREVIOUS EPISODES (for context)>
" ++ join [10] previous_episodes ++ cps "
</PREVIOUS EPISODES>

Review the episode content and identify any important entities that were missed in the initial extraction.").

Definition _create_extract_edges_prompt `{PyRuntime} (episode_content : pystr)
    (previous_episodes : list pystr) (node_names : list pystr) : list Message :=
  two_messages extract_edges_system
    (cps "
<EPISODE CONTENT>
" ++ episode_content ++ cps "
</EPISODE CONTENT>

<ENTITIES>
" ++ repr_names node_names ++ cps "
</ENTITIES>

<PREVIOUS EPISODES (for context)>
" ++ join [10] previous_episodes ++ cps "
</PREVIOUS EPISODES>

Extract relationships between the entities that are mentioned in the episode content.").

(** [_extract_nodes_reflexion]. *)
Definition _extract_nodes_reflexion {B : Type} `{Client B} `{PyRuntime}
    (episode : EpisodicNode) (previous_episodes : list EpisodicNode)
    (node_names : list pystr) : M B (list pystr) :=
  llm_response <- call (_create_reflexion_prompt (episode_content episode)
                          (map episode_content previous_episodes) node_names)
                       MissedEntities ;;
  ret (default [] (missed_entities llm_response)).

(** The variables the [while] loop of [extract_nodes] reads and writes. *)
Record LoopVars : Type := {
  llm_response : Response;
  custom_prompt : pystr;
  entities_missed : bool;
  reflexion_iterations : nat;
  loop_extracted_entities : list ExtractedEntity }.

(** The instruction the loop builds from the reflexion's answer. *)
Definition missed_instruction (missing_entities : list pystr) : pystr :=
  fold_left (fun custom_prompt entity => custom_prompt ++ [10] ++ entity ++ cps ",")
    missing_entities
    (cps "Make sure that the following entities are extracted: ").

(** One pass through the body of the [while] loop.  [context] is the
    dictionary built before the loop; the body never assigns to it. *)
Definition loop_body {B : Type} `{Client B} `{PyRuntime}
    (episode : EpisodicNode) (previous_episodes : list EpisodicNode)
    (context : NodeContext) (v : LoopVars) : M B LoopVars :=
  llm_response' <-
    match episode_source episode with
    | message => call (_create_extract_message_prompt context) ExtractedEntities
    | text => call (_create_extract_text_prompt context) ExtractedEntities
    | json => call (_create_extract_json_prompt context) ExtractedEntities
    | conversation => ret (llm_response v)
    end ;;
  let extracted := default [] (extracted_entities llm_response') in
  let reflexion_iterations' := S (reflexion_iterations v) in
  if (reflexion_iterations' <? MAX_REFLEXION_ITERATIONS)%nat then
    missing_entities <- _extract_nodes_reflexion episode previous_episodes
                          (map entity_name extracted) ;;
    ret {| llm_response := llm_response';
           custom_prompt := missed_instruction missing_entities;
           entities_missed := negb (length missing_entities =? 0)%nat;
           reflexion_iterations := reflexion_iterations';
           loop_extracted_entities := extracted |}
  else
    ret {| llm_response := llm_response';
           custom_prompt := custom_prompt v;
           entities_missed := entities_missed v;
           reflexion_iterations := reflexion_iterations';
           loop_extracted_entities := extracted |}.

(** The messages the body sends for entities, by episode source (none for
    a conversation episode, which takes none of the three branches). *)
Definition extract_prompt `{PyRuntime} (source : EpisodeType) (context : NodeContext)
    : option (list Message) :=
  match source with
  | message => Some (_create_extract_message_prompt context)
  | text => Some (_create_extract_text_prompt context)
  | json => Some (_create_extract_json_prompt context)
  | conversation => None
  end.

(** [while entities_missed and reflexion_iterations <= MAX_REFLEXION_ITERATIONS].
    [fuel] bounds the passes; [reflexion_loop_fuel] below shows that the
    fuel [extract_nodes] gives is never used up. *)
Fixpoint reflexion_loop {B : Type} `{Client B} `{PyRuntime} (fuel : nat)
    (episode : EpisodicNode) (previous_episodes : list EpisodicNode)
    (context : NodeContext) (v : LoopVars) : M B LoopVars :=
  match fuel with
  | O => ret v
  | S fuel' =>
      if entities_missed v && (reflexion_iterations v <=? MAX_REFLEXION_ITERATIONS)%nat then
        v' <- loop_body episode previous_episodes context v ;;
        reflexion_loop fuel' episode previous_episodes context v'
      else ret v
  end.

(** The entity-type name a node is labelled with. *)
Definition entity_type_name_of (types : list EntityTypeInfo) (id : Z) : pystr :=
  if ((0 <=? id) && (id <? Z.of_nat (length types)))%Z then
    match nth_error types (Z.to_nat id) with
    | Some (_, entity_type_name, _) => entity_type_name
    | None => cps "Entity"
    end
  else cps "Entity".

(** [list({'Entity', str(entity_type_name)})]: a set of one label, or of
    two in the order this process lists them. *)
Definition labels_of `{PyRuntime} (entity_type_name : pystr) : list pystr :=
  if decide (entity_type_name = cps "Entity") then [cps "Entity"]
  else if entity_label_first entity_type_name then [cps "Entity"; entity_type_name]
  else [entity_type_name; cps "Entity"].

(** The conversion loop at the end of [extract_nodes]. *)
Definition to_entity_nodes `{PyRuntime} (episode : EpisodicNode) (types : list EntityTypeInfo)
    (filtered_extracted_entities : list ExtractedEntity) : list EntityNode :=
  fold_left
    (fun extracted_nodes extracted_entity =>
       extracted_nodes ++
       [{| node_uuid := episode_group_id episode ++ cps "-" ++ str_of_nat (length extracted_nodes);
           node_name := entity_name extracted_entity;
           node_labels := labels_of (entity_type_name_of types (entity_type_id extracted_entity));
           node_summary := default [] (entity_summary extracted_entity);
           node_group_id := episode_group_id episode |}])
    filtered_extracted_entities [].

Definition initial_vars : LoopVars :=
  {| llm_response := empty_response;
     custom_prompt := [];
     entities_missed := true;
     reflexion_iterations := 0;
     loop_extracted_entities := [] |}.

Definition initial_context (episode : EpisodicNode)
    (previous_episodes : list EpisodicNode) (entity_types : EntityTypes) : NodeContext :=
  {| ctx_episode_content := episode_content episode;
     ctx_previous_episodes := map episode_content previous_episodes;
     ctx_custom_prompt := custom_prompt initial_vars;
     ctx_entity_types := entity_types_context entity_types;
     ctx_source_description := episode_source_description episode |}.

(** [NumaExtractor.extract_nodes]. *)
Definition extract_nodes {B : Type} `{Client B} `{PyRuntime}
    (episode : EpisodicNode) (previous_episodes : list EpisodicNode)
    (entity_types : EntityTypes) : M B (list EntityNode) :=
  let context := initial_context episode previous_episodes entity_types in
  v <- reflexion_loop (MAX_REFLEXION_ITERATIONS + 2) episode previous_episodes context initial_vars ;;
  let filtered_extracted_entities :=
    List.filter (fun entity => truthy (strip (entity_name entity))) (loop_extracted_entities v) in
  ret (to_entity_nodes episode (ctx_entity_types context) filtered_extracted_entities).

(** [{node.name: node.uuid for node in nodes}]: a later node of the same
    name replaces an earlier one. *)
Definition node_name_to_uuid (nodes : list EntityNode) : gmap pystr pystr :=
  fold_left (fun m node => <[node_name node := node_uuid node]> m) nodes ∅.

(** [bool(x)] for the result of [dict.get]: [None] and [''] are false. *)
Definition truthy_opt (x : option pystr) : bool :=
  match x with Some s => truthy s | None => false end.

(** The loop of [extract_edges] that turns extracted edges into edge nodes. *)
Definition to_edge_nodes (episode : EpisodicNode) (nodes : list EntityNode)
    (extracted : list ExtractedEdge) : list EdgeNode :=
  fold_left
    (fun edge_nodes extracted_edge =>
       let source_uuid := node_name_to_uuid nodes !! source_name extracted_edge in
       let target_uuid := node_name_to_uuid nodes !! target_name extracted_edge in
       if truthy_opt source_uuid && truthy_opt target_uuid
          && negb (bool_decide (source_uuid = target_uuid)) then
         edge_nodes ++
         [{| edge_uuid := episode_group_id episode ++ cps "-edge-" ++ str_of_nat (length edge_nodes);
             source_node_uuid := default [] source_uuid;
             target_node_uuid := default [] target_uuid;
             edge_relation_type := relation_type extracted_edge;
             edge_summary := default [] (summary extracted_edge);
             edge_group_id := episode_group_id episode |}]
       else edge_nodes)
    extracted [].

(** [NumaExtractor.extract_edges]. *)
Definition extract_edges {B : Type} `{Client B} `{PyRuntime}
    (nodes : list EntityNode) (episode : EpisodicNode)
    (previous_episodes : list EpisodicNode) : M B (list EdgeNode) :=
  if (length nodes <? 2)%nat then ret []
  else
    let node_names := map node_name nodes in
    llm_response <- call (_create_extract_edges_prompt (episode_content episode)
                            (map episode_content previous_episodes) node_names)
                         ExtractedEdges ;;
    ret (to_edge_nodes episode nodes (default [] (extracted_edges llm_response))).

End NumaExtractor.

(** ** numa_module.py *)

Module NumaModule.

(** The part of [re]'s pattern language that the proper-noun pattern is
    written in, matched the way [re] does: leftmost, greedy, backtracking. *)
Inductive regex : Type :=
| CharClass (p : N -> bool)
| WordBoundary
| Seq (r1 r2 : regex)
| Star (r : regex).

Definition Plus (r : regex) : regex := Seq r (Star r).

Definition is_word_opt `{PyRuntime} (c : option N) : bool :=
  match c with Some c => is_word_char c | None => false end.

(** [\b] between the text already read ([before], last character first) and
    the text to come. *)
Definition at_word_boundary `{PyRuntime} (before rest : pystr) : bool :=
  xorb (is_word_opt (head before)) (is_word_opt (head rest)).

(** A greedy repetition: the body is matched as often as it makes progress
    (at most [n] more times) before what follows is tried; when what
    follows fails, one repetition less is tried. *)
Fixpoint star_loop {A : Type}
    (body : pystr -> pystr -> (pystr -> pystr -> option A) -> option A)
    (n : nat) (before rest : pystr) (k : pystr -> pystr -> option A) : option A :=
  match n with
  | O => k before rest
  | S n' =>
      match body before rest
              (fun b s => if (length s <? length rest)%nat then star_loop body n' b s k else None) with
      | Some res => Some res
      | None => k before rest
      end
  end.

(** [re_match r before rest k]: match [r] at the start of [rest], then go on
    with [k]; the first alternative that lets [k] succeed wins. *)
Fixpoint re_match `{PyRuntime} {A : Type} (r : regex) (before rest : pystr)
    (k : pystr -> pystr -> option A) : option A :=
  match r with
  | CharClass p =>
      match rest with
      | c :: rest' => if p c then k (c :: before) rest' else None
      | [] => None
      end
  | WordBoundary => if at_word_boundary before rest then k before rest else None
  | Seq r1 r2 => re_match r1 before rest (fun b s => re_match r2 b s k)
  | Star r1 => star_loop (re_match r1) (S (length rest)) before rest k
  end.

(** The words a pattern can match, whatever stands around them. *)
Inductive lang : regex -> pystr -> Prop :=
| lang_class (p : N -> bool) (c : N) : p c = true -> lang (CharClass p) [c]
| lang_boundary : lang WordBoundary []
| lang_seq (r1 r2 : regex) (w1 w2 : pystr) :
    lang r1 w1 -> lang r2 w2 -> lang (Seq r1 r2) (w1 ++ w2)
| lang_star_nil (r : regex) : lang (Star r) []
| lang_star_cons (r : regex) (w1 w2 : pystr) :
    lang r w1 -> lang (Star r) w2 -> lang (Star r) (w1 ++ w2).

(** Text in which a letter is upper case exactly at the start and after
    whitespace, and lower case elsewhere ([start]: the next letter starts a
    word). *)
Fixpoint capitalised (start : bool) (w : pystr) : Prop :=
  match w with
  | [] => True
  | c :: w' =>
      if is_space c then capitalised true w'
      else (if start then is_upper_az c else is_lower_az c) = true /\ capitalised false w'
  end.

(** [re.findall(r, text)] for a pattern without groups: the matches from
    left to right, each search starting where the last match ended. *)
Fixpoint findall_from `{PyRuntime} (fuel : nat) (r : regex) (before rest : pystr) : list pystr :=
  match fuel with
  | O => []
  | S fuel' =>
      let advance :=
        match rest with
        | [] => []
        | c :: rest' => findall_from fuel' r (c :: before) rest'
        end in
      match re_match r before rest (fun b s => Some (b, s)) with
      | Some (before', rest') =>
          let matched := rev (firstn (length before' - length before) before') in
          if (length rest' <? length rest)%nat
          then matched :: findall_from fuel' r before' rest'
          else matched :: advance
      | None => advance
      end
  end.

Definition findall `{PyRuntime} (r : regex) (text : pystr) : list pystr :=
  findall_from (S (length text)) r [] text.

(** [[A-Z][a-z]+]. *)
Definition capitalised_word : regex :=
  Seq (CharClass is_upper_az) (Plus (CharClass is_lower_az)).

(** [r'\b[A-Z][a-z]+(?:\s+[A-Z][a-z]+)*\b']. *)
Definition proper_noun_pattern : regex :=
  Seq WordBoundary
    (Seq capitalised_word
       (Seq (Star (Seq (Plus (CharClass is_space)) capitalised_word))
          WordBoundary)).

Definition stopwords : gset pystr :=
  list_to_set (map cps
    ["Extract"; "Focus"; "People"; "Important"; "Relationships"; "Return";
     "The"; "This"; "That"; "These"; "Those"; "He"; "She"; "It"; "They";
     "Entity"; "Entities"; "Task"; "Following"; "Text"; "Content"]%string).

Definition relation_patterns : list (string * pystr) :=
  [ ("([A-Z][a-zA-Z\s]+?)\s+(?:works|worked)\s+(?:at|for)\s+([A-Z][a-zA-Z\s]+?)(?:\.|,|$|\s)"%string, cps "works_at");
    ("([A-Z][a-zA-Z\s]+?)\s+(?:lives|lived)\s+(?:in|at)\s+([A-Z][a-zA-Z\s]+?)(?:\.|,|$|\s)"%string, cps "lives_in");
    ("([A-Z][a-zA-Z\s]+?)\s+(?:is|was)\s+(?:the\s+)?(?:CEO|CTO|CFO|President|Manager)\s+(?:of\s+)?([A-Z][a-zA-Z\s]+?)(?:\.|,|$|\s)"%string, cps "leads");
    ("([A-Z][a-zA-Z\s]+?)\s+(?:founded|created|built)\s+([A-Z][a-zA-Z\s]+?)(?:\.|,|$|\s)"%string, cps "founded") ].

Definition text_markers : list string :=
  [ "{{ text_input }}.*?$"; "text:\s*(.+?)(?:\n\n|$)";
    "input:\s*(.+?)(?:\n\n|$)"; "sentence:\s*(.+?)(?:\n\n|$)" ]%string.

(** The first marker that is found decides the input text. *)
Fixpoint first_marker `{PyRuntime} (markers : list string) (prompt : pystr) : option pystr :=
  match markers with
  | [] => None
  | marker :: markers' =>
      match re_search_ignorecase_dotall marker prompt with
      | Some (group0, Some group1) => Some (strip group1)
      | Some (group0, None) => Some group0
      | None => first_marker markers' prompt
      end
  end.

(** The fallback: the last line that looks like input. *)
Definition looks_like_input (line : pystr) : bool :=
  truthy line && (10 <? length line)%nat
  && negb (starts_with (cps "Focus") line)
  && negb (starts_with (cps "Extract") line)
  && negb (starts_with (cps "Return") line)
  && negb (starts_with (cps "1.") line)
  && negb (contains (cps "{{") line).

(** [LocalExtractor._extract_input_text_from_prompt]. *)
Definition _extract_input_text_from_prompt `{PyRuntime} (prompt : pystr) : pystr :=
  match first_marker text_markers prompt with
  | Some input_text => input_text
  | None =>
      match List.find looks_like_input (map strip (rev (split_on 10 (strip prompt)))) with
      | Some line => line
      | None => prompt
      end
  end.

(** One relation of the result dictionary. *)
Record Relation : Type := { rel_source : pystr; rel_target : pystr; rel_relation : pystr }.

(** The dictionary [_extract_from_prompt] serialises with [json.dumps]. *)
Record ExtractionResult : Type := { entities : list pystr; relations : list Relation }.

(** The entity half of [_extract_from_prompt], from the input text on. *)
Definition entities_of_input_text `{PyRuntime} (input_text : pystr) : list pystr :=
  let proper_nouns := findall proper_noun_pattern input_text in
  let entities :=
    List.filter (fun noun => bool_decide (noun ∉ stopwords) && (1 <? length noun)%nat)
      proper_nouns in
  let unique_entities := dict_fromkeys entities in
  firstn 10 unique_entities.

(** The relation half. *)
Definition relations_of_input_text `{PyRuntime} (input_text : pystr) : list Relation :=
  let relations :=
    flat_map
      (fun '(pattern, rel_type) =>
         flat_map
           (fun '(m0, m1) =>
              let source := strip m0 in
              let target := strip m1 in
              if truthy source && truthy target
                 && (1 <? length source)%nat && (1 <? length target)%nat
                 && bool_decide (source ∉ stopwords) && bool_decide (target ∉ stopwords)
              then [{| rel_source := source; rel_target := target; rel_relation := rel_type |}]
              else [])
           (re_findall_pairs_ignorecase pattern input_text))
      relation_patterns in
  firstn 5 relations.

(** [LocalExtractor._extract_from_prompt], before [json.dumps]. *)
Definition _extract_from_prompt `{PyRuntime} (prompt : pystr) : ExtractionResult :=
  let input_text := _extract_input_text_from_prompt prompt in
  {| entities := entities_of_input_text input_text;
     relations := relations_of_input_text input_text |}.

End NumaModule.

(** ** knowledge_service.py *)

Module KnowledgeService.

Definition entity_patterns : list string :=
  [ "\b[A-Z][a-z]+(?:\s+[A-Z][a-z]+)*\b";
    "\b(?:user|customer|person|company|organization|system|product|service|team|project|document|file|report|task|issue|bug|feature|requirement)\b";
    "\b\w+@\w+\.\w+\b";
    "\b(?:https?://)?(?:www\.)?[\w\.-]+\.\w+\b";
    "\b\d{4}-\d{2}-\d{2}\b";
    "\b\$\d+(?:,\d{3})*(?:\.\d{2})?\b" ]%string.

Definition relationship_indicators : list pystr :=
  map cps
    [ "works for"; "manages"; "reports to"; "created"; "owns"; "uses"; "depends on";
      "is part of"; "contains"; "relates to"; "associated with"; "connected to";
      "mentioned in"; "refers to"; "implements"; "extends"; "inherits from" ]%string.

(** [any(word in s for word in words)]. *)
Definition any_in (words : list string) (s : pystr) : bool :=
  existsb (fun word => contains (cps word) s) words.

(** [InHouseLLMClient._classify_entity]. *)
Definition _classify_entity `{PyRuntime} (entity_name context : pystr) : Z :=
  let entity_lower := py_lower entity_name in
  if any_in ["user"; "person"; "customer"; "employee"]%string entity_lower then 1%Z
  else if any_in ["company"; "organization"; "corp"; "inc"]%string entity_lower then 2%Z
  else if any_in ["system"; "application"; "software"; "platform"]%string entity_lower then 3%Z
  else if contains (cps "@") entity_name || contains (cps "http") entity_name then 4%Z
  else 0%Z.

(** [s[:n] + "..." if len(s) > n else s]. *)
Definition ellipsis (n : nat) (s : pystr) : pystr :=
  if (n <? length s)%nat then firstn n s ++ cps "..." else s.

(** [InHouseLLMClient._generate_entity_summary]. *)
Definition _generate_entity_summary `{PyRuntime} (entity_name context : pystr) : pystr :=
  let sentences := split_sentences context in
  let relevant_sentences :=
    map strip
      (List.filter (fun sentence => contains (py_lower entity_name) (py_lower sentence)) sentences) in
  match relevant_sentences with
  | summary :: _ => ellipsis 200 summary
  | [] => cps "Entity mentioned in the context: " ++ entity_name
  end.

(** The two accumulators of [_extract_entities]. *)
Record Scan : Type := { scan_entities : list ExtractedEntity; seen_entities : gset pystr }.

(** What the loop body does with one regex match. *)
Definition scan_match `{PyRuntime} (text : pystr) (acc : Scan) (matched : pystr) : Scan :=
  let entity_name := strip matched in
  let entity_name := collapse_ws entity_name in
  let entity_name := py_title entity_name in
  if (2 <? length entity_name)%nat && bool_decide (py_lower entity_name ∉ seen_entities acc) then
    {| scan_entities :=
         scan_entities acc ++
         [{| entity_name := entity_name;
             entity_type_id := _classify_entity entity_name text;
             entity_summary := Some (_generate_entity_summary entity_name text) |}];
       seen_entities := {[ py_lower entity_name ]} ∪ seen_entities acc |}
  else acc.

(** The nested loops of [_extract_entities]: every match of every pattern,
    in order. *)
Definition scan_patterns `{PyRuntime} (text : pystr) : Scan :=
  fold_left
    (fun acc pattern => fold_left (scan_match text) (re_finditer_ignorecase pattern text) acc)
    entity_patterns
    {| scan_entities := []; seen_entities := ∅ |}.

(** [InHouseLLMClient._extract_entities]: the value under
    ["extracted_entities"]. *)
Definition _extract_entities `{PyRuntime} (text : pystr) : list ExtractedEntity :=
  firstn 20 (scan_entities (scan_patterns text)).

(** [indicator.replace(" ", "_")]. *)
Definition underscored (indicator : pystr) : pystr :=
  map (fun c => if c =? 32 then 95 else c) indicator.

(** [InHouseLLMClient._extract_relationships]: the value under
    ["extracted_edges"]. *)
Definition _extract_relationships `{PyRuntime} (text : pystr) : list ExtractedEdge :=
  let sentences := split_sentences text in
  let relationships :=
    flat_map
      (fun sentence =>
         let sentence := strip sentence in
         if (length sentence <? 10)%nat then []
         else
           flat_map
             (fun indicator =>
                if contains indicator (py_lower sentence) then
                  let words := split_ws sentence in
                  let entities_in_sentence :=
                    List.filter
                      (fun word => (2 <? length word)%nat
                                   && match word with c :: _ => py_isupper c | [] => false end)
                      words in
                  match entities_in_sentence with
                  | source :: target :: _ =>
                      [{| source_name := source;
                          target_name := target;
                          relation_type := underscored indicator;
                          summary := Some (ellipsis 100 sentence) |}]
                  | _ => []
                  end
                else [])
             relationship_indicators)
      sentences in
  firstn 15 relationships.

(** [InHouseLLMClient.generate_response]: the in-house client has no state
    and never raises. *)
Definition in_house_generate_response `{PyRuntime} (messages : list Message)
    (response_model : ResponseModel) : Response :=
  let combined_text := join [10] (map content messages) in
  match response_model with
  | ExtractedEntities =>
      {| extracted_entities := Some (_extract_entities combined_text);
         extracted_edges := None; missed_entities := None |}
  | ExtractedEdges =>
      {| extracted_entities := None;
         extracted_edges := Some (_extract_relationships combined_text);
         missed_entities := None |}
  | MissedEntities =>
      {| extracted_entities := None; extracted_edges := None; missed_entities := Some [] |}
  | DuplicateEntities => empty_response
  end.

Definition InHouseLLMClient `{PyRuntime} : Client unit :=
  {| generate_response := fun messages response_model b =>
       (Returns (in_house_generate_response messages response_model), b) |}.

(** [for x in l: acc = f(acc, x)] with calls in the body. *)
Fixpoint fold_m {B A X : Type} (f : A -> X -> M B A) (l : list X) (acc : A) : M B A :=
  match l with
  | [] => ret acc
  | x :: l' => acc' <- f acc x ;; fold_m f l' acc'
  end.

(** [l[-n:]]. *)
Definition last_n {A : Type} (n : nat) (l : list A) : list A :=
  skipn (length l - n) l.

(** [InHouseKnowledgeExtractor.extract_nodes].  The node is built from
    [entity_data.get("summary", "")]: a summary that is [None] reaches
    [EntityNode(summary: str)] as it is, and pydantic refuses it, after the
    identifier has been drawn. *)
Definition extract_nodes {B : Type} `{Client B} `{PyRuntime}
    (episode : EpisodicNode) (previous_episodes : list EpisodicNode) : M B (list EntityNode) :=
  let context_text := cps "Episode: " ++ episode_content episode ++ [10] in
  let context_text :=
    match previous_episodes with
    | [] => context_text
    | _ :: _ =>
        fold_left
          (fun context_text prev_ep =>
             context_text ++ cps "- " ++ firstn 100 (episode_content prev_ep) ++ cps "..." ++ [10])
          (last_n 3 previous_episodes)
          (context_text ++ cps "Previous episodes:" ++ [10])
    end in
  let messages := [{| role := cps "user"; content := context_text |}] in
  result <- call messages ExtractedEntities ;;
  let extracted_entities := default [] (extracted_entities result) in
  fold_m
    (fun nodes entity_data =>
       uuid <- fresh_uuid ;;
       match entity_summary entity_data with
       | Some summary =>
           ret (nodes ++
                [{| node_uuid := uuid;
                    node_name := entity_name entity_data;
                    node_labels := [cps "Entity"];
                    node_summary := summary;
                    node_group_id := episode_group_id episode |}])
       | None => raise (none_summary_error "EntityNode")
       end)
    extracted_entities [].

(** [{node.name: node for node in nodes}]. *)
Definition node_map (nodes : list EntityNode) : gmap pystr EntityNode :=
  fold_left (fun m node => <[node_name node := node]> m) nodes ∅.

(** [InHouseKnowledgeExtractor.extract_edges]; a summary that is [None]
    is refused by [EdgeNode(summary: str)] in the same way. *)
Definition extract_edges {B : Type} `{Client B} `{PyRuntime}
    (nodes : list EntityNode) (episode : EpisodicNode)
    (previous_episodes : list EpisodicNode) : M B (list EdgeNode) :=
  if (length nodes <? 2)%nat then ret []
  else
    let context_text := cps "Episode: " ++ episode_content episode ++ [10] in
    let context_text :=
      context_text ++ cps "Entities: " ++ join (cps ", ") (map node_name nodes) ++ [10] in
    let messages := [{| role := cps "user"; content := context_text |}] in
    result <- call messages ExtractedEdges ;;
    let extracted_edges := default [] (extracted_edges result) in
    fold_m
      (fun edges edge_data =>
         match node_map nodes !! source_name edge_data, node_map nodes !! target_name edge_data with
         | Some source_node, Some target_node =>
             uuid <- fresh_uuid ;;
             match summary edge_data with
             | Some edge_summary =>
                 ret (edges ++
                      [{| edge_uuid := uuid;
                          source_node_uuid := node_uuid source_node;
                          target_node_uuid := node_uuid target_node;
                          edge_relation_type := relation_type edge_data;
                          edge_summary := edge_summary;
                          edge_group_id := episode_group_id episode |}])
             | None => raise (none_summary_error "EdgeNode")
             end
         | _, _ => ret edges
         end)
      extracted_edges [].

End KnowledgeService.

(** ** extraction_service.py *)

Module ExtractionService.

Record RequestMessage : Type := {
  msg_uuid : pystr;
  msg_role : pystr;
  msg_content : pystr;
  msg_role_type : option pystr }.

Record EpisodeData : Type := {
  data_uuid : pystr;
  data_content : pystr;
  data_timestamp : pystr;
  data_source : pystr;
  data_group_id : pystr }.

Record EntityType : Type := {
  type_id : Z;
  type_name : pystr;
  type_description : pystr }.

Record ExtractionRequest : Type := {
  group_id : pystr;
  messages : list RequestMessage;
  previous_episodes : option (list EpisodeData);
  entity_types : option (list EntityType);
  use_numa : option bool }.

Record ExtractionResponse : Type := {
  success : bool;
  extracted_nodes : list EntityNode;
  extracted_edges : list EdgeNode;
  error : option pystr }.

(** The service object: each client, when it was initialised, with the
    world it works in. *)
Record Service (L B : Type) : Type := {
  llm_client : option (World L);
  numa_client : option (World B) }.
Arguments llm_client {L B} s.
Arguments numa_client {L B} s.

(** [KnowledgeExtractor], the extractor [_extract_with_llm] builds around
    the LLM client.  Its module
    (internal/knowledge/python/knowledge_extractor.py) is not among the
    sources, so its two methods are taken as given: each returns or raises. *)
Class KnowledgeExtractor (L : Type) : Type := {
  knowledge_extract_nodes :
    EpisodicNode -> list EpisodicNode -> NumaExtractor.EntityTypes -> M L (list EntityNode);
  knowledge_extract_edges :
    list EntityNode -> EpisodicNode -> list EpisodicNode -> M L (list EdgeNode) }.

(** [ExtractionService._convert_to_episode]. *)
Definition _convert_to_episode {B : Type} `{PyRuntime}
    (request : ExtractionRequest) : M B EpisodicNode :=
  let content_parts :=
    map (fun msg =>
           let role_prefix :=
             if truthy (msg_role msg) then cps "[" ++ msg_role msg ++ cps "]" else [] in
           strip (role_prefix ++ cps " " ++ msg_content msg))
        (messages request) in
  uuid <- fresh_uuid ;;
  ret {| episode_uuid := uuid;
         episode_group_id := group_id request;
         episode_source := message;
         episode_content := join [10] content_parts;
         episode_source_description := Some (cps "DMV Test Conversation") |}.

(** [ExtractionService._convert_previous_episodes]; [fromisoformat] raises
    on a timestamp it cannot parse. *)
Fixpoint _convert_previous_episodes {B : Type} `{PyRuntime}
    (previous_episodes : list EpisodeData) : M B (list EpisodicNode) :=
  match previous_episodes with
  | [] => ret []
  | ep :: rest =>
      match fromisoformat_error (data_timestamp ep) with
      | Some e => raise e
      | None =>
          converted <- _convert_previous_episodes rest ;;
          ret ({| episode_uuid := data_uuid ep;
                  episode_group_id := data_group_id ep;
                  episode_source := message;
                  episode_content := data_content ep;
                  episode_source_description := Some (data_source ep) |} :: converted)
      end
  end.

(** [ExtractionService._convert_entity_types]: a list of classes, which the
    extractor reads through [str]. *)
Definition _convert_entity_types `{PyRuntime} (entity_types : list EntityType)
    : NumaExtractor.EntityTypes :=
  NumaExtractor.EntityTypesList (map (fun _ => str_local_entity_type) entity_types).

(** [ExtractionService._extract_with_llm]. *)
Definition _extract_with_llm {L : Type} `{KnowledgeExtractor L} `{PyRuntime}
    (request : ExtractionRequest) : M L ExtractionResponse :=
  episode <- _convert_to_episode request ;;
  previous_episodes <- _convert_previous_episodes (default [] (previous_episodes request)) ;;
  let entity_types := _convert_entity_types (default [] (entity_types request)) in
  extracted_nodes <- knowledge_extract_nodes episode previous_episodes entity_types ;;
  extracted_edges <- knowledge_extract_edges extracted_nodes episode previous_episodes ;;
  ret {| success := true;
         extracted_nodes := extracted_nodes;
         extracted_edges := extracted_edges;
         error := None |}.

(** [ExtractionService._extract_with_numa]. *)
Definition _extract_with_numa {B : Type} `{Client B} `{PyRuntime}
    (request : ExtractionRequest) : M B ExtractionResponse :=
  episode <- _convert_to_episode request ;;
  previous_episodes <- _convert_previous_episodes (default [] (previous_episodes request)) ;;
  let entity_types := _convert_entity_types (default [] (entity_types request)) in
  extracted_nodes <- NumaExtractor.extract_nodes episode previous_episodes entity_types ;;
  extracted_edges <- NumaExtractor.extract_edges extracted_nodes episode previous_episodes ;;
  ret {| success := true;
         extracted_nodes := extracted_nodes;
         extracted_edges := extracted_edges;
         error := None |}.

Definition no_clients : exn :=
  {| exn_cls := RuntimeError; exn_msg := cps "No extraction clients available" |}.

(** The part of [extract_knowledge] from the comment "Fallback: Use Numa
    client" to the [raise]. *)
Definition numa_or_raise {L B : Type} `{Client B} `{PyRuntime}
    (request : ExtractionRequest) (svc : Service L B)
    : outcome ExtractionResponse * Service L B :=
  match numa_client svc with
  | Some w =>
      match _extract_with_numa request w with
      | (result, w') => (result, {| llm_client := llm_client svc; numa_client := Some w' |})
      end
  | None => (Raises no_clients, svc)
  end.

(** The body of the outer [try] of [extract_knowledge]. *)
Definition extract_knowledge_body {L B : Type} `{KnowledgeExtractor L} `{Client B} `{PyRuntime}
    (request : ExtractionRequest) (svc : Service L B)
    : outcome ExtractionResponse * Service L B :=
  let use_numa :=
    default false (use_numa request)
    || match llm_client svc with None => true | Some _ => false end in
  match negb use_numa, llm_client svc with
  | true, Some llm =>
      match _extract_with_llm request llm with
      | (Returns result, llm') =>
          (Returns result, {| llm_client := Some llm'; numa_client := numa_client svc |})
      | (Raises e, llm') =>
          numa_or_raise request {| llm_client := Some llm'; numa_client := numa_client svc |}
      end
  | _, _ => numa_or_raise request svc
  end.

(** The response the outer [except Exception as e] builds. *)
Definition failure_response (e : exn) : ExtractionResponse :=
  {| success := false; extracted_nodes := []; extracted_edges := []; error := Some (str_exn e) |}.

(** [ExtractionService.extract_knowledge]. *)
Definition extract_knowledge {L B : Type} `{KnowledgeExtractor L} `{Client B} `{PyRuntime}
    (request : ExtractionRequest) (svc : Service L B)
    : outcome ExtractionResponse * Service L B :=
  match extract_knowledge_body request svc with
  | (Returns result, svc') => (Returns result, svc')
  | (Raises e, svc') => (Returns (failure_response e), svc')
  end.

End ExtractionService.

(** ** embedding_service.py: the fallback embedding *)

Module EmbeddingService.

(** What CPython and numpy contribute: the floating-point numbers; the
    built-in [hash] of a string, which CPython keys with a secret drawn
    when the process starts (unless PYTHONHASHSEED fixes it), here the
    first argument; [np.random.seed(seed)] followed by
    [np.random.randn(n).astype(float)], [n] numbers that the seed
    determines; [np.linalg.norm] and the division of two floats. *)
Class NumpyRuntime : Type := {
  float64 : Type;
  str_hash : N -> pystr -> Z;
  randn : Z -> nat -> list float64;
  randn_length : forall (seed : Z) (n : nat), length (randn seed n) = n;
  linalg_norm : list float64 -> float64;
  true_divide : float64 -> float64 -> float64 }.

(** [self.dimension]. *)
Definition dimension : nat := 384.

(** [_generate_mock_embeddings] in a process whose hash secret is
    [hash_secret]. *)
Definition _generate_mock_embeddings `{NumpyRuntime} (hash_secret : N) (texts : list pystr)
    : list (list float64) :=
  map (fun text =>
         let hash_val := (str_hash hash_secret text mod 2 ^ 31)%Z in
         let embedding := randn hash_val dimension in
         let embedding := map (fun x => true_divide x (linalg_norm embedding)) embedding in
         embedding)
      texts.

End EmbeddingService.

(** ** Concrete runtimes, clients and inputs for the examples *)

Module Examples.

Definition is_alnum_az (c : N) : bool :=
  is_upper_az c || is_lower_az c || ((48 <=? c) && (c <=? 57)) || (c =? 95).

Definition repr_str (s : pystr) : pystr := cps "'" ++ s ++ cps "'".

Definition repr_entity_type (info : Z * pystr * option pystr) : pystr :=
  let '(id, name, description) := info in
  cps "{'entity_type_id': " ++ str_of_nat (Z.to_nat id)
  ++ cps ", 'entity_type_name': " ++ repr_str name
  ++ cps ", 'entity_type_description': "
  ++ match description with Some d => repr_str d | None => cps "None" end
  ++ cps "}".

Fixpoint title_from (in_word : bool) (s : pystr) : pystr :=
  match s with
  | [] => []
  | c :: s' =>
      if is_upper_az c then (if in_word then c + 32 else c) :: title_from true s'
      else if is_lower_az c then (if in_word then c else c - 32) :: title_from true s'
      else c :: title_from false s'
  end.

(** A runtime that agrees with CPython on ASCII text free of quotes and
    backslashes; its regex searches find nothing, its timestamps parse. *)
Definition ascii_runtime_base : PyRuntime :=
  {| repr_entity_types := fun l => cps "[" ++ join (cps ", ") (map repr_entity_type l) ++ cps "]";
     repr_names := fun l => cps "[" ++ join (cps ", ") (map repr_str l) ++ cps "]";
     uuid4 := fun n => cps "uuid-" ++ str_of_nat n;
     py_lower := map lower_az;
     py_title := title_from false;
     py_isupper := is_upper_az;
     is_word_char := is_alnum_az;
     re_finditer_ignorecase := fun _ _ => [];
     re_findall_pairs_ignorecase := fun _ _ => [];
     re_search_ignorecase_dotall := fun _ _ => None;
     fromisoformat_error := fun _ => None;
     str_local_entity_type := cps "<class 'LocalEntityType'>";
     entity_label_first := fun _ => true;
     none_summary_error := fun model =>
       {| exn_cls := ValueError;
          exn_msg := cps "1 validation error for " ++ cps model ++ [10] ++ cps "summary" |} |}.

(** The first entity pattern under IGNORECASE, on ASCII text. *)
Definition is_letter_az (c : N) : bool := is_upper_az c || is_lower_az c.

Definition words_pattern : NumaModule.regex :=
  let word := NumaModule.Seq (NumaModule.CharClass is_letter_az)
                (NumaModule.Plus (NumaModule.CharClass is_letter_az)) in
  NumaModule.Seq NumaModule.WordBoundary
    (NumaModule.Seq word
       (NumaModule.Seq
          (NumaModule.Star (NumaModule.Seq (NumaModule.Plus (NumaModule.CharClass is_space)) word))
          NumaModule.WordBoundary)).

(** The same runtime with that one search in place. *)
Definition ascii_runtime : PyRuntime :=
  {| repr_entity_types := @repr_entity_types ascii_runtime_base;
     repr_names := @repr_names ascii_runtime_base;
     uuid4 := @uuid4 ascii_runtime_base;
     py_lower := map lower_az;
     py_title := title_from false;
     py_isupper := is_upper_az;
     is_word_char := is_alnum_az;
     re_finditer_ignorecase := fun pattern text =>
       if String.eqb pattern "\b[A-Z][a-z]+(?:\s+[A-Z][a-z]+)*\b"
       then @NumaModule.findall ascii_runtime_base words_pattern text
       else [];
     re_findall_pairs_ignorecase := fun _ _ => [];
     re_search_ignorecase_dotall := fun _ _ => None;
     fromisoformat_error := fun _ => None;
     str_local_entity_type := cps "<class 'LocalEntityType'>";
     entity_label_first := fun _ => true;
     none_summary_error := fun model =>
       {| exn_cls := ValueError;
          exn_msg := cps "1 validation error for " ++ cps model ++ [10] ++ cps "summary" |} |}.

Definition new_world {B : Type} (b : B) : World B :=
  {| backend := b; calls := []; uuids_drawn := 0 |}.

(** A backend that finds one entity and whose reflexion always reports the
    same missed entity. *)
Definition insistent_client : Client unit :=
  {| generate_response := fun _ response_model b =>
       (Returns
          match response_model with
          | ExtractedEntities =>
              {| extracted_entities :=
                   Some [{| entity_name := cps "Ann"; entity_type_id := 0%Z; entity_summary := None |}];
                 extracted_edges := None; missed_entities := None |}
          | MissedEntities =>
              {| extracted_entities := None; extracted_edges := None;
                 missed_entities := Some [cps "Zed"] |}
          | _ => empty_response
          end, b) |}.

Definition episode_ann : EpisodicNode :=
  {| episode_uuid := cps "e1";
     episode_group_id := cps "g";
     episode_source := message;
     episode_content := cps "Ann met Bob";
     episode_source_description := None |}.

Definition node_ann : EntityNode :=
  {| node_uuid := cps "g-0"; node_name := cps "Ann"; node_labels := [cps "Entity"];
     node_summary := []; node_group_id := cps "g" |}.

Definition node_bob : EntityNode :=
  {| node_uuid := cps "g-1"; node_name := cps "Bob"; node_labels := [cps "Entity"];
     node_summary := []; node_group_id := cps "g" |}.

Definition episode_self_loop : EpisodicNode :=
  {| episode_uuid := cps "e2";
     episode_group_id := cps "g";
     episode_source := message;
     episode_content := cps "Ann, Bob. Ann manages Ann";
     episode_source_description := None |}.

(** HTTP 503 on the first three attempts, a result on the fourth. *)
Definition service_unavailable : exn :=
  {| exn_cls := HTTPStatusError 503; exn_msg := cps "Server error '503 Service Unavailable'" |}.

Definition flaky (n : nat) : outcome pystr :=
  if (n <? 4)%nat then Raises service_unavailable else Returns (cps "ok").

Definition always_unavailable (n : nat) : outcome pystr := Raises service_unavailable.

Definition bad_request (n : nat) : outcome pystr :=
  Raises {| exn_cls := HTTPStatusError 400; exn_msg := cps "Client error '400 Bad Request'" |}.

(** A remote extractor whose calls end, retries exhausted, in HTTP 503. *)
Definition unavailable_extractor : ExtractionService.KnowledgeExtractor unit :=
  {| ExtractionService.knowledge_extract_nodes := fun _ _ _ => raise service_unavailable;
     ExtractionService.knowledge_extract_edges := fun _ _ _ => raise service_unavailable |}.

Definition request_ann : ExtractionService.ExtractionRequest :=
  {| ExtractionService.group_id := cps "g";
     ExtractionService.messages :=
       [{| ExtractionService.msg_uuid := cps "m1";
           ExtractionService.msg_role := cps "user";
           ExtractionService.msg_content := cps "Ann met Bob";
           ExtractionService.msg_role_type := None |}];
     ExtractionService.previous_episodes := None;
     ExtractionService.entity_types := None;
     ExtractionService.use_numa := Some false |}.

(** A service with both clients initialised, and one with the Numa client
    only. *)
Definition service_both : ExtractionService.Service unit unit :=
  {| ExtractionService.llm_client := Some (new_world tt);
     ExtractionService.numa_client := Some (new_world tt) |}.

Definition service_numa_only : ExtractionService.Service unit unit :=
  {| ExtractionService.llm_client := None;
     ExtractionService.numa_client := Some (new_world tt) |}.

(** A remote extractor that answers: one node, no edge. *)
Definition answering_extractor : ExtractionService.KnowledgeExtractor unit :=
  {| ExtractionService.knowledge_extract_nodes := fun _ _ _ => ret [node_bob];
     ExtractionService.knowledge_extract_edges := fun _ _ _ => ret [] |}.

(** The request of [request_ann] with [use_numa] set. *)
Definition request_numa : ExtractionService.ExtractionRequest :=
  {| ExtractionService.group_id := cps "g";
     ExtractionService.messages := ExtractionService.messages request_ann;
     ExtractionService.previous_episodes := None;
     ExtractionService.entity_types := None;
     ExtractionService.use_numa := Some true |}.

(** The runtime of the examples, with a [fromisoformat] that refuses the
    timestamp ["yesterday"]. *)
Definition strict_dates_runtime : PyRuntime :=
  {| repr_entity_types := @repr_entity_types ascii_runtime;
     repr_names := @repr_names ascii_runtime;
     uuid4 := @uuid4 ascii_runtime;
     py_lower := @py_lower ascii_runtime;
     py_title := @py_title ascii_runtime;
     py_isupper := @py_isupper ascii_runtime;
     is_word_char := @is_word_char ascii_runtime;
     re_finditer_ignorecase := @re_finditer_ignorecase ascii_runtime;
     re_findall_pairs_ignorecase := @re_findall_pairs_ignorecase ascii_runtime;
     re_search_ignorecase_dotall := @re_search_ignorecase_dotall ascii_runtime;
     fromisoformat_error := fun s =>
       if bool_decide (s = cps "yesterday")
       then Some {| exn_cls := ValueError;
                    exn_msg := cps "Invalid isoformat string: 'yesterday'" |}
       else None;
     str_local_entity_type := @str_local_entity_type ascii_runtime;
     entity_label_first := @entity_label_first ascii_runtime;
     none_summary_error := @none_summary_error ascii_runtime |}.

(** A request whose one previous episode carries that timestamp. *)
Definition request_yesterday : ExtractionService.ExtractionRequest :=
  {| ExtractionService.group_id := cps "g";
     ExtractionService.messages := ExtractionService.messages request_ann;
     ExtractionService.previous_episodes :=
       Some [{| ExtractionService.data_uuid := cps "e0";
                ExtractionService.data_content := cps "Bob left";
                ExtractionService.data_timestamp := cps "yesterday";
                ExtractionService.data_source := cps "chat";
                ExtractionService.data_group_id := cps "g" |}];
     ExtractionService.entity_types := None;
     ExtractionService.use_numa := Some false |}.

(** Two processes for the fallback embedding: numbers stand for the
    floats, the hash of a text is the sum of its code points and of the
    process's secret, the generator counts up from the seed, and the norm
    is taken to be one. *)
Definition counting_numpy : EmbeddingService.NumpyRuntime :=
  {| EmbeddingService.float64 := Z;
     EmbeddingService.str_hash := fun hash_secret text =>
       Z.of_N (hash_secret + fold_right N.add 0 text);
     EmbeddingService.randn := fun seed n => map (fun i => (seed + Z.of_nat i)%Z) (seq 0 n);
     EmbeddingService.randn_length := fun seed n =>
       eq_trans (List.length_map _ (seq 0 n)) (List.length_seq n 0);
     EmbeddingService.linalg_norm := fun _ => 1%Z;
     EmbeddingService.true_divide := Z.div |}.

End Examples.

(** ** Python dictionaries, in insertion order *)

Module PyDict.

(** A [dict] with string keys: the items in insertion order.  A dictionary
    built by the operations below from the empty one holds each key once. *)
Definition dict (V : Type) : Type := list (pystr * V).

Definition keys {V : Type} (d : dict V) : list pystr := map fst d.

(** [d.get(k)]. *)
Fixpoint get {V : Type} (d : dict V) (k : pystr) : option V :=
  match d with
  | [] => None
  | (k', v) :: d' => if bool_decide (k' = k) then Some v else get d' k
  end.

(** [d[k] = v]: a key that is present keeps its place, a new one goes last. *)
Fixpoint assign {V : Type} (d : dict V) (k : pystr) (v : V) : dict V :=
  match d with
  | [] => [(k, v)]
  | (k', v') :: d' =>
      if bool_decide (k' = k) then (k', v) :: d' else (k', v') :: assign d' k v
  end.

(** [del d[k]] for a key that is present. *)
Fixpoint del {V : Type} (d : dict V) (k : pystr) : dict V :=
  match d with
  | [] => []
  | (k', v') :: d' => if bool_decide (k' = k) then d' else (k', v') :: del d' k
  end.

End PyDict.

(** ** numa_module.py: the prompt cache *)

Module PromptCache.

(** What [hashlib] and the UTF-8 codec contribute: the MD5 digest of a
    byte string, in hexadecimal, and the text of the [UnicodeEncodeError]
    the strict encoder raises on a string that holds a surrogate. *)
Class Hashing : Type := {
  md5_hexdigest : list N -> pystr;
  surrogates_not_allowed : pystr -> pystr }.

(** The UTF-8 bytes of a code point that is no surrogate. *)
Definition utf8_bytes (c : N) : list N :=
  if c <? 0x80 then [c]
  else if c <? 0x800 then [0xC0 + c / 64; 0x80 + c mod 64]
  else if c <? 0x10000 then [0xE0 + c / 4096; 0x80 + (c / 64) mod 64; 0x80 + c mod 64]
  else [0xF0 + c / 262144; 0x80 + (c / 4096) mod 64; 0x80 + (c / 64) mod 64; 0x80 + c mod 64].

(** [text.encode("utf-8")]: the strict encoder raises [UnicodeEncodeError],
    a [ValueError], on a surrogate. *)
Definition encode_utf8 `{Hashing} (text : pystr) : outcome (list N) :=
  if existsb is_surrogate text
  then Raises {| exn_cls := ValueError; exn_msg := surrogates_not_allowed text |}
  else Returns (flat_map utf8_bytes text).

(** [calculate_hash(text)] for a [str]. *)
Definition calculate_hash `{Hashing} (text : pystr) : outcome pystr :=
  match encode_utf8 text with
  | Raises e => Raises e
  | Returns data => Returns (md5_hexdigest data)
  end.

(** A [PromptCache] object. *)
Record PromptCache (V : Type) : Type := {
  cache_size : Z;
  cache : PyDict.dict V }.
Arguments cache_size {V} p.
Arguments cache {V} p.

(** [PromptCache(cache_size)]. *)
Definition __init__ {V : Type} (cache_size : Z) : PromptCache V :=
  {| cache_size := cache_size; cache := [] |}.

(** [PromptCache.get]. *)
Definition get `{Hashing} {V : Type} (self : PromptCache V) (prompt : pystr)
    : outcome (option V) :=
  match calculate_hash prompt with
  | Raises e => Raises e
  | Returns prompt_hash => Returns (PyDict.get (cache self) prompt_hash)
  end.

(** [next(iter({}))] raises [StopIteration], which has no message. *)
Definition StopIteration : exn := {| exn_cls := OtherException; exn_msg := [] |}.

(** [PromptCache.add]. *)
Definition add `{Hashing} {V : Type} (self : PromptCache V) (prompt : pystr) (response : V)
    : outcome (PromptCache V) :=
  match calculate_hash prompt with
  | Raises e => Raises e
  | Returns prompt_hash =>
      if (cache_size self <=? Z.of_nat (length (cache self)))%Z then
        match cache self with
        | [] => Raises StopIteration
        | (oldest_key, _) :: _ =>
            Returns {| cache_size := cache_size self;
                       cache := PyDict.assign (PyDict.del (cache self) oldest_key)
                                  prompt_hash response |}
        end
      else
        Returns {| cache_size := cache_size self;
                   cache := PyDict.assign (cache self) prompt_hash response |}
  end.

End PromptCache.
(** ** Inputs for the examples of the cache and the dictionaries *)

Module CacheExamples.

(** A stand-in for MD5 that tells all byte strings apart: the bytes
    themselves. *)
Definition plain_hashing : PromptCache.Hashing :=
  {| PromptCache.md5_hexdigest := fun data => data;
     PromptCache.surrogates_not_allowed := fun _ =>
       cps "'utf-8' codec can't encode character: surrogates not allowed" |}.

(** A full cache of size two. *)
Definition full_cache : PromptCache.PromptCache nat :=
  {| PromptCache.cache_size := 2;
     PromptCache.cache := [(cps "first", 1%nat); (cps "second", 2%nat)] |}.

End CacheExamples.

(** ** llm_client.py: the public call and the OpenAI client *)

Module LLMGenerate.

Definition MULTILINGUAL_EXTRACTION_RESPONSES : pystr := cps
"

Any extracted information should be returned in the same language as it was written in.".

(** [messages[i]] on an empty list. *)
Definition IndexError : exn :=
  {| exn_cls := OtherException; exn_msg := cps "list index out of range" |}.

Definition with_content (m : Message) (c : pystr) : Message :=
  {| role := role m; content := c |}.

(** [messages[-1].content += suffix]. *)
Definition append_to_last (suffix : pystr) (messages : list Message) : outcome (list Message) :=
  match rev messages with
  | [] => Raises IndexError
  | m :: before => Returns (rev (with_content m (content m ++ suffix) :: before))
  end.

(** [messages[0].content += suffix]. *)
Definition append_to_first (suffix : pystr) (messages : list Message) : outcome (list Message) :=
  match messages with
  | [] => Raises IndexError
  | m :: rest => Returns (with_content m (content m ++ suffix) :: rest)
  end.

(** What [generate_response] does to the messages before it dispatches
    them: the schema request on the last one, the language instruction on
    the first one, then [_clean_input] on each.  [serialized_model] is
    [json.dumps(response_model.model_json_schema())] (pydantic). *)
Definition prepare_messages (serialized_model : ResponseModel -> pystr)
    (messages : list Message) (response_model : option ResponseModel)
    : outcome (list Message) :=
  let with_schema :=
    match response_model with
    | Some model =>
        append_to_last
          (cps "

Respond with a JSON object in the following format:

" ++ serialized_model model) messages
    | None => Returns messages
    end in
  match with_schema with
  | Raises e => Raises e
  | Returns messages1 =>
      match append_to_first MULTILINGUAL_EXTRACTION_RESPONSES messages1 with
      | Raises e => Raises e
      | Returns messages2 =>
          Returns (map (fun message => with_content message (LLMClient._clean_input (content message)))
                     messages2)
      end
  end.

(** [LLMClient.generate_response].  [_generate_response messages
    response_model max_tokens n] is the outcome of the [n]-th call of the
    abstract method with these arguments.  The result comes with the number
    of calls made. *)
Definition generate_response {R : Type} (serialized_model : ResponseModel -> pystr)
    (self_max_tokens : Z)
    (_generate_response : list Message -> option ResponseModel -> Z -> nat -> outcome R)
    (messages : list Message) (response_model : option ResponseModel) (max_tokens : option Z)
    : outcome R * nat :=
  let max_tokens := default self_max_tokens max_tokens in
  match prepare_messages serialized_model messages response_model with
  | Raises e => (Raises e, 0%nat)
  | Returns messages' =>
      LLMClient._generate_response_with_retry (_generate_response messages' response_model max_tokens)
  end.

End LLMGenerate.

Module OpenAIClient.

(** What the body of a successful HTTP reply turns out to be:
    [response.json()] fails, or the path
    [result["choices"][0]["message"]["content"]] is not there, or it
    leads to a text. *)
Inductive http_body : Type :=
| BodyNotJson (msg : pystr)
| BodyWithoutContent (msg : pystr)
| BodyContent (content : pystr).

(** What one [client.post] followed by [raise_for_status] comes to: the
    request itself fails ([httpx.RequestError]), or the status is refused
    ([httpx.HTTPStatusError]), or there is a body to read. *)
Inductive http_reply : Type :=
| RequestError (msg : pystr)
| StatusError (status_code : Z) (msg : pystr)
| Reply (body : http_body).

(** What [_generate_response] returns: the parsed JSON object when a
    response model was given, the bare text otherwise. *)
Inductive completion (D : Type) : Type :=
| Structured (d : D)
| ContentOnly (content : pystr).
Arguments Structured {D} d.
Arguments ContentOnly {D} content.

(** [OpenAIClient._generate_response], given the reply.  [json_loads] is
    [json.loads]: the object, or the message of its [JSONDecodeError]. *)
Definition _generate_response {D : Type} (json_loads : pystr -> D + pystr)
    (reply : http_reply) (response_model : option ResponseModel) : outcome (completion D) :=
  match reply with
  | RequestError msg =>
      Raises {| exn_cls := RuntimeError; exn_msg := cps "Request failed: " ++ msg |}
  | StatusError status_code msg =>
      if (status_code =? 429)%Z
      then Raises {| exn_cls := RateLimitError; exn_msg := cps "Rate limit exceeded" |}
      else Raises {| exn_cls := HTTPStatusError status_code; exn_msg := msg |}
  | Reply (BodyNotJson msg) => Raises {| exn_cls := JSONDecodeError; exn_msg := msg |}
  | Reply (BodyWithoutContent msg) => Raises {| exn_cls := OtherException; exn_msg := msg |}
  | Reply (BodyContent content) =>
      match response_model with
      | Some _ =>
          match json_loads content with
          | inl d => Returns (Structured d)
          | inr msg => Raises {| exn_cls := JSONDecodeError; exn_msg := msg |}
          end
      | None => Returns (ContentOnly content)
      end
  end.

(** The client under the retry decorator, against a server whose [n]-th
    reply is [replies n]. *)
Definition _generate_response_with_retry {D : Type} (json_loads : pystr -> D + pystr)
    (replies : nat -> http_reply) (response_model : option ResponseModel)
    : outcome (completion D) * nat :=
  LLMClient._generate_response_with_retry
    (fun n => _generate_response json_loads (replies n) response_model).

End OpenAIClient.

Module LLMExamples.

Definition user_message : Message := {| role := cps "user"; content := [72; 0x200B; 105; 7] |}.

(** A parser that accepts the text [{}] only. *)
Definition braces_only (s : pystr) : unit + pystr :=
  if bool_decide (s = cps "{}") then inl tt else inr (cps "Expecting value").

Definition connection_refused (n : nat) : OpenAIClient.http_reply :=
  OpenAIClient.RequestError (cps "connection refused").

Definition always_rate_limited (n : nat) : OpenAIClient.http_reply :=
  OpenAIClient.StatusError 429 (cps "Client error '429 Too Many Requests'").

End LLMExamples.

(** ** numa_client.py: from the result of [Numa.fit] to the response *)

Module NumaResult.

(** What [json.loads] builds, and with it what [Numa.fit] returns. *)
#[warnings="-register-all"]
Inductive value : Type :=
| VNone
| VBool (b : bool)
| VInt (z : Z)
| VFloat (text : pystr)
| VStr (s : pystr)
| VList (items : list value)
| VDict (items : list (pystr * value)).

(** [str] of a value that is not a string (Python's [repr] of lists,
    dictionaries and numbers). *)
Class ValueStr : Type := { str_of_value : value -> pystr }.

(** [str(item)]. *)
Definition py_str `{ValueStr} (item : value) : pystr :=
  match item with
  | VStr s => s
  | _ => str_of_value item
  end.

(** [d.get(key, default)]. *)
Definition get_default (d : PyDict.dict value) (key : pystr) (default_value : value) : value :=
  default default_value (PyDict.get d key).

Definition entity_named (name : pystr) : ExtractedEntity :=
  {| entity_name := name; entity_type_id := 0; entity_summary := None |}.

(** The [dict] branch of [_extract_entities_from_result]. *)
Definition entities_from_dict `{ValueStr} (result : PyDict.dict value) : list ExtractedEntity :=
  let entities_list := get_default result (cps "entities") (VList []) in
  let entities :=
    match entities_list with
    | VList items => map (fun item => entity_named (py_str item)) items
    | _ => []
    end in
  entities ++
  flat_map
    (fun '(key, value) =>
       match value with
       | VList items =>
           if negb (bool_decide (key = cps "entities")) then
             flat_map
               (fun item =>
                  match item with
                  | VStr s => if truthy (strip s) then [entity_named (py_str item)] else []
                  | _ => []
                  end)
               items
           else []
       | _ => []
       end)
    result.

(** [_extract_entities_from_result]: the recursive call is made on the
    dictionaries of a list only, so it is the [dict] branch. *)
Definition _extract_entities_from_result `{ValueStr} (result : value) : list ExtractedEntity :=
  match result with
  | VDict d => entities_from_dict d
  | VList items =>
      flat_map
        (fun item =>
           match item with
           | VDict d => entities_from_dict d
           | _ => [entity_named (py_str item)]
           end)
        items
  | _ => []
  end.

(** The dictionary an edge is reported as; its values are taken from the
    relation as they are. *)
Record RawEdge : Type := {
  raw_source_name : value;
  raw_target_name : value;
  raw_relation_type : value;
  raw_summary : value }.

Definition edge_of_relation (rel : PyDict.dict value) : RawEdge :=
  {| raw_source_name := get_default rel (cps "source") (VStr []);
     raw_target_name := get_default rel (cps "target") (VStr []);
     raw_relation_type := get_default rel (cps "relation") (VStr (cps "related_to"));
     raw_summary := get_default rel (cps "summary") VNone |}.

(** [for rel in value: if isinstance(rel, dict): edges.append({...})]. *)
Definition edges_of_list (value : list value) : list RawEdge :=
  flat_map (fun rel => match rel with VDict d => [edge_of_relation d] | _ => [] end) value.

(** The [dict] branch of [_extract_edges_from_result]. *)
Definition edges_from_dict `{PyRuntime} (result : PyDict.dict value) : list RawEdge :=
  let relations_list := get_default result (cps "relations") (VList []) in
  let edges :=
    match relations_list with
    | VList items => edges_of_list items
    | _ => []
    end in
  edges ++
  flat_map
    (fun '(key, value) =>
       match value with
       | VList items => if contains (cps "relation") (py_lower key) then edges_of_list items else []
       | _ => []
       end)
    result.

Definition _extract_edges_from_result `{PyRuntime} (result : value) : list RawEdge :=
  match result with
  | VDict d => edges_from_dict d
  | VList items =>
      flat_map (fun item => match item with VDict d => edges_from_dict d | _ => [] end) items
  | _ => []
  end.

Definition _extract_missed_entities_from_result `{ValueStr} (result : value) : list pystr :=
  match result with
  | VList items => map py_str items
  | VDict d =>
      flat_map (fun '(_, value) =>
                  match value with
                  | VList items => map py_str items
                  | _ => []
                  end) d
  | _ => []
  end.

Record RawDuplicate : Type := { raw_uuid : value; raw_duplicate_of : value }.

Definition _extract_duplicates_from_result `{PyRuntime} (result : value) : list RawDuplicate :=
  match result with
  | VDict d =>
      flat_map
        (fun '(key, value) =>
           match value with
           | VList items =>
               if contains (cps "duplicate") (py_lower key) then
                 flat_map
                   (fun dup =>
                      match dup with
                      | VDict dd => [{| raw_uuid := get_default dd (cps "uuid") (VStr []);
                                        raw_duplicate_of :=
                                          get_default dd (cps "duplicate_of") (VStr []) |}]
                      | _ => []
                      end)
                   items
               else []
           | _ => []
           end)
        d
  | _ => []
  end.

(** [response_model.__name__] of the four models of knowledge_models.py. *)
Definition model_name (response_model : ResponseModel) : pystr :=
  match response_model with
  | ExtractedEntities => cps "ExtractedEntities"
  | ExtractedEdges => cps "ExtractedEdges"
  | MissedEntities => cps "MissedEntities"
  | DuplicateEntities => cps "DuplicateEntities"
  end.

Inductive template_type : Type := extract_nodes | extract_edges | deduplicate | reflexion.

(** [_determine_template_type]. *)
Definition _determine_template_type `{PyRuntime} (response_model : option ResponseModel)
    : template_type :=
  match response_model with
  | None => extract_nodes
  | Some response_model =>
      let model_name := py_lower (model_name response_model) in
      if contains (cps "entities") model_name || contains (cps "entity") model_name
      then extract_nodes
      else if contains (cps "edges") model_name || contains (cps "edge") model_name
      then extract_edges
      else if contains (cps "duplicate") model_name then deduplicate
      else if contains (cps "missed") model_name then reflexion
      else extract_nodes
  end.

(** The dictionary [_format_result_for_model] returns: one key, named
    after the response model. *)
Inductive formatted : Type :=
| extracted_entities_key (entities : list ExtractedEntity)
| extracted_edges_key (edges : list RawEdge)
| missed_entities_key (missed : list pystr)
| duplicates_key (duplicates : list RawDuplicate).

(** [_format_result_for_model]; none of the four extractions raises on a
    JSON value, so the [except] branch is not taken. *)
Definition _format_result_for_model `{PyRuntime} `{ValueStr}
    (result : value) (response_model : ResponseModel) : formatted :=
  let model_name := py_lower (model_name response_model) in
  if contains (cps "extractedentities") model_name
  then extracted_entities_key (_extract_entities_from_result result)
  else if contains (cps "extractededges") model_name
  then extracted_edges_key (_extract_edges_from_result result)
  else if contains (cps "missedentities") model_name
  then missed_entities_key (_extract_missed_entities_from_result result)
  else if contains (cps "duplicateentities") model_name
  then duplicates_key (_extract_duplicates_from_result result)
  else extracted_entities_key (_extract_entities_from_result result).

(** The completion [Numa.fit] hands over when the local extractor found
    [result]: [json.loads] of its [json.dumps]. *)
Definition relation_dict (r : NumaModule.Relation) : value :=
  VDict [(cps "source", VStr (NumaModule.rel_source r));
         (cps "target", VStr (NumaModule.rel_target r));
         (cps "relation", VStr (NumaModule.rel_relation r))].

Definition completion_of (result : NumaModule.ExtractionResult) : value :=
  VDict [(cps "entities", VList (map VStr (NumaModule.entities result)));
         (cps "relations", VList (map relation_dict (NumaModule.relations result)))].

End NumaResult.

Module NumaResultExamples.

(** [str] of the values that are not strings, as far as the examples go. *)
Definition opaque_str : NumaResult.ValueStr :=
  {| NumaResult.str_of_value := fun _ => cps "<value>" |}.

Definition ann_acme : NumaModule.ExtractionResult :=
  {| NumaModule.entities := [cps "Ann"; cps "Acme"];
     NumaModule.relations :=
       [{| NumaModule.rel_source := cps "Ann"; NumaModule.rel_target := cps "Acme";
           NumaModule.rel_relation := cps "works_at" |}] |}.

End NumaResultExamples.

(** ** Further example backends *)

Module ExtractorExamples.

(** A backend that finds three entities, one of them with a blank name,
    reports nothing missed, and proposes three edges: one between two of
    the entities, one from an entity to itself and one from a name that
    is no entity. *)
Definition entities_answer : Response :=
  {| extracted_entities :=
       Some [{| entity_name := cps "Ann"; entity_type_id := 0%Z; entity_summary := None |};
             {| entity_name := cps "  "; entity_type_id := 0%Z; entity_summary := None |};
             {| entity_name := cps "Acme"; entity_type_id := 7%Z;
                entity_summary := Some (cps "a company") |}];
     extracted_edges := None; missed_entities := None |}.

Definition edges_answer : Response :=
  {| extracted_entities := None;
     extracted_edges :=
       Some [{| source_name := cps "Ann"; target_name := cps "Ann";
                relation_type := cps "knows"; summary := None |};
             {| source_name := cps "Zed"; target_name := cps "Ann";
                relation_type := cps "knows"; summary := None |};
             {| source_name := cps "Ann"; target_name := cps "Bob";
                relation_type := cps "met"; summary := None |}];
     missed_entities := None |}.

Definition nothing_missed : Response :=
  {| extracted_entities := None; extracted_edges := None; missed_entities := Some [] |}.

Definition satisfied_client : Client unit :=
  {| generate_response := fun _ response_model b =>
       (Returns
          match response_model with
          | ExtractedEntities => entities_answer
          | ExtractedEdges => edges_answer
          | MissedEntities => nothing_missed
          | DuplicateEntities => empty_response
          end, b) |}.

(** The same backend with a summary for every entity, as the in-house
    extractor needs them. *)
Definition summarised_answer : Response :=
  {| extracted_entities :=
       Some [{| entity_name := cps "Ann"; entity_type_id := 0%Z;
                entity_summary := Some (cps "a person") |};
             {| entity_name := cps "  "; entity_type_id := 0%Z; entity_summary := Some [] |};
             {| entity_name := cps "Acme"; entity_type_id := 7%Z;
                entity_summary := Some (cps "a company") |}];
     extracted_edges := None; missed_entities := None |}.

Definition summarising_client : Client unit :=
  {| generate_response := fun _ response_model b =>
       (Returns
          match response_model with
          | ExtractedEntities => summarised_answer
          | ExtractedEdges => edges_answer
          | MissedEntities => nothing_missed
          | DuplicateEntities => empty_response
          end, b) |}.

(** A process whose string hashes put the type name before ['Entity']
    in the set of labels. *)
Definition name_first_runtime : PyRuntime :=
  {| repr_entity_types := @repr_entity_types Examples.ascii_runtime;
     repr_names := @repr_names Examples.ascii_runtime;
     uuid4 := @uuid4 Examples.ascii_runtime;
     py_lower := @py_lower Examples.ascii_runtime;
     py_title := @py_title Examples.ascii_runtime;
     py_isupper := @py_isupper Examples.ascii_runtime;
     is_word_char := @is_word_char Examples.ascii_runtime;
     re_finditer_ignorecase := @re_finditer_ignorecase Examples.ascii_runtime;
     re_findall_pairs_ignorecase := @re_findall_pairs_ignorecase Examples.ascii_runtime;
     re_search_ignorecase_dotall := @re_search_ignorecase_dotall Examples.ascii_runtime;
     fromisoformat_error := @fromisoformat_error Examples.ascii_runtime;
     str_local_entity_type := @str_local_entity_type Examples.ascii_runtime;
     entity_label_first := fun _ => false;
     none_summary_error := @none_summary_error Examples.ascii_runtime |}.

Definition episode_conversation : EpisodicNode :=
  {| episode_uuid := cps "e3";
     episode_group_id := cps "g";
     episode_source := conversation;
     episode_content := cps "Ann met Bob";
     episode_source_description := None |}.

Definition episode_text : EpisodicNode :=
  {| episode_uuid := cps "e4";
     episode_group_id := cps "g";
     episode_source := text;
     episode_content := cps "Zed left";
     episode_source_description := None |}.

End ExtractorExamples.

(** ** Notions the statements about the extractors use *)

(** A call for entities or for missed entities. *)
Definition entity_or_missed (c : Call) : Prop :=
  call_model c = ExtractedEntities \/ call_model c = MissedEntities.

(** The text the in-house [extract_nodes] sends: the expression its
    definition binds to [context_text]. *)
Definition in_house_context_text (episode : EpisodicNode) (previous_episodes : list EpisodicNode)
    : pystr :=
  let context_text := cps "Episode: " ++ episode_content episode ++ [10] in
  match previous_episodes with
  | [] => context_text
  | _ :: _ =>
      fold_left
        (fun context_text prev_ep =>
           context_text ++ cps "- " ++ firstn 100 (episode_content prev_ep) ++ cps "..." ++ [10])
        (KnowledgeService.last_n 3 previous_episodes)
        (context_text ++ cps "Previous episodes:" ++ [10])
  end.


(** The body of the loop of the in-house [extract_nodes]. *)
Definition in_house_node_step {B : Type} `{PyRuntime} (episode : EpisodicNode)
    (nodes : list EntityNode) (entity_data : ExtractedEntity) : M B (list EntityNode) :=
  uuid <- fresh_uuid ;;
  match entity_summary entity_data with
  | Some summary =>
      ret (nodes ++
           [{| node_uuid := uuid;
               node_name := entity_name entity_data;
               node_labels := [cps "Entity"];
               node_summary := summary;
               node_group_id := episode_group_id episode |}])
  | None => raise (none_summary_error "EntityNode")
  end.

(** ** extraction_service.py: the [add_episode] command *)

Module ExtractionHandlers.

Import ExtractionService.

(** The values [uuid.uuid4()] draws in the handler itself, numbered from
    the start of the command. *)
Class HandlerRuntime : Type := { handler_uuid4 : nat -> pystr }.

(** What the handler prints: [{"error": ...}] or the result dictionary. *)
Inductive printed : Type :=
| PrintedError (error : pystr)
| PrintedResult (episode_uuid episode_name : pystr) (nodes_created edges_created : nat)
    (node_uuids edge_uuids : list pystr).

(** [args[i] if len(args) > i and args[i] else fallback]. *)
Definition arg_or (args : list pystr) (i : nat) (fallback : pystr) : pystr :=
  match nth_error args i with
  | Some a => if truthy a then a else fallback
  | None => fallback
  end.

(** Whether [args[3]] is used, so that no group id is drawn. *)
Definition group_given (args : list pystr) : bool :=
  match nth_error args 3 with
  | Some a => truthy a
  | None => false
  end.

(** The request [handle_add_episode] builds from at least three
    arguments. *)
Definition add_episode_request `{HandlerRuntime} (args : list pystr) : ExtractionRequest :=
  let content := nth 1 args [] in
  let group_id := arg_or args 3 (handler_uuid4 0) in
  let drawn := if group_given args then 0%nat else 1%nat in
  let episode_type := arg_or args 4 (cps "conversation") in
  let message :=
    {| msg_uuid := handler_uuid4 drawn;
       msg_role := cps "system";
       msg_content := content;
       msg_role_type := Some (cps "system") |} in
  {| group_id := group_id;
     messages := [message];
     previous_episodes := Some [];
     entity_types := Some [];
     use_numa := Some true |}.

(** [handle_add_episode]: the exit code and what is printed. *)
Definition handle_add_episode {L B : Type} `{KnowledgeExtractor L} `{Client B} `{PyRuntime}
    `{HandlerRuntime} (service : Service L B) (args : list pystr)
    : (Z * printed) * Service L B :=
  if (length args <? 3)%nat then
    ((1%Z, PrintedError
             (cps "add_episode requires at least 3 arguments: name, content, sourceDescription")),
     service)
  else
    let name := nth 0 args [] in
    let drawn := if group_given args then 1%nat else 2%nat in
    let request := add_episode_request args in
    match extract_knowledge request service with
    | (Returns response, service') =>
        ((0%Z, PrintedResult (handler_uuid4 drawn) name
                 (length (extracted_nodes response)) (length (extracted_edges response))
                 (map node_uuid (extracted_nodes response))
                 (map edge_uuid (extracted_edges response))),
         service')
    | (Raises e, service') => ((1%Z, PrintedError (str_exn e)), service')
    end.

End ExtractionHandlers.

Module HandlerExamples.

Definition numbered_uuids : ExtractionHandlers.HandlerRuntime :=
  {| ExtractionHandlers.handler_uuid4 := fun n => cps "handler-" ++ str_of_nat n |}.

(** A service whose two clients failed to initialise cannot be built
    ([__init__] raises); one whose Numa client is missing can. *)
Definition service_llm_only : ExtractionService.Service unit unit :=
  {| ExtractionService.llm_client := Some (Examples.new_world tt);
     ExtractionService.numa_client := None |}.

End HandlerExamples.

(** ** knowledge_service.py: [EionKnowledgeService.add_episode] *)

Module EionKnowledgeService.

(** [repr] of a string, for the message of [EpisodeType(value)]. *)
Class ReprStr : Type := { py_repr : pystr -> pystr }.

(** The Cypher statements [_save_episode_to_neo4j] runs, by what they
    create. *)
Inductive Statement : Type :=
| CreateEpisode (episode : EpisodicNode)
| CreateEntity (node : EntityNode)
| ConnectEntity (entity_uuid episode_uuid : pystr)
| CreateRelation (edge : EdgeNode).

(** A Neo4j session over a database [D]: [session.run] returns or raises,
    and may change the database. *)
Class Neo4jSession (D : Type) : Type := {
  session_run : Statement -> D -> outcome unit * D }.

(** The service object: the three in-memory stores, the database the
    driver leads to ([None] until [initialize] has succeeded), and the
    world of the in-house client. *)
Record Service (D : Type) : Type := {
  neo4j_driver : option D;
  episodes : PyDict.dict EpisodicNode;
  entities : PyDict.dict EntityNode;
  edges : PyDict.dict EdgeNode;
  world : World unit }.
Arguments neo4j_driver {D} s.
Arguments episodes {D} s.
Arguments entities {D} s.
Arguments edges {D} s.
Arguments world {D} s.

(** [EpisodeType(episode_type)]: by value, or [ValueError]. *)
Definition EpisodeType_of (episode_type : pystr) : option EpisodeType :=
  if bool_decide (episode_type = cps "message") then Some message
  else if bool_decide (episode_type = cps "text") then Some text
  else if bool_decide (episode_type = cps "json") then Some json
  else if bool_decide (episode_type = cps "conversation") then Some conversation
  else None.

Definition invalid_episode_type `{ReprStr} (episode_type : pystr) : exn :=
  {| exn_cls := ValueError;
     exn_msg := py_repr episode_type ++ cps " is not a valid EpisodeType" |}.

(** [self.neo4j_driver.session()] on [None]. *)
Definition no_driver : exn :=
  {| exn_cls := OtherException;
     exn_msg := cps "'NoneType' object has no attribute 'session'" |}.

(** [await session.run(...)] for each statement in turn. *)
Fixpoint run_all {D : Type} `{Neo4jSession D} (statements : list Statement) (db : D)
    : outcome unit * D :=
  match statements with
  | [] => (Returns tt, db)
  | statement :: rest =>
      match session_run statement db with
      | (Returns _, db') => run_all rest db'
      | (Raises e, db') => (Raises e, db')
      end
  end.

(** [_save_episode_to_neo4j]. *)
Definition _save_episode_to_neo4j {D : Type} `{Neo4jSession D}
    (episode : EpisodicNode) (nodes : list EntityNode) (edges : list EdgeNode)
    (driver : option D) : outcome unit * option D :=
  match driver with
  | None => (Raises no_driver, None)
  | Some db =>
      match run_all
              ([CreateEpisode episode]
               ++ flat_map (fun node => [CreateEntity node;
                                         ConnectEntity (node_uuid node) (episode_uuid episode)])
                    nodes
               ++ map CreateRelation edges) db with
      | (result, db') => (result, Some db')
      end
  end.

(** The dictionary [add_episode] returns. *)
Record AddEpisodeResult : Type := {
  result_episode_uuid : pystr;
  result_episode_name : pystr;
  nodes_created : nat;
  edges_created : nat;
  result_node_uuids : list pystr;
  result_edge_uuids : list pystr }.

(** [for x in xs: store[x.uuid] = x]. *)
Definition store_all {V : Type} (uuid_of : V -> pystr) (store : PyDict.dict V) (xs : list V)
    : PyDict.dict V :=
  fold_left (fun store x => PyDict.assign store (uuid_of x) x) xs store.

(** [EionKnowledgeService.add_episode]; its [except] clause raises again
    what it caught.  The extractor is the in-house one, over the in-house
    client. *)
Definition add_episode {D : Type} `{Neo4jSession D} `{PyRuntime} `{ReprStr}
    (name content source_description group_id episode_type : pystr) (self : Service D)
    : outcome AddEpisodeResult * Service D :=
  match fresh_uuid (world self) with
  | (Raises e, w0) =>
      (Raises e, {| neo4j_driver := neo4j_driver self; episodes := episodes self;
                    entities := entities self; edges := edges self; world := w0 |})
  | (Returns uuid, w0) =>
      match EpisodeType_of episode_type with
      | None =>
          (Raises (invalid_episode_type episode_type),
           {| neo4j_driver := neo4j_driver self; episodes := episodes self;
              entities := entities self; edges := edges self; world := w0 |})
      | Some source =>
          let episode :=
            {| episode_uuid := uuid;
               episode_group_id := if truthy group_id then group_id else cps "default";
               episode_source := source;
               episode_content := content;
               episode_source_description := Some source_description |} in
          let episodes1 := PyDict.assign (episodes self) (episode_uuid episode) episode in
          let previous_episodes :=
            List.filter
              (fun ep => bool_decide (episode_group_id ep = episode_group_id episode)
                         && negb (bool_decide (episode_uuid ep = episode_uuid episode)))
              (map snd episodes1) in
          match @KnowledgeService.extract_nodes unit KnowledgeService.InHouseLLMClient _
                  episode (KnowledgeService.last_n 10 previous_episodes) w0 with
          | (Raises e, w1) =>
              (Raises e, {| neo4j_driver := neo4j_driver self; episodes := episodes1;
                            entities := entities self; edges := edges self; world := w1 |})
          | (Returns extracted_nodes, w1) =>
              let entities1 := store_all node_uuid (entities self) extracted_nodes in
              match @KnowledgeService.extract_edges unit KnowledgeService.InHouseLLMClient _
                      extracted_nodes episode (KnowledgeService.last_n 10 previous_episodes) w1 with
              | (Raises e, w2) =>
                  (Raises e, {| neo4j_driver := neo4j_driver self; episodes := episodes1;
                                entities := entities1; edges := edges self; world := w2 |})
              | (Returns extracted_edges, w2) =>
                  let edges1 := store_all edge_uuid (edges self) extracted_edges in
                  match _save_episode_to_neo4j episode extracted_nodes extracted_edges
                          (neo4j_driver self) with
                  | (Raises e, driver') =>
                      (Raises e, {| neo4j_driver := driver'; episodes := episodes1;
                                    entities := entities1; edges := edges1; world := w2 |})
                  | (Returns _, driver') =>
                      (Returns {| result_episode_uuid := episode_uuid episode;
                                  result_episode_name := name;
                                  nodes_created := length extracted_nodes;
                                  edges_created := length extracted_edges;
                                  result_node_uuids := map node_uuid extracted_nodes;
                                  result_edge_uuids := map edge_uuid extracted_edges |},
                       {| neo4j_driver := driver'; episodes := episodes1;
                          entities := entities1; edges := edges1; world := w2 |})
                  end
              end
          end
      end
  end.

End EionKnowledgeService.

(* ===================================================================== *)
(** * Part II: lemmas and theorems                                        *)
(* ===================================================================== *)

Section Sanitisation.

Lemma remove_char_in (c x : N) (s : pystr) :
  In x (remove_char c s) <-> In x s /\ x <> c.
Proof.
  unfold remove_char. rewrite filter_In.
  rewrite negb_true_iff, N.eqb_neq. tauto.
Qed.

Lemma remove_chars_in (cs : pystr) : forall (s : pystr) (x : N),
  In x (fold_left (fun s char => remove_char char s) cs s) <->
  In x s /\ ~ In x cs.
Proof.
  induction cs as [|c cs IH]; intros s x; simpl.
  - tauto.
  - rewrite IH, remove_char_in. intuition congruence.
Qed.

End Sanitisation.

(** [_clean_input] keeps a character only if it passed all three filters. *)
Lemma llm_clean_input_in (input_str : pystr) (c : N) :
  In c (LLMClient._clean_input input_str) ->
  ~ In c LLMClient.zero_width /\ (32 <= c \/ In c nl_cr_tab).
Proof.
  unfold LLMClient._clean_input. rewrite filter_In, remove_chars_in.
  intros [[_ Hzw] Hkeep]. split; [exact Hzw|].
  apply orb_true_iff in Hkeep as [Hge | Hin].
  - left. now apply N.leb_le.
  - right. unfold char_in in Hin. apply existsb_exists in Hin as [x [Hx Heq]].
    apply N.eqb_eq in Heq. now subst.
Qed.

Lemma numa_clean_input_eq (input_str : pystr) :
  NumaClient._clean_input input_str = LLMClient._clean_input input_str.
Proof. reflexivity. Qed.

(** C9.  Whatever the input, the sanitised text of either client holds none
    of U+200B, U+200C, U+200D, U+FEFF, U+2060, and every character below
    U+0020 in it is a newline, a carriage return or a tab. *)
Theorem clean_input_sanitised (input_str : pystr) (c : N) :
  (In c (LLMClient._clean_input input_str) \/ In c (NumaClient._clean_input input_str)) ->
  c <> 0x200B /\ c <> 0x200C /\ c <> 0x200D /\ c <> 0xFEFF /\ c <> 0x2060 /\
  (c < 32 -> c = 10 \/ c = 13 \/ c = 9).
Proof.
  intros H.
  assert (Hin : In c (LLMClient._clean_input input_str)).
  { destruct H as [H | H]; [exact H | now rewrite <- numa_clean_input_eq]. }
  apply llm_clean_input_in in Hin as [Hzw Hctl].
  unfold LLMClient.zero_width in Hzw. simpl in Hzw.
  repeat split; try (intros ->; apply Hzw; tauto).
  intros Hlt. destruct Hctl as [Hge | Hin]; [lia|].
  simpl in Hin. intuition.
Qed.

(** An input with every kind of character the three filters remove. *)
Lemma clean_input_sanitised_witness :
  In 10 (LLMClient._clean_input [65; 0x200B; 7; 10; 0xD800; 0xFEFF; 66]) /\
  (10 <> 0x200B /\ 10 <> 0x200C /\ 10 <> 0x200D /\ 10 <> 0xFEFF /\ 10 <> 0x2060 /\
   (10 < 32 -> 10 = 10 \/ 10 = 13 \/ 10 = 9)).
Proof.
  assert (H : In 10 (LLMClient._clean_input [65; 0x200B; 7; 10; 0xD800; 0xFEFF; 66])).
  { vm_compute. tauto. }
  split; [exact H|].
  exact (clean_input_sanitised [65; 0x200B; 7; 10; 0xD800; 0xFEFF; 66] 10 (or_introl H)).
Defined.

Example clean_input_example :
  LLMClient._clean_input [65; 0x200B; 7; 10; 0xD800; 0xFEFF; 66] = [65; 10; 66].
Proof. reflexivity. Qed.

Section Retry.

Context {R : Type} (attempt : nat -> outcome R).

(** What a run of the retry loop from attempt [a] guarantees. *)
Lemma retry_loop_spec (budget a : nat) :
  (a + budget = 5)%nat -> (1 <= budget)%nat ->
  let '(res, n) := LLMClient.retry_loop attempt budget a in
  (a <= n <= 4)%nat /\
  (forall k, (a <= k < n)%nat ->
     exists e, attempt k = Raises e /\ LLMClient.is_server_or_retry_error e = true) /\
  res = attempt n /\
  (forall e, res = Raises e ->
     LLMClient.is_server_or_retry_error e = false \/ n = 4%nat).
Proof.
  revert a. induction budget as [|budget IH]; intros a Hsum Hpos; [lia|].
  cbn -[Nat.leb]. destruct (attempt a) as [r | e] eqn:Ha.
  - repeat split; try lia; try congruence.
  - destruct (LLMClient.is_server_or_retry_error e) eqn:Hretry; cbn -[Nat.leb].
    + destruct (LLMClient.stop_after_attempt <=? a)%nat eqn:Hstop;
        unfold LLMClient.stop_after_attempt in Hstop.
      * apply Nat.leb_le in Hstop. assert (a = 4%nat) by lia. subst a.
        repeat split; try lia; try congruence; intros; now right.
      * apply Nat.leb_gt in Hstop.
        specialize (IH (S a) ltac:(lia) ltac:(lia)).
        destruct (LLMClient.retry_loop attempt budget (S a)) as [res n].
        destruct IH as (Hn & Hbefore & Hres & Hlast).
        repeat split; try lia; try assumption.
        intros k Hk. destruct (Nat.eq_dec k a) as [-> | Hne].
        -- exists e. now split.
        -- apply Hbefore. lia.
    + repeat split; try lia; try congruence; intros; left; congruence.
Qed.

End Retry.

(** C4.  The retried call makes between one and four attempts; every
    attempt before the last one failed with a retryable error (a rate
    limit, a JSON decode error or an HTTP status from 500 to 599); the
    caller gets the outcome of the last attempt, be it a result or an
    error; and an error comes out before the fourth attempt only if it is
    not retryable. *)
Theorem generate_response_with_retry_policy (R : Type) (_generate_response : nat -> outcome R) :
  (forall e, LLMClient.is_server_or_retry_error e = true <->
     exn_cls e = RateLimitError \/ exn_cls e = JSONDecodeError \/
     exists status_code, exn_cls e = HTTPStatusError status_code /\
                         (500 <= status_code < 600)%Z) /\
  (1 <= snd (LLMClient._generate_response_with_retry _generate_response) <= 4)%nat /\
  (forall k, (1 <= k < snd (LLMClient._generate_response_with_retry _generate_response))%nat ->
     exists e, _generate_response k = Raises e /\ LLMClient.is_server_or_retry_error e = true) /\
  fst (LLMClient._generate_response_with_retry _generate_response) =
    _generate_response (snd (LLMClient._generate_response_with_retry _generate_response)) /\
  (forall e, fst (LLMClient._generate_response_with_retry _generate_response) = Raises e ->
     LLMClient.is_server_or_retry_error e = false \/
     snd (LLMClient._generate_response_with_retry _generate_response) = 4%nat).
Proof.
  split.
  - intros [cls msg]. unfold LLMClient.is_server_or_retry_error. simpl.
    destruct cls; simpl; split; intros H;
      try discriminate; try tauto; try (now eauto);
      try (destruct H as [H | [H | (code & H & _)]]; discriminate).
    + right. right. exists status_code. split; [reflexivity|].
      apply andb_true_iff in H as [H1 H2].
      apply Z.leb_le in H1. apply Z.ltb_lt in H2. lia.
    + destruct H as [H | [H | (code & H & Hrange)]]; try discriminate.
      injection H as <-. apply andb_true_iff. split; [apply Z.leb_le | apply Z.ltb_lt]; lia.
  - unfold LLMClient._generate_response_with_retry.
    pose proof (retry_loop_spec _generate_response 4 1 eq_refl ltac:(lia)) as H.
    destruct (LLMClient.retry_loop _generate_response LLMClient.stop_after_attempt 1) as [res n] eqn:E.
    unfold LLMClient.stop_after_attempt in E. rewrite E in H. simpl. exact H.
Qed.

(** The spec's own retry scenarios. *)
Example retry_three_failures_then_success :
  LLMClient._generate_response_with_retry Examples.flaky = (Returns (cps "ok"), 4%nat).
Proof. reflexivity. Qed.

Example retry_exhausted_surfaces_error :
  LLMClient._generate_response_with_retry Examples.always_unavailable
  = (Raises Examples.service_unavailable, 4%nat).
Proof. reflexivity. Qed.

Example retry_fails_fast :
  snd (LLMClient._generate_response_with_retry Examples.bad_request) = 1%nat.
Proof. reflexivity. Qed.

(** The policy at the flaky backend: three retryable failures, then the
    fourth attempt's result. *)
Lemma generate_response_with_retry_policy_witness :
  fst (LLMClient._generate_response_with_retry Examples.flaky)
  = Examples.flaky (snd (LLMClient._generate_response_with_retry Examples.flaky)).
Proof.
  exact (proj1 (proj2 (proj2 (proj2
           (generate_response_with_retry_policy pystr Examples.flaky))))).
Defined.

Section NumaExtractorFacts.

Context {B : Type} `{Client B} `{PyRuntime}.

Lemma calls_of_app (m : ResponseModel) (l1 l2 : list Call) :
  calls_of m (l1 ++ l2) = calls_of m l1 ++ calls_of m l2.
Proof. unfold calls_of. apply List.filter_app. Qed.

(** A call adds exactly one entry to the log. *)
Lemma call_calls (msgs : list Message) (model : ResponseModel) (w : World B) :
  calls (snd (call msgs model w))
  = calls w ++ [{| call_messages := msgs; call_model := model |}].
Proof.
  unfold call. destruct (generate_response msgs model (backend w)). reflexivity.
Qed.

(** One pass of the loop: at most one call for entities, carrying the
    prompt of the context it was given, at most one reflexion call, and
    one more iteration counted. *)
Lemma loop_body_spec (episode : EpisodicNode) (previous_episodes : list EpisodicNode)
    (context : NumaExtractor.NodeContext) (v : NumaExtractor.LoopVars) (w : World B) :
  exists new,
    calls (snd (NumaExtractor.loop_body episode previous_episodes context v w)) = calls w ++ new /\
    (length (calls_of ExtractedEntities new) <= 1)%nat /\
    (length (calls_of MissedEntities new)
     <= if (S (NumaExtractor.reflexion_iterations v) <? NumaExtractor.MAX_REFLEXION_ITERATIONS)%nat
        then 1 else 0)%nat /\
    (forall c, In c (calls_of ExtractedEntities new) ->
       NumaExtractor.extract_prompt (episode_source episode) context = Some (call_messages c)) /\
    (forall v', fst (NumaExtractor.loop_body episode previous_episodes context v w) = Returns v' ->
       NumaExtractor.reflexion_iterations v' = S (NumaExtractor.reflexion_iterations v)).
Proof.
  unfold NumaExtractor.loop_body, NumaExtractor._extract_nodes_reflexion, bind, ret, call.
  destruct (episode_source episode); simpl;
    repeat match goal with
    | |- context [generate_response ?m ?r ?b] =>
        destruct (generate_response m r b) as [[?|?] ?]; simpl
    | |- context [(?a <? ?b)%nat] => destruct (a <? b)%nat; simpl
    end;
    eexists; (split;
      [ first [ symmetry; apply app_nil_r
              | reflexivity
              | rewrite <- app_assoc; reflexivity ] | ]);
    simpl; repeat split; try lia;
    lazymatch goal with
    | |- forall c : Call, _ => intros c Hc; simpl in Hc; intuition (subst; reflexivity)
    | |- forall v' : NumaExtractor.LoopVars, _ =>
        intros v' Hv'; simpl in Hv'; try discriminate; injection Hv' as <-; reflexivity
    end.
Qed.

(** The loop from iteration count [i] on: at most [4 - i] calls for
    entities and [2 - i] reflexion calls, every entity call with the prompt
    of the context built before the loop. *)
Lemma reflexion_loop_spec (episode : EpisodicNode) (previous_episodes : list EpisodicNode)
    (context : NumaExtractor.NodeContext) (fuel : nat) :
  forall (v : NumaExtractor.LoopVars) (w : World B),
  exists new,
    calls (snd (NumaExtractor.reflexion_loop fuel episode previous_episodes context v w))
    = calls w ++ new /\
    (length (calls_of ExtractedEntities new) <= 4 - NumaExtractor.reflexion_iterations v)%nat /\
    (length (calls_of MissedEntities new) <= 2 - NumaExtractor.reflexion_iterations v)%nat /\
    (forall c, In c (calls_of ExtractedEntities new) ->
       NumaExtractor.extract_prompt (episode_source episode) context = Some (call_messages c)).
Proof.
  induction fuel as [|fuel IH]; intros v w; simpl.
  - exists []. rewrite app_nil_r. simpl. repeat split; try lia; intros c [].
  - destruct (NumaExtractor.entities_missed v
              && (NumaExtractor.reflexion_iterations v <=? NumaExtractor.MAX_REFLEXION_ITERATIONS)%nat)
      eqn:Hcond.
    + apply andb_true_iff in Hcond as [_ Hle]. apply Nat.leb_le in Hle.
      unfold NumaExtractor.MAX_REFLEXION_ITERATIONS in Hle.
      destruct (loop_body_spec episode previous_episodes context v w)
        as (new1 & Hcalls1 & Hee1 & Hme1 & Hprompt1 & Hiter).
      unfold bind.
      destruct (NumaExtractor.loop_body episode previous_episodes context v w)
        as [[v' | e] w1] eqn:Hbody; simpl in *.
      * specialize (Hiter v' eq_refl).
        destruct (IH v' w1) as (new2 & Hcalls2 & Hee2 & Hme2 & Hprompt2).
        exists (new1 ++ new2). rewrite Hcalls2, Hcalls1, app_assoc.
        rewrite !calls_of_app, !length_app.
        rewrite Hiter in Hee2, Hme2.
        unfold NumaExtractor.MAX_REFLEXION_ITERATIONS in Hme1.
        destruct (S (NumaExtractor.reflexion_iterations v) <? 3)%nat eqn:Hlt;
          [apply Nat.ltb_lt in Hlt | apply Nat.ltb_ge in Hlt];
          (repeat split; try lia;
           intros c Hc; apply in_app_or in Hc as [Hc | Hc]; auto).
      * exists new1. unfold NumaExtractor.MAX_REFLEXION_ITERATIONS in Hme1.
        destruct (S (NumaExtractor.reflexion_iterations v) <? 3)%nat eqn:Hlt;
          [apply Nat.ltb_lt in Hlt | apply Nat.ltb_ge in Hlt];
          repeat split; auto; lia.
    + exists []. rewrite app_nil_r. simpl. repeat split; try lia; intros c [].
Qed.

(** Past [MAX_REFLEXION_ITERATIONS + 2 - reflexion_iterations] more fuel
    changes nothing: the loop has left through its condition. *)
Lemma reflexion_loop_fuel (episode : EpisodicNode) (previous_episodes : list EpisodicNode)
    (context : NumaExtractor.NodeContext) (fuel : nat) :
  forall (v : NumaExtractor.LoopVars) (w : World B),
  (NumaExtractor.MAX_REFLEXION_ITERATIONS + 2 <= fuel + NumaExtractor.reflexion_iterations v)%nat ->
  NumaExtractor.reflexion_loop (S fuel) episode previous_episodes context v w
  = NumaExtractor.reflexion_loop fuel episode previous_episodes context v w.
Proof.
  unfold NumaExtractor.MAX_REFLEXION_ITERATIONS.
  induction fuel as [|fuel IH]; intros v w Hfuel.
  - simpl. replace (NumaExtractor.reflexion_iterations v <=? NumaExtractor.MAX_REFLEXION_ITERATIONS)%nat
      with false; [now rewrite andb_false_r|].
    symmetry. apply Nat.leb_gt. unfold NumaExtractor.MAX_REFLEXION_ITERATIONS. lia.
  - change (NumaExtractor.reflexion_loop (S (S fuel)) episode previous_episodes context v w)
      with ((if NumaExtractor.entities_missed v
                && (NumaExtractor.reflexion_iterations v <=? NumaExtractor.MAX_REFLEXION_ITERATIONS)%nat
             then bind (NumaExtractor.loop_body episode previous_episodes context v)
                    (fun v' => NumaExtractor.reflexion_loop (S fuel) episode previous_episodes context v')
             else ret v) w).
    change (NumaExtractor.reflexion_loop (S fuel) episode previous_episodes context v w)
      with ((if NumaExtractor.entities_missed v
                && (NumaExtractor.reflexion_iterations v <=? NumaExtractor.MAX_REFLEXION_ITERATIONS)%nat
             then bind (NumaExtractor.loop_body episode previous_episodes context v)
                    (fun v' => NumaExtractor.reflexion_loop fuel episode previous_episodes context v')
             else ret v) w).
    destruct (NumaExtractor.entities_missed v
              && (NumaExtractor.reflexion_iterations v <=? NumaExtractor.MAX_REFLEXION_ITERATIONS)%nat);
      [|reflexivity].
    unfold bind.
    destruct (loop_body_spec episode previous_episodes context v w) as (_ & _ & _ & _ & _ & Hiter).
    destruct (NumaExtractor.loop_body episode previous_episodes context v w)
      as [[v' | e] w1]; [|reflexivity].
    apply IH. rewrite (Hiter v' eq_refl). lia.
Qed.

(** [extract_nodes] makes at most four calls for entities and two reflexion
    calls, and every call for entities carries the prompt of the context
    built before the loop, whose custom prompt is the empty string. *)
Lemma extract_nodes_calls (episode : EpisodicNode) (previous_episodes : list EpisodicNode)
    (entity_types : NumaExtractor.EntityTypes) (w : World B) :
  exists new,
    calls (snd (NumaExtractor.extract_nodes episode previous_episodes entity_types w))
    = calls w ++ new /\
    (length (calls_of ExtractedEntities new) <= 4)%nat /\
    (length (calls_of MissedEntities new) <= 2)%nat /\
    (forall c, In c (calls_of ExtractedEntities new) ->
       NumaExtractor.extract_prompt (episode_source episode)
         (NumaExtractor.initial_context episode previous_episodes entity_types)
       = Some (call_messages c)) /\
    NumaExtractor.ctx_custom_prompt
      (NumaExtractor.initial_context episode previous_episodes entity_types) = [].
Proof.
  unfold NumaExtractor.extract_nodes, bind.
  destruct (reflexion_loop_spec episode previous_episodes
              (NumaExtractor.initial_context episode previous_episodes entity_types)
              (NumaExtractor.MAX_REFLEXION_ITERATIONS + 2) NumaExtractor.initial_vars w)
    as (new & Hcalls & Hee & Hme & Hprompt).
  destruct (NumaExtractor.reflexion_loop _ _ _ _ _ w) as [[v | e] w1];
    exists new; simpl in *; repeat split; auto; lia.
Qed.

End NumaExtractorFacts.

(** The loop of [extract_nodes] always gets enough fuel: more changes
    nothing. *)
Lemma extract_nodes_fuel_enough {B : Type} `{Client B} `{PyRuntime}
    (episode : EpisodicNode) (previous_episodes : list EpisodicNode)
    (context : NumaExtractor.NodeContext) (extra : nat) (w : World B) :
  NumaExtractor.reflexion_loop (NumaExtractor.MAX_REFLEXION_ITERATIONS + 2 + extra)
    episode previous_episodes context NumaExtractor.initial_vars w
  = NumaExtractor.reflexion_loop (NumaExtractor.MAX_REFLEXION_ITERATIONS + 2)
    episode previous_episodes context NumaExtractor.initial_vars w.
Proof.
  induction extra as [|extra IH].
  - now rewrite Nat.add_0_r.
  - rewrite Nat.add_succ_r, reflexion_loop_fuel; [exact IH|]. lia.
Qed.

(** C1.  With a backend whose reflexion always reports a missed entity, the
    loop of [extract_nodes] goes through its body four times, one more than
    [MAX_REFLEXION_ITERATIONS]: four calls for entities and two reflexion
    calls, in this order. *)
Theorem reflexion_loop_runs_four_cycles :
  NumaExtractor.MAX_REFLEXION_ITERATIONS = 3%nat /\
  map call_model
    (calls (snd (@NumaExtractor.extract_nodes unit Examples.insistent_client Examples.ascii_runtime
                   Examples.episode_ann [] NumaExtractor.NoEntityTypes (Examples.new_world tt))))
  = [ExtractedEntities; MissedEntities; ExtractedEntities; MissedEntities;
     ExtractedEntities; ExtractedEntities] /\
  length
    (calls_of ExtractedEntities
       (calls (snd (@NumaExtractor.extract_nodes unit Examples.insistent_client Examples.ascii_runtime
                      Examples.episode_ann [] NumaExtractor.NoEntityTypes (Examples.new_world tt)))))
  = 4%nat.
Proof. vm_compute. repeat split. Qed.

(** C3.  The same run: both reflexion calls answered with the missed entity
    [Zed], and the instruction built from it is not the empty string; yet
    none of the four prompts for entities names [Zed] or holds the
    instruction, and all four are the same messages. *)
Theorem reflexion_prompt_omits_missed_entities :
  @NumaExtractor._extract_nodes_reflexion unit Examples.insistent_client Examples.ascii_runtime
    Examples.episode_ann [] [cps "Ann"] (Examples.new_world tt)
  = (Returns [cps "Zed"],
     {| backend := tt;
        calls := [{| call_messages :=
                       @NumaExtractor._create_reflexion_prompt Examples.ascii_runtime
                         (episode_content Examples.episode_ann) [] [cps "Ann"];
                     call_model := MissedEntities |}];
        uuids_drawn := 0 |}) /\
  contains (cps "Zed") (NumaExtractor.missed_instruction [cps "Zed"]) = true /\
  map (fun c => existsb (fun m => contains (cps "Zed") (content m)
                                  || contains (cps "Make sure that the following entities are extracted")
                                       (content m))
                  (call_messages c))
    (calls_of ExtractedEntities
       (calls (snd (@NumaExtractor.extract_nodes unit Examples.insistent_client Examples.ascii_runtime
                      Examples.episode_ann [] NumaExtractor.NoEntityTypes (Examples.new_world tt)))))
  = [false; false; false; false] /\
  map call_messages
    (calls_of ExtractedEntities
       (calls (snd (@NumaExtractor.extract_nodes unit Examples.insistent_client Examples.ascii_runtime
                      Examples.episode_ann [] NumaExtractor.NoEntityTypes (Examples.new_world tt)))))
  = repeat (@NumaExtractor._create_extract_message_prompt Examples.ascii_runtime
              (NumaExtractor.initial_context Examples.episode_ann [] NumaExtractor.NoEntityTypes)) 4.
Proof. vm_compute. repeat split. Qed.

(** C6.  With fewer than two nodes, [extract_edges] of either extractor
    returns the empty list and leaves the world as it was: no call is
    logged and the backend is not touched. *)
Theorem extract_edges_skips_backend_below_two_nodes {B : Type} `{Client B} `{PyRuntime}
    (nodes : list EntityNode) (episode : EpisodicNode)
    (previous_episodes : list EpisodicNode) (w : World B) :
  (length nodes < 2)%nat ->
  NumaExtractor.extract_edges nodes episode previous_episodes w = (Returns [], w) /\
  KnowledgeService.extract_edges nodes episode previous_episodes w = (Returns [], w).
Proof.
  intros Hlen. apply Nat.ltb_lt in Hlen.
  unfold NumaExtractor.extract_edges, KnowledgeService.extract_edges.
  rewrite Hlen. split; reflexivity.
Qed.

(** One node, and a backend that would answer if asked. *)
Lemma extract_edges_skips_backend_witness :
  @NumaExtractor.extract_edges unit Examples.insistent_client Examples.ascii_runtime
    [Examples.node_ann] Examples.episode_ann [] (Examples.new_world tt)
  = (Returns [], Examples.new_world tt) /\
  @KnowledgeService.extract_edges unit Examples.insistent_client Examples.ascii_runtime
    [Examples.node_ann] Examples.episode_ann [] (Examples.new_world tt)
  = (Returns [], Examples.new_world tt).
Proof.
  apply (@extract_edges_skips_backend_below_two_nodes unit Examples.insistent_client
           Examples.ascii_runtime).
  simpl. lia.
Defined.

Section EdgeResolution.

(** A name the dictionary resolves belongs to one of the nodes. *)
Lemma node_name_to_uuid_lookup (nodes : list EntityNode) (name u : pystr) :
  NumaExtractor.node_name_to_uuid nodes !! name = Some u ->
  exists n, In n nodes /\ node_name n = name /\ node_uuid n = u.
Proof.
  unfold NumaExtractor.node_name_to_uuid.
  assert (Hgen : forall (m : gmap pystr pystr),
            fold_left (fun m node => <[node_name node := node_uuid node]> m) nodes m !! name = Some u ->
            m !! name = Some u \/ exists n, In n nodes /\ node_name n = name /\ node_uuid n = u).
  { induction nodes as [|n nodes IH]; intros m Hm; simpl in *.
    - now left.
    - destruct (IH _ Hm) as [Hins | (n' & Hin & Hname & Huuid)].
      + apply lookup_insert_Some in Hins as [[Hname Huuid] | [_ Hold]].
        * right. exists n. auto.
        * now left.
      + right. exists n'. auto. }
  intros Hlookup. destruct (Hgen ∅ Hlookup) as [Hempty | Hnode]; [|exact Hnode].
  rewrite lookup_empty in Hempty. discriminate.
Qed.

(** [NumaExtractor.extract_edges]: every edge node it builds joins the
    ids of two of the given nodes, found under the names of an extracted
    edge, and the two ids differ. *)
Lemma numa_edges_resolved_distinct (episode : EpisodicNode) (nodes : list EntityNode)
    (extracted : list ExtractedEdge) (e : EdgeNode) :
  In e (NumaExtractor.to_edge_nodes episode nodes extracted) ->
  (exists x n1 n2,
     In x extracted /\ In n1 nodes /\ In n2 nodes /\
     node_name n1 = source_name x /\ node_name n2 = target_name x /\
     source_node_uuid e = node_uuid n1 /\ target_node_uuid e = node_uuid n2) /\
  source_node_uuid e <> target_node_uuid e.
Proof.
  unfold NumaExtractor.to_edge_nodes.
  set (P := fun e : EdgeNode =>
    (exists x n1 n2,
       In x extracted /\ In n1 nodes /\ In n2 nodes /\
       node_name n1 = source_name x /\ node_name n2 = target_name x /\
       source_node_uuid e = node_uuid n1 /\ target_node_uuid e = node_uuid n2) /\
    source_node_uuid e <> target_node_uuid e).
  assert (Hgen : forall (todo : list ExtractedEdge) (acc : list EdgeNode),
            (forall x, In x todo -> In x extracted) ->
            (forall e', In e' acc -> P e') ->
            forall e', In e'
              (fold_left
                 (fun edge_nodes extracted_edge =>
                    let source_uuid := NumaExtractor.node_name_to_uuid nodes !! source_name extracted_edge in
                    let target_uuid := NumaExtractor.node_name_to_uuid nodes !! target_name extracted_edge in
                    if NumaExtractor.truthy_opt source_uuid && NumaExtractor.truthy_opt target_uuid
                       && negb (bool_decide (source_uuid = target_uuid))
                    then edge_nodes ++
                         [{| edge_uuid := episode_group_id episode ++ cps "-edge-" ++ str_of_nat (length edge_nodes);
                             source_node_uuid := default [] source_uuid;
                             target_node_uuid := default [] target_uuid;
                             edge_relation_type := relation_type extracted_edge;
                             edge_summary := default [] (summary extracted_edge);
                             edge_group_id := episode_group_id episode |}]
                    else edge_nodes)
                 todo acc) -> P e').
  { induction todo as [|x todo IH]; intros acc Hsub Hacc e' He'; simpl in He'.
    - now apply Hacc.
    - apply (IH _ (fun y Hy => Hsub y (or_intror Hy))) in He'; [exact He'|].
      clear He' e'. intros e' He'.
      destruct (NumaExtractor.node_name_to_uuid nodes !! source_name x) as [su|] eqn:Hs;
        destruct (NumaExtractor.node_name_to_uuid nodes !! target_name x) as [tu|] eqn:Ht;
        simpl in He'; try (now apply Hacc);
        try (rewrite ?andb_false_r in He'; simpl in He'; now apply Hacc).
      destruct (truthy su && truthy tu
                && negb (bool_decide (Some su = Some tu))) eqn:Hkeep;
        [|now apply Hacc].
      apply in_app_or in He' as [He' | [<- | []]]; [now apply Hacc|].
      apply andb_true_iff in Hkeep as [_ Hne].
      apply negb_true_iff, bool_decide_eq_false in Hne.
      apply node_name_to_uuid_lookup in Hs as (n1 & Hin1 & Hn1 & Hu1).
      apply node_name_to_uuid_lookup in Ht as (n2 & Hin2 & Hn2 & Hu2).
      split; simpl.
      + exists x, n1, n2. repeat split; auto. apply Hsub. now left.
      + congruence. }
  apply Hgen; [auto | intros e' []].
Qed.

(** A name [node_map] resolves belongs to the node it gives. *)
Lemma node_map_lookup (nodes : list EntityNode) (name : pystr) (n : EntityNode) :
  KnowledgeService.node_map nodes !! name = Some n -> In n nodes /\ node_name n = name.
Proof.
  unfold KnowledgeService.node_map.
  assert (Hgen : forall (m : gmap pystr EntityNode),
            fold_left (fun m node => <[node_name node := node]> m) nodes m !! name = Some n ->
            m !! name = Some n \/ (In n nodes /\ node_name n = name)).
  { induction nodes as [|n' nodes IH]; intros m Hm; simpl in *.
    - now left.
    - destruct (IH _ Hm) as [Hins | [Hin Hname]].
      + apply lookup_insert_Some in Hins as [[Hname <-] | [_ Hold]]; auto.
      + right. auto. }
  intros Hlookup. destruct (Hgen ∅ Hlookup) as [Hempty | Hnode]; [|exact Hnode].
  rewrite lookup_empty in Hempty. discriminate.
Qed.

(** [InHouseKnowledgeExtractor.extract_edges]: every edge node it builds
    joins the ids of two of the given nodes, found under the names of an
    extracted edge.  Nothing makes the two ids differ. *)
Lemma in_house_edges_resolved {B : Type} `{Client B} `{PyRuntime}
    (nodes : list EntityNode) (episode : EpisodicNode)
    (previous_episodes : list EpisodicNode) (w : World B) (edges : list EdgeNode) (e : EdgeNode) :
  fst (KnowledgeService.extract_edges nodes episode previous_episodes w) = Returns edges ->
  In e edges ->
  exists n1 n2, In n1 nodes /\ In n2 nodes /\
                source_node_uuid e = node_uuid n1 /\ target_node_uuid e = node_uuid n2.
Proof.
  unfold KnowledgeService.extract_edges.
  destruct (length nodes <? 2)%nat; [intros [= <-] []|].
  unfold bind at 1.
  destruct (call _ ExtractedEdges w) as [[result | err] w1]; [|discriminate].
  set (P := fun e : EdgeNode =>
              exists n1 n2, In n1 nodes /\ In n2 nodes /\
                            source_node_uuid e = node_uuid n1 /\ target_node_uuid e = node_uuid n2).
  match goal with
  | |- context [KnowledgeService.fold_m ?f _ _] => set (step := f)
  end.
  assert (Hgen : forall (todo : list ExtractedEdge) (acc : list EdgeNode) (w1 : World B) edges,
            (forall e', In e' acc -> P e') ->
            fst (KnowledgeService.fold_m step todo acc w1) = Returns edges ->
            forall e', In e' edges -> P e').
  { induction todo as [|x todo IH]; intros acc w2 edges' Hacc Hrun e' He'.
    - simpl in Hrun. injection Hrun as <-. now apply Hacc.
    - simpl in Hrun. unfold bind at 1 in Hrun.
      assert (Hstep : forall acc' w3, step acc x w2 = (Returns acc', w3) ->
                                      forall e'', In e'' acc' -> P e'').
      { unfold step.
        destruct (KnowledgeService.node_map nodes !! source_name x) as [n1|] eqn:Hs;
          destruct (KnowledgeService.node_map nodes !! target_name x) as [n2|] eqn:Ht;
          try (intros acc' w3 [= <- _]; exact Hacc).
        unfold bind, fresh_uuid.
        destruct (summary x) as [edge_summary|]; [|discriminate].
        intros acc' w3 [= <- _].
        intros e'' He''. apply in_app_or in He'' as [He'' | [<- | []]]; [now apply Hacc|].
        apply node_map_lookup in Hs as [Hin1 _]. apply node_map_lookup in Ht as [Hin2 _].
        exists n1, n2. simpl. auto. }
      destruct (step acc x w2) as [[acc' | err] w3]; [|discriminate].
      eapply IH; [exact (Hstep acc' w3 eq_refl) | exact Hrun | exact He']. }
  intros Hrun He. eapply Hgen; [|exact Hrun|exact He]. intros e' [].
Qed.

End EdgeResolution.

(** The self-loop the in-house client reports is dropped by the Numa
    extractor's loop. *)
Example numa_drops_self_loop :
  NumaExtractor.to_edge_nodes Examples.episode_self_loop [Examples.node_ann; Examples.node_bob]
    (@KnowledgeService._extract_relationships Examples.ascii_runtime
       (cps "Episode: Ann, Bob. Ann manages Ann
Entities: Ann, Bob
"))
  = [].
Proof. vm_compute. reflexivity. Qed.

(** C2.  [InHouseKnowledgeExtractor.extract_edges] on the nodes [Ann] and
    [Bob] and the episode text "Ann, Bob. Ann manages Ann", with the
    in-house client: the edge from [Ann] to [Ann] is kept, its source id
    equal to its target id. *)
Theorem in_house_extract_edges_keeps_self_loop :
  fst (@KnowledgeService.extract_edges unit
         (@KnowledgeService.InHouseLLMClient Examples.ascii_runtime) Examples.ascii_runtime
         [Examples.node_ann; Examples.node_bob] Examples.episode_self_loop []
         (Examples.new_world tt))
  = Returns [{| edge_uuid := cps "uuid-0";
                source_node_uuid := node_uuid Examples.node_ann;
                target_node_uuid := node_uuid Examples.node_ann;
                edge_relation_type := cps "manages";
                edge_summary := cps "Ann manages Ann
Entities: Ann, Bob";
                edge_group_id := cps "g" |}].
Proof. vm_compute. reflexivity. Qed.

Section RegexFacts.

Context `{PyRuntime}.

Import NumaModule.

(** A repetition that succeeds has matched a word of the starred body. *)
Lemma star_loop_sound {A : Type} (r1 : regex)
    (body : pystr -> pystr -> (pystr -> pystr -> option A) -> option A)
    (k : pystr -> pystr -> option A) :
  (forall before rest k' res,
     body before rest k' = Some res ->
     exists w rest', rest = w ++ rest' /\ lang r1 w /\ k' (rev w ++ before) rest' = Some res) ->
  forall n before rest res,
    star_loop body n before rest k = Some res ->
    exists w rest', rest = w ++ rest' /\ lang (Star r1) w /\ k (rev w ++ before) rest' = Some res.
Proof.
  intros Hbody. induction n as [|n IH]; intros before rest res Hres; simpl in Hres.
  - exists [], rest. repeat split; [constructor | exact Hres].
  - destruct (body before rest _) as [res'|] eqn:Hb.
    + injection Hres as ->.
      apply Hbody in Hb as (w1 & rest1 & -> & Hw1 & Hk).
      destruct (length rest1 <? length (w1 ++ rest1))%nat; [|discriminate].
      apply IH in Hk as (w2 & rest2 & -> & Hw2 & Hk).
      exists (w1 ++ w2), rest2. rewrite rev_app_distr, <- !app_assoc.
      repeat split; [now constructor | exact Hk].
    + exists [], rest. repeat split; [constructor | exact Hres].
Qed.

(** A match that succeeds has consumed a word of the pattern. *)
Lemma re_match_sound {A : Type} (r : regex) :
  forall before rest (k : pystr -> pystr -> option A) res,
    re_match r before rest k = Some res ->
    exists w rest', rest = w ++ rest' /\ lang r w /\ k (rev w ++ before) rest' = Some res.
Proof.
  induction r as [p | | r1 IH1 r2 IH2 | r1 IH1]; intros before rest k res Hres;
    cbn [re_match] in Hres.
  - destruct rest as [|c rest']; [discriminate|].
    destruct (p c) eqn:Hp; [|discriminate].
    exists [c], rest'. repeat split; [now constructor | exact Hres].
  - destruct (at_word_boundary before rest); [|discriminate].
    exists [], rest. repeat split; [constructor | exact Hres].
  - apply IH1 in Hres as (w1 & rest1 & -> & Hw1 & Hres).
    apply IH2 in Hres as (w2 & rest2 & -> & Hw2 & Hres).
    exists (w1 ++ w2), rest2. rewrite rev_app_distr, <- !app_assoc.
    repeat split; [now constructor | exact Hres].
  - eapply star_loop_sound; [|exact Hres]. intros. now apply IH1.
Qed.

(** Every string [findall] returns is a word of the pattern. *)
Lemma findall_from_sound (r : regex) (fuel : nat) :
  forall before rest m, In m (findall_from fuel r before rest) -> lang r m.
Proof.
  induction fuel as [|fuel IH]; intros before rest m Hm; simpl in Hm; [contradiction|].
  assert (Hadv : In m match rest with
                      | [] => []
                      | c :: rest' => findall_from fuel r (c :: before) rest'
                      end -> lang r m).
  { destruct rest; [contradiction | apply IH]. }
  destruct (re_match r before rest (fun b s => Some (b, s))) as [[before' rest']|] eqn:Hmatch;
    [|now apply Hadv].
  apply re_match_sound in Hmatch as (w & rest'' & -> & Hw & Hk).
  injection Hk as <- <-.
  assert (Hmatched : rev (firstn (length (rev w ++ before) - length before) (rev w ++ before)) = w).
  { rewrite length_app, Nat.add_sub.
    rewrite firstn_app, Nat.sub_diag, firstn_all. simpl.
    now rewrite app_nil_r, rev_involutive. }
  rewrite Hmatched in Hm.
  destruct (length rest'' <? length (w ++ rest''))%nat;
    destruct Hm as [<- | Hm]; auto; eapply IH; eauto.
Qed.

Lemma findall_sound (r : regex) (text m : pystr) :
  In m (findall r text) -> lang r m.
Proof. apply findall_from_sound. Qed.

Lemma lang_seq_inv (r1 r2 : regex) (w : pystr) :
  lang (Seq r1 r2) w -> exists w1 w2, w = w1 ++ w2 /\ lang r1 w1 /\ lang r2 w2.
Proof. inversion 1; subst; eauto. Qed.

Lemma lang_class_inv (p : N -> bool) (w : pystr) :
  lang (CharClass p) w -> exists c, w = [c] /\ p c = true.
Proof. inversion 1; subst; eauto. Qed.

Lemma lang_boundary_inv (w : pystr) : lang WordBoundary w -> w = [].
Proof. now inversion 1. Qed.

Lemma lang_star_ind (r : regex) (Q : pystr -> Prop) :
  Q [] ->
  (forall w1 w2, lang r w1 -> Q w2 -> Q (w1 ++ w2)) ->
  forall w, lang (Star r) w -> Q w.
Proof.
  intros Hnil Hcons w Hw. remember (Star r) as sr eqn:Hsr.
  induction Hw; try discriminate; injection Hsr as ->; auto.
Qed.

End RegexFacts.

Section Capitalisation.

Import NumaModule.

Lemma is_space_range (c : N) : is_space c = true -> c <= 32 \/ 133 <= c.
Proof.
  unfold is_space. intros Hc.
  repeat match goal with
         | H : (_ || _) = true |- _ => apply orb_true_iff in H as [H | H]
         | H : (_ && _) = true |- _ => apply andb_true_iff in H as [? ?]
         | H : (_ <=? _) = true |- _ => apply N.leb_le in H
         | H : (_ =? _) = true |- _ => apply N.eqb_eq in H
         end; lia.
Qed.

Lemma is_upper_az_range (c : N) : is_upper_az c = true <-> 65 <= c <= 90.
Proof. unfold is_upper_az. rewrite andb_true_iff, !N.leb_le. tauto. Qed.

Lemma is_lower_az_range (c : N) : is_lower_az c = true <-> 97 <= c <= 122.
Proof. unfold is_lower_az. rewrite andb_true_iff, !N.leb_le. tauto. Qed.

Lemma upper_not_space (c : N) : is_upper_az c = true -> is_space c = false.
Proof.
  intros Hu. apply is_upper_az_range in Hu.
  destruct (is_space c) eqn:Hs; [apply is_space_range in Hs; lia | reflexivity].
Qed.

Lemma lower_not_space (c : N) : is_lower_az c = true -> is_space c = false.
Proof.
  intros Hl. apply is_lower_az_range in Hl.
  destruct (is_space c) eqn:Hs; [apply is_space_range in Hs; lia | reflexivity].
Qed.

Lemma lower_az_space (c : N) : is_space c = true -> lower_az c = c.
Proof.
  intros Hs. unfold lower_az. destruct (is_upper_az c) eqn:Hu; [|reflexivity].
  apply upper_not_space in Hu. congruence.
Qed.

Lemma lower_az_letter (c : N) :
  is_upper_az c = true \/ is_lower_az c = true -> is_lower_az (lower_az c) = true.
Proof.
  unfold lower_az. intros [Hu | Hl].
  - rewrite Hu. apply is_upper_az_range in Hu. apply is_lower_az_range. lia.
  - destruct (is_upper_az c) eqn:Hu; [|exact Hl].
    apply is_upper_az_range in Hu. apply is_lower_az_range in Hl. lia.
Qed.

Lemma lowers_capitalised (w : pystr) :
  lang (Star (CharClass is_lower_az)) w ->
  forall rest, capitalised false rest -> capitalised false (w ++ rest).
Proof.
  apply (lang_star_ind (CharClass is_lower_az)
           (fun w => forall rest, capitalised false rest -> capitalised false (w ++ rest))).
  - auto.
  - intros w1 w2 H1 IH rest Hrest.
    apply lang_class_inv in H1 as (c & -> & Hc). simpl.
    rewrite (lower_not_space c Hc). split; [exact Hc | now apply IH].
Qed.

Lemma word_capitalised (w : pystr) :
  lang capitalised_word w ->
  forall rest, capitalised false rest -> capitalised true (w ++ rest).
Proof.
  intros Hw rest Hrest.
  apply lang_seq_inv in Hw as (w1 & w2 & -> & H1 & H2).
  apply lang_class_inv in H1 as (c & -> & Hc).
  apply lang_seq_inv in H2 as (w3 & w4 & -> & H3 & H4).
  apply lang_class_inv in H3 as (c' & -> & Hc').
  simpl. rewrite (upper_not_space c Hc), (lower_not_space c' Hc').
  repeat split; auto. now apply lowers_capitalised.
Qed.

Lemma spaces_capitalised (w : pystr) :
  lang (Star (CharClass is_space)) w ->
  forall rest, capitalised true rest -> capitalised true (w ++ rest).
Proof.
  apply (lang_star_ind (CharClass is_space)
           (fun w => forall rest, capitalised true rest -> capitalised true (w ++ rest))).
  - auto.
  - intros w1 w2 H1 IH rest Hrest.
    apply lang_class_inv in H1 as (c & -> & Hc). simpl. rewrite Hc. now apply IH.
Qed.

Lemma group_capitalised (w : pystr) :
  lang (Seq (Plus (CharClass is_space)) capitalised_word) w ->
  forall rest, capitalised false rest -> capitalised false (w ++ rest).
Proof.
  intros Hw rest Hrest.
  apply lang_seq_inv in Hw as (w1 & w2 & -> & H1 & H2).
  apply lang_seq_inv in H1 as (w3 & w4 & -> & H3 & H4).
  apply lang_class_inv in H3 as (c & -> & Hc).
  rewrite <- !app_assoc. simpl. rewrite Hc.
  apply spaces_capitalised; [exact H4|]. now apply word_capitalised.
Qed.

(** A match of the proper-noun pattern is capitalised text. *)
Lemma proper_noun_capitalised (w : pystr) :
  lang proper_noun_pattern w -> capitalised true w.
Proof.
  intros Hw.
  apply lang_seq_inv in Hw as (w0 & w1 & -> & H0 & H1).
  apply lang_boundary_inv in H0 as ->.
  apply lang_seq_inv in H1 as (w2 & w3 & -> & H2 & H3).
  apply lang_seq_inv in H3 as (w4 & w5 & -> & H4 & H5).
  apply lang_boundary_inv in H5 as ->.
  simpl. apply word_capitalised; [exact H2|]. rewrite app_nil_r.
  rewrite <- (app_nil_r w4).
  revert H4.
  apply (lang_star_ind (Seq (Plus (CharClass is_space)) capitalised_word)
           (fun w => capitalised false (w ++ []))).
  - exact I.
  - intros w6 w7 H6 IH. rewrite <- app_assoc. now apply group_capitalised.
Qed.

(** Capitalised texts that agree up to the case of ASCII letters are equal. *)
Lemma capitalised_lower_inj (w1 : pystr) :
  forall (start : bool) (w2 : pystr),
    capitalised start w1 -> capitalised start w2 ->
    map lower_az w1 = map lower_az w2 -> w1 = w2.
Proof.
  induction w1 as [|c1 w1 IH]; intros start [|c2 w2] H1 H2 Heq; try discriminate; [reflexivity|].
  simpl in Heq. injection Heq as Hc Hw. simpl in H1, H2.
  destruct (is_space c1) eqn:Hs1; destruct (is_space c2) eqn:Hs2.
  - rewrite !lower_az_space in Hc by assumption. subst c2. f_equal. eapply IH; eauto.
  - destruct H2 as [Hcase2 _]. exfalso.
    rewrite (lower_az_space c1 Hs1) in Hc.
    assert (Hl : is_lower_az (lower_az c2) = true).
    { apply lower_az_letter. destruct start; auto. }
    rewrite <- Hc in Hl. apply lower_not_space in Hl. congruence.
  - destruct H1 as [Hcase1 _]. exfalso.
    rewrite (lower_az_space c2 Hs2) in Hc.
    assert (Hl : is_lower_az (lower_az c1) = true).
    { apply lower_az_letter. destruct start; auto. }
    rewrite Hc in Hl. apply lower_not_space in Hl. congruence.
  - destruct H1 as [Hcase1 H1], H2 as [Hcase2 H2].
    assert (c1 = c2) as ->.
    { unfold lower_az in Hc. destruct start.
      - rewrite Hcase1, Hcase2 in Hc. lia.
      - apply is_lower_az_range in Hcase1, Hcase2.
        destruct (is_upper_az c1) eqn:Hu1; [apply is_upper_az_range in Hu1; lia|].
        destruct (is_upper_az c2) eqn:Hu2; [apply is_upper_az_range in Hu2; lia|].
        exact Hc. }
    f_equal. eapply IH; eauto.
Qed.

(** Capitalised text holds ASCII letters and whitespace only. *)
Lemma capitalised_plain (w : pystr) :
  forall start, capitalised start w ->
  Forall (fun c => is_space c || is_upper_az c || is_lower_az c = true) w.
Proof.
  induction w as [|c w IH]; intros start Hw; constructor; simpl in Hw.
  - destruct (is_space c); [reflexivity|]. destruct Hw as [Hc _].
    destruct start; rewrite Hc; simpl; [reflexivity | apply orb_true_r].
  - destruct (is_space c); [eapply IH; eauto | destruct Hw; eapply IH; eauto].
Qed.

End Capitalisation.

Section Deduplication.

(** [dict.fromkeys] keeps one copy of each key and adds no key. *)
Lemma dict_fromkeys_spec (l : list pystr) :
  NoDup (dict_fromkeys l) /\ forall x, x ∈ dict_fromkeys l -> x ∈ l.
Proof.
  unfold dict_fromkeys.
  assert (Hgen : forall (keys : list pystr),
            NoDup keys ->
            NoDup (fold_left (fun keys k => if bool_decide (k ∈ keys) then keys else keys ++ [k]) l keys)
            /\ forall x,
                 x ∈ fold_left (fun keys k => if bool_decide (k ∈ keys) then keys else keys ++ [k]) l keys ->
                 x ∈ keys \/ x ∈ l).
  { induction l as [|k l IH]; intros keys Hkeys; simpl.
    - split; [exact Hkeys | now left].
    - destruct (bool_decide (k ∈ keys)) eqn:Hk.
      + destruct (IH keys Hkeys) as [Hnd Hin]. split; [exact Hnd|].
        intros x Hx. destruct (Hin x Hx); [now left | right; now constructor].
      + apply bool_decide_eq_false in Hk.
        destruct (IH (keys ++ [k])) as [Hnd Hin].
        { apply NoDup_app. repeat split; [exact Hkeys | | apply NoDup_singleton].
          intros x Hx Hxk. apply list_elem_of_singleton in Hxk. now subst. }
        split; [exact Hnd|].
        intros x Hx. destruct (Hin x Hx) as [Hx' | Hx'].
        * apply elem_of_app in Hx' as [Hx' | Hx']; [now left|].
          apply list_elem_of_singleton in Hx'. subst. right. constructor.
        * right. now constructor. }
  destruct (Hgen [] (NoDup_nil_2)) as [Hnd Hin]. split; [exact Hnd|].
  intros x Hx. destruct (Hin x Hx) as [Hx' | Hx']; [|exact Hx'].
  now apply elem_of_nil in Hx'.
Qed.

Context `{PyRuntime}.

(** [LocalExtractor._extract_from_prompt]: the entity names differ even
    when letter case is ignored, and there are at most ten. *)
Lemma local_entities_unique (input_text : pystr) :
  lower_on_plain_text ->
  NoDup (map py_lower (NumaModule.entities_of_input_text input_text)) /\
  (length (NumaModule.entities_of_input_text input_text) <= 10)%nat.
Proof.
  intros Hlower. unfold NumaModule.entities_of_input_text.
  split; [|apply firstn_le_length].
  match goal with
  | |- context [dict_fromkeys ?l] => set (found := l)
  end.
  destruct (dict_fromkeys_spec found) as [Hnd Hin].
  change (NoDup (py_lower <$> take 10 (dict_fromkeys found))).
  rewrite fmap_take. eapply sublist_NoDup; [|apply sublist_take].
  apply NoDup_fmap_2_strong; [|exact Hnd].
  assert (Hcap : forall x, x ∈ dict_fromkeys found -> NumaModule.capitalised true x).
  { intros x Hx. apply Hin in Hx. apply list_elem_of_In in Hx.
    unfold found in Hx. apply filter_In in Hx as [Hx _].
    apply proper_noun_capitalised. eapply findall_sound. exact Hx. }
  intros x y Hx Hy Hxy.
  apply Hcap in Hx, Hy.
  rewrite !Hlower in Hxy by (eapply capitalised_plain; eauto).
  eapply capitalised_lower_inj; eauto.
Qed.

(** The invariant of the scan of [_extract_entities]: the lowered names
    collected so far are pairwise different and all in [seen_entities]. *)
Lemma scan_match_invariant (text : pystr) (acc : KnowledgeService.Scan) (matched : pystr) :
  NoDup (map py_lower (map entity_name (KnowledgeService.scan_entities acc))) /\
  (forall x, x ∈ map entity_name (KnowledgeService.scan_entities acc) ->
             py_lower x ∈ KnowledgeService.seen_entities acc) ->
  NoDup (map py_lower (map entity_name
           (KnowledgeService.scan_entities (KnowledgeService.scan_match text acc matched)))) /\
  (forall x, x ∈ map entity_name
                   (KnowledgeService.scan_entities (KnowledgeService.scan_match text acc matched)) ->
             py_lower x ∈ KnowledgeService.seen_entities (KnowledgeService.scan_match text acc matched)).
Proof.
  intros [Hnd Hseen]. unfold KnowledgeService.scan_match.
  set (entity_name' := py_title (collapse_ws (strip matched))).
  destruct ((2 <? length entity_name')%nat
            && bool_decide (py_lower entity_name' ∉ KnowledgeService.seen_entities acc)) eqn:Hadd;
    [|now split].
  apply andb_true_iff in Hadd as [_ Hfresh]. apply bool_decide_eq_true in Hfresh.
  simpl. rewrite !map_app. simpl. split.
  - apply NoDup_app. repeat split; [exact Hnd | | apply NoDup_singleton].
    intros x Hx Hx'. apply list_elem_of_singleton in Hx'. subst x.
    change (py_lower entity_name' ∈ py_lower <$> (map entity_name (KnowledgeService.scan_entities acc))) in Hx.
    apply list_elem_of_fmap in Hx as (y & Hy & Hin).
    apply Hseen in Hin. rewrite <- Hy in Hin. contradiction.
  - intros x Hx. apply elem_of_app in Hx as [Hx | Hx].
    + apply elem_of_union. right. now apply Hseen.
    + apply list_elem_of_singleton in Hx. subst x.
      apply elem_of_union. left. now apply elem_of_singleton.
Qed.

(** [InHouseLLMClient._extract_entities]: the same two facts, with the cap
    of twenty. *)
Lemma in_house_entities_unique (text : pystr) :
  NoDup (map py_lower (map entity_name (KnowledgeService._extract_entities text))) /\
  (length (KnowledgeService._extract_entities text) <= 20)%nat.
Proof.
  unfold KnowledgeService._extract_entities. split; [|apply firstn_le_length].
  assert (Hinv :
    NoDup (map py_lower (map entity_name
             (KnowledgeService.scan_entities (KnowledgeService.scan_patterns text)))) /\
    (forall x, x ∈ map entity_name
                     (KnowledgeService.scan_entities (KnowledgeService.scan_patterns text)) ->
               py_lower x ∈ KnowledgeService.seen_entities (KnowledgeService.scan_patterns text))).
  { unfold KnowledgeService.scan_patterns.
    generalize KnowledgeService.entity_patterns as patterns.
    assert (Hinit :
      NoDup (map py_lower (map entity_name
               (KnowledgeService.scan_entities
                  {| KnowledgeService.scan_entities := []; KnowledgeService.seen_entities := ∅ |}))) /\
      (forall x, x ∈ map entity_name
                       (KnowledgeService.scan_entities
                          {| KnowledgeService.scan_entities := []; KnowledgeService.seen_entities := ∅ |}) ->
                 py_lower x ∈ KnowledgeService.seen_entities
                   {| KnowledgeService.scan_entities := []; KnowledgeService.seen_entities := ∅ |})).
    { simpl. split; [constructor | intros x Hx; now apply elem_of_nil in Hx]. }
    revert Hinit.
    generalize {| KnowledgeService.scan_entities := []; KnowledgeService.seen_entities := ∅ |} as acc.
    intros acc Hacc patterns. revert acc Hacc.
    induction patterns as [|pattern patterns IH]; intros acc Hacc; simpl; [exact Hacc|].
    apply IH.
    generalize (re_finditer_ignorecase pattern text) as found.
    intros found. revert acc Hacc.
    induction found as [|m found IHf]; intros acc Hacc; simpl; [exact Hacc|].
    apply IHf. now apply scan_match_invariant. }
  destruct Hinv as [Hnd _].
  rewrite <- !firstn_map. eapply sublist_NoDup; [exact Hnd | apply sublist_take].
Qed.

End Deduplication.

(** C8.  Whatever the input text, neither rule-based extractor returns two
    entity names that are equal once lowered, and the local extractor
    returns at most ten names, the in-house one at most twenty.  ([str.lower]
    is only asked to lower ASCII letters in text made of ASCII letters and
    whitespace.) *)
Theorem rule_based_entities_unique_up_to_case `{PyRuntime} (text : pystr) :
  lower_on_plain_text ->
  (NoDup (map py_lower (NumaModule.entities (NumaModule._extract_from_prompt text))) /\
   (length (NumaModule.entities (NumaModule._extract_from_prompt text)) <= 10)%nat) /\
  (NoDup (map py_lower (map entity_name (KnowledgeService._extract_entities text))) /\
   (length (KnowledgeService._extract_entities text) <= 20)%nat).
Proof.
  intros Hlower. split.
  - unfold NumaModule._extract_from_prompt. simpl. now apply local_entities_unique.
  - apply in_house_entities_unique.
Qed.

Section ExtractKnowledge.

Import ExtractionService.

Context {L B : Type} `{KnowledgeExtractor L} `{Client B} `{PyRuntime}.

(** What [extract_knowledge] returns, by the outcome of its [try] body. *)
Lemma extract_knowledge_by_body (request : ExtractionRequest) (svc : Service L B) :
  extract_knowledge request svc
  = match extract_knowledge_body request svc with
    | (Returns result, svc') => (Returns result, svc')
    | (Raises e, svc') => (Returns (failure_response e), svc')
    end.
Proof. reflexivity. Qed.

(** A response that [_extract_with_numa] or [_extract_with_llm] returns
    reports success. *)
Lemma extract_with_numa_success (request : ExtractionRequest) (w : World B)
    (result : ExtractionResponse) :
  fst (_extract_with_numa request w) = Returns result -> success result = true.
Proof.
  unfold _extract_with_numa, bind, ret.
  repeat match goal with
         | |- context [match ?m with (_, _) => _ end] => destruct m as [[?|?] ?]; simpl
         end; try discriminate.
  intros [= <-]. reflexivity.
Qed.

Lemma extract_with_llm_success (request : ExtractionRequest) (w : World L)
    (result : ExtractionResponse) :
  fst (_extract_with_llm request w) = Returns result -> success result = true.
Proof.
  unfold _extract_with_llm, bind, ret.
  repeat match goal with
         | |- context [match ?m with (_, _) => _ end] => destruct m as [[?|?] ?]; simpl
         end; try discriminate.
  intros [= <-]. reflexivity.
Qed.

End ExtractKnowledge.

(** C5, as stated, fails: the remote extraction ends in HTTP 503, and
    [extract_knowledge] answers with the Numa extraction's successful
    response, having called the Numa backend, and not with a failure. *)
Lemma remote_failure_falls_back_to_numa :
  fst (@ExtractionService._extract_with_llm unit Examples.unavailable_extractor Examples.ascii_runtime
         Examples.request_ann (Examples.new_world tt))
  = Raises Examples.service_unavailable /\
  exists response svc',
    @ExtractionService.extract_knowledge unit unit Examples.unavailable_extractor
      Examples.insistent_client Examples.ascii_runtime Examples.request_ann Examples.service_both
    = (Returns response, svc') /\
    ExtractionService.success response = true /\
    map node_name (ExtractionService.extracted_nodes response) = [cps "Ann"] /\
    ExtractionService.error response = None /\
    option_map (fun w => length (calls w)) (ExtractionService.numa_client svc') = Some 6%nat.
Proof.
  split; [vm_compute; reflexivity|].
  eexists. eexists. split; [vm_compute; reflexivity|].
  vm_compute. repeat split.
Qed.

(** C5, amended.  The backend is chosen before the extraction starts only
    in this: with [use_numa] set, or without an LLM client, the remote
    extraction is not attempted and the LLM client is left as it was; the
    caller gets the Numa extraction's response, a failure response with
    its error, or, without a Numa client, a failure response that says no
    client is available.  Otherwise the remote extraction is attempted:
    if it returns, its response is the answer and the Numa client is left
    as it was; if it raises, [extract_knowledge] turns to the Numa client
    in the same way, and the remote error is in no response. *)
Theorem remote_failure_then_numa {L B : Type} `{ExtractionService.KnowledgeExtractor L}
    `{Client B} `{PyRuntime}
    (request : ExtractionService.ExtractionRequest) (svc : ExtractionService.Service L B) :
  (forall (llm llm' : World L) (e : exn),
     default false (ExtractionService.use_numa request) = false ->
     ExtractionService.llm_client svc = Some llm ->
     ExtractionService._extract_with_llm request llm = (Raises e, llm') ->
     ExtractionService.extract_knowledge request svc
     = match ExtractionService.numa_client svc with
       | Some w =>
           match ExtractionService._extract_with_numa request w with
           | (Returns result, w') =>
               (Returns result,
                {| ExtractionService.llm_client := Some llm';
                   ExtractionService.numa_client := Some w' |})
           | (Raises e', w') =>
               (Returns (ExtractionService.failure_response e'),
                {| ExtractionService.llm_client := Some llm';
                   ExtractionService.numa_client := Some w' |})
           end
       | None =>
           (Returns (ExtractionService.failure_response ExtractionService.no_clients),
            {| ExtractionService.llm_client := Some llm'; ExtractionService.numa_client := None |})
       end) /\
  (forall (llm llm' : World L) (result : ExtractionService.ExtractionResponse),
     default false (ExtractionService.use_numa request) = false ->
     ExtractionService.llm_client svc = Some llm ->
     ExtractionService._extract_with_llm request llm = (Returns result, llm') ->
     ExtractionService.extract_knowledge request svc
     = (Returns result,
        {| ExtractionService.llm_client := Some llm';
           ExtractionService.numa_client := ExtractionService.numa_client svc |})) /\
  (default false (ExtractionService.use_numa request) = true \/
   ExtractionService.llm_client svc = None ->
   ExtractionService.extract_knowledge request svc
   = match ExtractionService.numa_client svc with
     | Some w =>
         match ExtractionService._extract_with_numa request w with
         | (Returns result, w') =>
             (Returns result,
              {| ExtractionService.llm_client := ExtractionService.llm_client svc;
                 ExtractionService.numa_client := Some w' |})
         | (Raises e', w') =>
             (Returns (ExtractionService.failure_response e'),
              {| ExtractionService.llm_client := ExtractionService.llm_client svc;
                 ExtractionService.numa_client := Some w' |})
         end
     | None =>
         (Returns (ExtractionService.failure_response ExtractionService.no_clients), svc)
     end).
Proof.
  split; [|split].
  - intros llm llm' e Huse Hllm Hraise.
    unfold ExtractionService.extract_knowledge, ExtractionService.extract_knowledge_body.
    rewrite Huse, Hllm. simpl. rewrite Hraise.
    unfold ExtractionService.numa_or_raise. simpl.
    destruct (ExtractionService.numa_client svc) as [w|]; [|reflexivity].
    destruct (ExtractionService._extract_with_numa request w) as [[result | e'] w']; reflexivity.
  - intros llm llm' result Huse Hllm Hreturn.
    unfold ExtractionService.extract_knowledge, ExtractionService.extract_knowledge_body.
    rewrite Huse, Hllm. simpl. rewrite Hreturn. reflexivity.
  - intros Hskip. unfold ExtractionService.extract_knowledge.
    assert (Hbody : ExtractionService.extract_knowledge_body request svc
                    = ExtractionService.numa_or_raise request svc).
    { unfold ExtractionService.extract_knowledge_body. destruct Hskip as [Huse | Hnone].
      - rewrite Huse. reflexivity.
      - rewrite Hnone. cbv zeta. rewrite orb_true_r. reflexivity. }
    rewrite Hbody. unfold ExtractionService.numa_or_raise.
    destruct (ExtractionService.numa_client svc) as [w|]; [|reflexivity].
    destruct (ExtractionService._extract_with_numa request w) as [[result | e'] w']; reflexivity.
Qed.

(** The amended statement at the service with both clients: a remote
    extractor that raises, and, with [use_numa] set, one that would have
    answered. *)
Lemma remote_failure_then_numa_witness :
  @ExtractionService.extract_knowledge unit unit Examples.unavailable_extractor
    Examples.insistent_client Examples.ascii_runtime Examples.request_ann Examples.service_both
  = match ExtractionService.numa_client Examples.service_both with
    | Some w =>
        match @ExtractionService._extract_with_numa unit Examples.insistent_client
                Examples.ascii_runtime Examples.request_ann w with
        | (Returns result, w') =>
            (Returns result,
             {| ExtractionService.llm_client :=
                  Some {| backend := tt; calls := []; uuids_drawn := 1 |};
                ExtractionService.numa_client := Some w' |})
        | (Raises e', w') =>
            (Returns (ExtractionService.failure_response e'),
             {| ExtractionService.llm_client :=
                  Some {| backend := tt; calls := []; uuids_drawn := 1 |};
                ExtractionService.numa_client := Some w' |})
        end
    | None =>
        (Returns (ExtractionService.failure_response ExtractionService.no_clients),
         {| ExtractionService.llm_client :=
              Some {| backend := tt; calls := []; uuids_drawn := 1 |};
            ExtractionService.numa_client := None |})
    end /\
  @ExtractionService.extract_knowledge unit unit Examples.answering_extractor
    Examples.insistent_client Examples.ascii_runtime Examples.request_numa Examples.service_both
  = match ExtractionService.numa_client Examples.service_both with
    | Some w =>
        match @ExtractionService._extract_with_numa unit Examples.insistent_client
                Examples.ascii_runtime Examples.request_numa w with
        | (Returns result, w') =>
            (Returns result,
             {| ExtractionService.llm_client :=
                  ExtractionService.llm_client Examples.service_both;
                ExtractionService.numa_client := Some w' |})
        | (Raises e', w') =>
            (Returns (ExtractionService.failure_response e'),
             {| ExtractionService.llm_client :=
                  ExtractionService.llm_client Examples.service_both;
                ExtractionService.numa_client := Some w' |})
        end
    | None =>
        (Returns (ExtractionService.failure_response ExtractionService.no_clients),
         Examples.service_both)
    end.
Proof.
  split.
  - apply (proj1 (@remote_failure_then_numa unit unit Examples.unavailable_extractor
                    Examples.insistent_client Examples.ascii_runtime Examples.request_ann
                    Examples.service_both)
             (Examples.new_world tt)
             {| backend := tt; calls := []; uuids_drawn := 1 |} Examples.service_unavailable).
    + reflexivity.
    + reflexivity.
    + vm_compute. reflexivity.
  - apply (proj2 (proj2 (@remote_failure_then_numa unit unit Examples.answering_extractor
                           Examples.insistent_client Examples.ascii_runtime
                           Examples.request_numa Examples.service_both))).
    left. reflexivity.
Defined.

(** With [use_numa] set the remote extractor that would have answered with
    the node [Bob] is not asked: the response holds the Numa backend's
    node [Ann], and the LLM client has drawn no identifier. *)
Example use_numa_skips_remote :
  exists response svc',
    @ExtractionService.extract_knowledge unit unit Examples.answering_extractor
      Examples.insistent_client Examples.ascii_runtime Examples.request_numa Examples.service_both
    = (Returns response, svc') /\
    map node_name (ExtractionService.extracted_nodes response) = [cps "Ann"] /\
    ExtractionService.llm_client svc' = Some (Examples.new_world tt).
Proof. eexists. eexists. split; [vm_compute; reflexivity|]. vm_compute. split; reflexivity. Qed.

Section NeverRaising.

Context {B : Type} `{Client B} `{PyRuntime}.

Hypothesis Hclient : client_never_raises.

Lemma call_returns (messages : list Message) (response_model : ResponseModel) (w : World B) :
  exists r w', call messages response_model w = (Returns r, w').
Proof.
  unfold call. destruct (Hclient messages response_model (backend w)) as (r & b' & ->). eauto.
Qed.

Lemma loop_body_returns (episode : EpisodicNode) (previous_episodes : list EpisodicNode)
    (context : NumaExtractor.NodeContext) (v : NumaExtractor.LoopVars) (w : World B) :
  exists v' w', NumaExtractor.loop_body episode previous_episodes context v w = (Returns v', w').
Proof.
  unfold NumaExtractor.loop_body. unfold bind at 1.
  assert (Hfirst : exists r w1,
            match episode_source episode with
            | message => call (NumaExtractor._create_extract_message_prompt context)
                           ExtractedEntities
            | text => call (NumaExtractor._create_extract_text_prompt context) ExtractedEntities
            | json => call (NumaExtractor._create_extract_json_prompt context) ExtractedEntities
            | conversation => ret (NumaExtractor.llm_response v)
            end w = (Returns r, w1)).
  { destruct (episode_source episode); try apply call_returns. unfold ret. eauto. }
  destruct Hfirst as (r & w1 & ->).
  destruct (S (NumaExtractor.reflexion_iterations v) <? NumaExtractor.MAX_REFLEXION_ITERATIONS)%nat;
    [|unfold ret; eauto].
  unfold NumaExtractor._extract_nodes_reflexion. unfold bind.
  match goal with
  | |- context [call ?m MissedEntities w1] =>
      destruct (call_returns m MissedEntities w1) as (r2 & w2 & ->)
  end.
  unfold ret. eauto.
Qed.

Lemma reflexion_loop_returns (episode : EpisodicNode) (previous_episodes : list EpisodicNode)
    (context : NumaExtractor.NodeContext) (fuel : nat) :
  forall (v : NumaExtractor.LoopVars) (w : World B),
  exists v' w',
    NumaExtractor.reflexion_loop fuel episode previous_episodes context v w = (Returns v', w').
Proof.
  induction fuel as [|fuel IH]; intros v w; simpl; [unfold ret; eauto|].
  destruct (NumaExtractor.entities_missed v
            && (NumaExtractor.reflexion_iterations v <=? NumaExtractor.MAX_REFLEXION_ITERATIONS)%nat);
    [|unfold ret; eauto].
  unfold bind.
  destruct (loop_body_returns episode previous_episodes context v w) as (v' & w' & ->).
  apply IH.
Qed.

(** Over a client that never raises, neither does the Numa extractor. *)
Lemma numa_extract_nodes_never_raises (episode : EpisodicNode)
    (previous_episodes : list EpisodicNode) (entity_types : NumaExtractor.EntityTypes)
    (w : World B) :
  exists nodes w',
    NumaExtractor.extract_nodes episode previous_episodes entity_types w = (Returns nodes, w').
Proof.
  unfold NumaExtractor.extract_nodes. unfold bind.
  destruct (reflexion_loop_returns episode previous_episodes
              (NumaExtractor.initial_context episode previous_episodes entity_types)
              (NumaExtractor.MAX_REFLEXION_ITERATIONS + 2) NumaExtractor.initial_vars w)
    as (v & w' & ->).
  unfold ret. eauto.
Qed.

Lemma numa_extract_edges_never_raises (nodes : list EntityNode) (episode : EpisodicNode)
    (previous_episodes : list EpisodicNode) (w : World B) :
  exists edges w',
    NumaExtractor.extract_edges nodes episode previous_episodes w = (Returns edges, w').
Proof.
  unfold NumaExtractor.extract_edges.
  destruct (length nodes <? 2)%nat; [unfold ret; eauto|].
  unfold bind.
  match goal with
  | |- context [call ?m ExtractedEdges w] =>
      destruct (call_returns m ExtractedEdges w) as (r & w' & ->)
  end.
  unfold ret. eauto.
Qed.

(** What is left to fail in [_extract_with_numa]: a timestamp that
    [fromisoformat] refuses. *)
Lemma convert_previous_episodes_error {W : Type}
    (previous : list ExtractionService.EpisodeData) (w w' : World W) (e : exn) :
  ExtractionService._convert_previous_episodes previous w = (Raises e, w') ->
  exists timestamp, fromisoformat_error timestamp = Some e.
Proof.
  revert w w'. induction previous as [|ep previous IH]; intros w w'; [discriminate|].
  cbn [ExtractionService._convert_previous_episodes].
  destruct (fromisoformat_error (ExtractionService.data_timestamp ep)) as [e0|] eqn:Hep.
  - unfold raise. intros [= <- _]. eauto.
  - unfold bind.
    destruct (ExtractionService._convert_previous_episodes previous w) as [[converted | e0] w1]
      eqn:Hrest; [discriminate|].
    intros [= <- _]. eapply IH. exact Hrest.
Qed.

Lemma extract_with_numa_error (request : ExtractionService.ExtractionRequest)
    (w w' : World B) (e : exn) :
  ExtractionService._extract_with_numa request w = (Raises e, w') ->
  exists timestamp, fromisoformat_error timestamp = Some e.
Proof.
  unfold ExtractionService._extract_with_numa. unfold bind at 1.
  unfold ExtractionService._convert_to_episode at 1. unfold bind at 1.
  unfold fresh_uuid at 1. unfold ret at 1. unfold bind at 1.
  destruct (ExtractionService._convert_previous_episodes _ _) as [[previous | e0] w1] eqn:Hprevious.
  - unfold bind at 1.
    match goal with
    | |- context [NumaExtractor.extract_nodes ?ep ?prev ?types w1] =>
        destruct (numa_extract_nodes_never_raises ep prev types w1) as (nodes & w2 & ->)
    end.
    unfold bind at 1.
    match goal with
    | |- context [NumaExtractor.extract_edges nodes ?ep ?prev w2] =>
        destruct (numa_extract_edges_never_raises nodes ep prev w2) as (edges & w3 & ->)
    end.
    discriminate.
  - intros [= <- _]. eapply convert_previous_episodes_error. exact Hprevious.
Qed.

End NeverRaising.

(** C10.  [extract_knowledge] always returns a response, whatever the
    request and the clients.  When the body of its [try] raises [e], the
    response has [success=False], no nodes, no edges and [str(e)] as its
    error; when the body returns a response, that response is returned,
    and it reports success.  Over a Numa client that never raises, which
    is what [NumaClient.generate_response] is, and with the errors of
    [datetime.fromisoformat] carrying a message, as they do, the error of
    a failure response is never the empty string. *)
Theorem extract_knowledge_always_responds {L B : Type} `{ExtractionService.KnowledgeExtractor L}
    `{Client B} `{PyRuntime}
    (request : ExtractionService.ExtractionRequest) (svc : ExtractionService.Service L B) :
  client_never_raises ->
  (forall timestamp e, fromisoformat_error timestamp = Some e -> exn_msg e <> []) ->
  exists response,
    fst (ExtractionService.extract_knowledge request svc) = Returns response /\
    (forall e, fst (ExtractionService.extract_knowledge_body request svc) = Raises e ->
       ExtractionService.success response = false /\
       ExtractionService.extracted_nodes response = [] /\
       ExtractionService.extracted_edges response = [] /\
       ExtractionService.error response = Some (str_exn e) /\
       str_exn e <> []) /\
    (forall result, fst (ExtractionService.extract_knowledge_body request svc) = Returns result ->
       response = result /\ ExtractionService.success response = true) /\
    (ExtractionService.success response = false ->
     ExtractionService.extracted_nodes response = [] /\
     ExtractionService.extracted_edges response = [] /\
     exists message, ExtractionService.error response = Some message /\ message <> []).
Proof.
  intros Hclient Hdates.
  assert (Hmessage : forall e, fst (ExtractionService.extract_knowledge_body request svc) = Raises e ->
                               str_exn e <> []).
  { intros e. unfold ExtractionService.extract_knowledge_body.
    assert (Hnuma : forall s : ExtractionService.Service L B,
              fst (ExtractionService.numa_or_raise request s) = Raises e -> str_exn e <> []).
    { intros s. unfold ExtractionService.numa_or_raise.
      destruct (ExtractionService.numa_client s) as [w|]; [|intros [= <-]; discriminate].
      destruct (ExtractionService._extract_with_numa request w) as [[r | e'] w'] eqn:Hrun;
        [discriminate|].
      intros [= ->].
      destruct (extract_with_numa_error Hclient request w w' e Hrun) as (timestamp & Htimestamp).
      exact (Hdates timestamp e Htimestamp). }
    destruct (negb _); [destruct (ExtractionService.llm_client svc) as [llm|]|];
      try apply Hnuma.
    destruct (ExtractionService._extract_with_llm request llm) as [[r | e'] llm'];
      [discriminate | apply Hnuma]. }
  assert (Hsuccess : forall result,
            fst (ExtractionService.extract_knowledge_body request svc) = Returns result ->
            ExtractionService.success result = true).
  { intros result Hbody.
    destruct (ExtractionService.extract_knowledge_body request svc) as [[r | e] svc'] eqn:Hrun;
      [|discriminate].
    injection Hbody as ->.
    unfold ExtractionService.extract_knowledge_body, ExtractionService.numa_or_raise in Hrun.
    repeat match type of Hrun with
           | context [match ?x with _ => _ end] =>
               lazymatch x with
               | ExtractionService._extract_with_llm ?a ?b =>
                   pose proof (extract_with_llm_success a b) as Hllm;
                   destruct (ExtractionService._extract_with_llm a b) as [[?|?] ?]
               | ExtractionService._extract_with_numa ?a ?b =>
                   pose proof (extract_with_numa_success a b) as Hnuma;
                   destruct (ExtractionService._extract_with_numa a b) as [[?|?] ?]
               | _ => destruct x
               end; simpl in Hrun
           end;
      try discriminate; injection Hrun as <- _; auto. }
  rewrite extract_knowledge_by_body.
  destruct (ExtractionService.extract_knowledge_body request svc) as [[result | e] svc'] eqn:Hbody.
  - exists result. cbn [fst]. split; [reflexivity|]. split; [intros e He; discriminate|].
    specialize (Hsuccess result eq_refl).
    split; [intros r [= <-]; split; [reflexivity | exact Hsuccess]|].
    intros Hfalse. congruence.
  - exists (ExtractionService.failure_response e). cbn [fst].
    specialize (Hmessage e eq_refl).
    split; [reflexivity|]. split; [|split; [intros r Hr; discriminate|]].
    + intros e' [= <-]. repeat split. exact Hmessage.
    + intros _. split; [reflexivity|]. split; [reflexivity|].
      exists (str_exn e). split; [reflexivity | exact Hmessage].
Qed.

(** A request that fails: its previous episode's timestamp is refused,
    on the remote path and on the Numa path. *)
Lemma extract_knowledge_always_responds_witness :
  exists response,
    fst (@ExtractionService.extract_knowledge unit unit Examples.unavailable_extractor
           Examples.insistent_client Examples.strict_dates_runtime
           Examples.request_yesterday Examples.service_both) = Returns response /\
    (forall e,
       fst (@ExtractionService.extract_knowledge_body unit unit Examples.unavailable_extractor
              Examples.insistent_client Examples.strict_dates_runtime
              Examples.request_yesterday Examples.service_both) = Raises e ->
       ExtractionService.success response = false /\
       ExtractionService.extracted_nodes response = [] /\
       ExtractionService.extracted_edges response = [] /\
       ExtractionService.error response = Some (str_exn e) /\
       str_exn e <> []) /\
    (forall result,
       fst (@ExtractionService.extract_knowledge_body unit unit Examples.unavailable_extractor
              Examples.insistent_client Examples.strict_dates_runtime
              Examples.request_yesterday Examples.service_both) = Returns result ->
       response = result /\ ExtractionService.success response = true) /\
    (ExtractionService.success response = false ->
     ExtractionService.extracted_nodes response = [] /\
     ExtractionService.extracted_edges response = [] /\
     exists message, ExtractionService.error response = Some message /\ message <> []).
Proof.
  apply (@extract_knowledge_always_responds unit unit Examples.unavailable_extractor
           Examples.insistent_client Examples.strict_dates_runtime
           Examples.request_yesterday Examples.service_both).
  - intros messages response_model b. eexists. eexists. reflexivity.
  - intros timestamp e. cbn [fromisoformat_error Examples.strict_dates_runtime].
    destruct (bool_decide (timestamp = cps "yesterday")); [|discriminate].
    intros [= <-]. discriminate.
Defined.

(** The response of that request. *)
Example unparsable_timestamp_response :
  fst (@ExtractionService.extract_knowledge unit unit Examples.unavailable_extractor
         Examples.insistent_client Examples.strict_dates_runtime
         Examples.request_yesterday Examples.service_both)
  = Returns {| ExtractionService.success := false;
               ExtractionService.extracted_nodes := [];
               ExtractionService.extracted_edges := [];
               ExtractionService.error := Some (cps "Invalid isoformat string: 'yesterday'") |}.
Proof. vm_compute. reflexivity. Qed.

(** C7.  The fallback embedding of a text is made of 384 numbers in every
    process, and it is the same in two processes whose [hash] of the text
    agree modulo 2^31; but [hash] of a string follows the secret of the
    process, and with it the seed and the vector: in the two example
    processes the embeddings of one text differ. *)
Theorem mock_embeddings_follow_the_hash_secret :
  (forall (numpy : EmbeddingService.NumpyRuntime) (hash_secret : N) (texts : list pystr),
     length (EmbeddingService._generate_mock_embeddings hash_secret texts) = length texts /\
     forall embedding,
       In embedding (EmbeddingService._generate_mock_embeddings hash_secret texts) ->
       length embedding = 384%nat) /\
  (forall (numpy : EmbeddingService.NumpyRuntime) (secret1 secret2 : N) (text : pystr),
     (EmbeddingService.str_hash secret1 text mod 2 ^ 31
      = EmbeddingService.str_hash secret2 text mod 2 ^ 31)%Z ->
     EmbeddingService._generate_mock_embeddings secret1 [text]
     = EmbeddingService._generate_mock_embeddings secret2 [text]) /\
  @EmbeddingService._generate_mock_embeddings Examples.counting_numpy 1 [cps "Ann"]
  <> @EmbeddingService._generate_mock_embeddings Examples.counting_numpy 2 [cps "Ann"].
Proof.
  split; [|split].
  - intros numpy hash_secret texts. unfold EmbeddingService._generate_mock_embeddings.
    split; [apply List.length_map|].
    intros embedding Hin. apply in_map_iff in Hin as (text & <- & _).
    rewrite List.length_map. apply EmbeddingService.randn_length.
  - intros numpy secret1 secret2 text Hhash.
    unfold EmbeddingService._generate_mock_embeddings. cbn [map]. now rewrite Hhash.
  - intros Heq. apply (f_equal (fun l => nth 0 (nth 0 l []) 0%Z)) in Heq.
    vm_compute in Heq. discriminate.
Qed.

(** What the two extractors find in one text that repeats a name in
    another case. *)
Example local_entities_example :
  NumaModule.entities
    (@NumaModule._extract_from_prompt Examples.ascii_runtime
       (cps "John Doe works for Acme Corp. John Doe met john doe and The Team"))
  = map cps ["John Doe"; "Acme Corp"; "The Team"]%string.
Proof. vm_compute. reflexivity. Qed.

Example in_house_entities_example :
  map entity_name
    (@KnowledgeService._extract_entities Examples.ascii_runtime
       (cps "John Doe, john doe. JOHN DOE met Ann"))
  = map cps ["John Doe"; "John Doe Met Ann"]%string.
Proof. vm_compute. reflexivity. Qed.

(** C8 at the ASCII runtime, whose [str.lower] lowers ASCII letters. *)
Lemma rule_based_entities_witness :
  (NoDup (map (@py_lower Examples.ascii_runtime)
            (NumaModule.entities
               (@NumaModule._extract_from_prompt Examples.ascii_runtime
                  (cps "John Doe works for Acme Corp. John Doe met john doe and The Team")))) /\
   (length (NumaModule.entities
              (@NumaModule._extract_from_prompt Examples.ascii_runtime
                 (cps "John Doe works for Acme Corp. John Doe met john doe and The Team")))
    <= 10)%nat) /\
  (NoDup (map (@py_lower Examples.ascii_runtime)
            (map entity_name
               (@KnowledgeService._extract_entities Examples.ascii_runtime
                  (cps "John Doe works for Acme Corp. John Doe met john doe and The Team")))) /\
   (length (@KnowledgeService._extract_entities Examples.ascii_runtime
              (cps "John Doe works for Acme Corp. John Doe met john doe and The Team"))
    <= 20)%nat).
Proof.
  apply (@rule_based_entities_unique_up_to_case Examples.ascii_runtime).
  intros s _. reflexivity.
Defined.

Ltac dict_simpl :=
  unfold PyDict.keys in *; cbn [PyDict.get PyDict.assign PyDict.del map fst length].

Section PyDictFacts.

Context {V : Type}.

Lemma dict_get_assign_eq (d : PyDict.dict V) (k : pystr) (v : V) :
  PyDict.get (PyDict.assign d k v) k = Some v.
Proof.
  induction d as [|[k' v'] d IH]; dict_simpl.
  - now rewrite bool_decide_eq_true_2.
  - destruct (bool_decide (k' = k)) eqn:Hk; dict_simpl; rewrite Hk; [reflexivity | exact IH].
Qed.

Lemma dict_get_assign_ne (d : PyDict.dict V) (k k0 : pystr) (v : V) :
  k <> k0 -> PyDict.get (PyDict.assign d k v) k0 = PyDict.get d k0.
Proof.
  intros Hne. induction d as [|[k' v'] d IH]; dict_simpl.
  - now rewrite bool_decide_eq_false_2.
  - destruct (bool_decide (k' = k)) eqn:Hk; dict_simpl.
    + apply bool_decide_eq_true in Hk. subst k'.
      now rewrite !bool_decide_eq_false_2.
    + now rewrite IH.
Qed.

Lemma dict_get_none (d : PyDict.dict V) (k : pystr) :
  PyDict.get d k = None <-> k ∉ PyDict.keys d.
Proof.
  unfold PyDict.keys. induction d as [|[k' v'] d IH]; dict_simpl.
  - split; [intros _; apply not_elem_of_nil | reflexivity].
  - rewrite not_elem_of_cons. destruct (bool_decide (k' = k)) eqn:Hk.
    + apply bool_decide_eq_true in Hk. split; [discriminate | intros [Hne _]; congruence].
    + apply bool_decide_eq_false in Hk. rewrite IH. split; [intros ?; split; congruence | tauto].
Qed.

Lemma dict_keys_assign (d : PyDict.dict V) (k : pystr) (v : V) :
  PyDict.keys (PyDict.assign d k v)
  = if bool_decide (k ∈ PyDict.keys d) then PyDict.keys d else PyDict.keys d ++ [k].
Proof.
  unfold PyDict.keys. induction d as [|[k' v'] d IH]; dict_simpl.
  - rewrite bool_decide_eq_false_2; [reflexivity | apply not_elem_of_nil].
  - destruct (bool_decide (k' = k)) eqn:Hk; dict_simpl.
    + apply bool_decide_eq_true in Hk. subst.
      rewrite bool_decide_eq_true_2; [reflexivity | constructor].
    + apply bool_decide_eq_false in Hk. rewrite IH.
      destruct (bool_decide (k ∈ map fst d)) eqn:Hin.
      * apply bool_decide_eq_true in Hin.
        rewrite bool_decide_eq_true_2; [reflexivity | now constructor].
      * apply bool_decide_eq_false in Hin.
        rewrite bool_decide_eq_false_2; [reflexivity|].
        rewrite not_elem_of_cons. split; congruence.
Qed.

Lemma dict_keys_del (d : PyDict.dict V) (k : pystr) :
  NoDup (PyDict.keys d) ->
  NoDup (PyDict.keys (PyDict.del d k)) /\
  (forall k0, k0 ∈ PyDict.keys (PyDict.del d k) <-> k0 ∈ PyDict.keys d /\ k0 <> k) /\
  (k ∈ PyDict.keys d -> S (length (PyDict.del d k)) = length d).
Proof.
  unfold PyDict.keys. induction d as [|[k' v'] d IH]; dict_simpl; intros Hnd.
  - split; [constructor|]. split.
    + intros k0. rewrite elem_of_nil. tauto.
    + intros Hk. now apply elem_of_nil in Hk.
  - apply NoDup_cons in Hnd as [Hnotin Hnd].
    destruct (bool_decide (k' = k)) eqn:Hk; dict_simpl.
    + apply bool_decide_eq_true in Hk. subst k'. split; [exact Hnd|]. split; [|reflexivity].
      intros k0. rewrite elem_of_cons. split.
      * intros Hk0. split; [now right | intros ->; contradiction].
      * intros [[-> | Hk0] Hne]; [congruence | exact Hk0].
    + apply bool_decide_eq_false in Hk.
      destruct (IH Hnd) as (Hnd' & Hin' & Hlen').
      split; [|split].
      * apply NoDup_cons. split; [|exact Hnd']. rewrite Hin'. tauto.
      * intros k0. rewrite !elem_of_cons, Hin'. split.
        -- intros [-> | [? ?]]; [split; [now left | congruence] | split; [now right | assumption]].
        -- intros [[-> | ?] ?]; [now left | right; tauto].
      * intros Hin. apply elem_of_cons in Hin as [-> | Hin]; [congruence|].
        now rewrite Hlen'.
Qed.

Lemma dict_get_del_ne (d : PyDict.dict V) (k k0 : pystr) :
  k0 <> k -> PyDict.get (PyDict.del d k) k0 = PyDict.get d k0.
Proof.
  intros Hne. induction d as [|[k' v'] d IH]; dict_simpl; [reflexivity|].
  destruct (bool_decide (k' = k)) eqn:Hk; dict_simpl.
  - apply bool_decide_eq_true in Hk. subst k'. now rewrite bool_decide_eq_false_2.
  - now rewrite IH.
Qed.

End PyDictFacts.

Section PromptCacheFacts.

Context `{PromptCache.Hashing} {V : Type}.

(** [calculate_hash] raises exactly on a text that holds a surrogate. *)
Lemma calculate_hash_outcome (text : pystr) :
  if existsb is_surrogate text
  then PromptCache.calculate_hash text
       = Raises {| exn_cls := ValueError; exn_msg := PromptCache.surrogates_not_allowed text |}
  else PromptCache.calculate_hash text
       = Returns (PromptCache.md5_hexdigest (flat_map PromptCache.utf8_bytes text)).
Proof.
  unfold PromptCache.calculate_hash, PromptCache.encode_utf8.
  destruct (existsb is_surrogate text); reflexivity.
Qed.

(** The cache answers with what was last added for a prompt.  [add]
    raises in two cases only: the prompt holds a surrogate, and the error
    is the [UnicodeEncodeError] of [calculate_hash]; or it holds none, the
    cache is empty and its size is not positive, and the error is the
    [StopIteration] of [next(iter({}))]. *)
Theorem prompt_cache_add_then_get (self : PromptCache.PromptCache V) (prompt : pystr)
    (response : V) :
  match PromptCache.add self prompt response with
  | Returns self' =>
      PromptCache.get self' prompt = Returns (Some response) /\
      PromptCache.cache_size self' = PromptCache.cache_size self /\
      existsb is_surrogate prompt = false
  | Raises e =>
      (existsb is_surrogate prompt = true /\
       e = {| exn_cls := ValueError; exn_msg := PromptCache.surrogates_not_allowed prompt |} /\
       PromptCache.get self prompt = Raises e) \/
      (existsb is_surrogate prompt = false /\
       e = PromptCache.StopIteration /\ PromptCache.cache self = [] /\
       (PromptCache.cache_size self <= 0)%Z)
  end.
Proof.
  unfold PromptCache.add, PromptCache.get.
  pose proof (calculate_hash_outcome prompt) as Hhash.
  destruct (existsb is_surrogate prompt); rewrite Hhash.
  - left. repeat split.
  - destruct (PromptCache.cache_size self <=? Z.of_nat (length (PromptCache.cache self)))%Z eqn:Hfull.
    + destruct (PromptCache.cache self) as [|[oldest_key v0] rest] eqn:Hc;
        cbn [PromptCache.cache PromptCache.cache_size].
      * apply Z.leb_le in Hfull. simpl in Hfull. right. repeat split; auto.
      * rewrite dict_get_assign_eq. repeat split.
    + cbn [PromptCache.cache PromptCache.cache_size]. rewrite dict_get_assign_eq. repeat split.
Qed.

End PromptCacheFacts.
Section PromptCacheBounds.

Context `{PromptCache.Hashing} {V : Type}.

Lemma dict_length_assign (d : PyDict.dict V) (k : pystr) (v : V) :
  (length (PyDict.assign d k v) <= S (length d))%nat.
Proof.
  rewrite <- (length_map fst (PyDict.assign d k v)), <- (length_map fst d).
  change (map fst (PyDict.assign d k v)) with (PyDict.keys (PyDict.assign d k v)).
  rewrite dict_keys_assign. unfold PyDict.keys.
  destruct (bool_decide _); [lia | rewrite length_app; simpl; lia].
Qed.

Lemma dict_nodup_assign (d : PyDict.dict V) (k : pystr) (v : V) :
  NoDup (PyDict.keys d) -> NoDup (PyDict.keys (PyDict.assign d k v)).
Proof.
  intros Hnd. rewrite dict_keys_assign.
  destruct (bool_decide (k ∈ PyDict.keys d)) eqn:Hin; [exact Hnd|].
  apply bool_decide_eq_false in Hin.
  apply NoDup_app. repeat split; [exact Hnd | | apply NoDup_singleton].
  intros x Hx Hx'. apply list_elem_of_singleton in Hx'. now subst.
Qed.

(** [add] keeps the cache within its size and its keys apart, when the
    size is at least one. *)
Theorem prompt_cache_add_keeps_bound (self self' : PromptCache.PromptCache V)
    (prompt : pystr) (response : V) :
  NoDup (PyDict.keys (PromptCache.cache self)) ->
  (1 <= PromptCache.cache_size self)%Z ->
  (Z.of_nat (length (PromptCache.cache self)) <= PromptCache.cache_size self)%Z ->
  PromptCache.add self prompt response = Returns self' ->
  NoDup (PyDict.keys (PromptCache.cache self')) /\
  (Z.of_nat (length (PromptCache.cache self')) <= PromptCache.cache_size self')%Z.
Proof.
  intros Hnd Hsize Hlen. unfold PromptCache.add.
  destruct (PromptCache.calculate_hash prompt) as [prompt_hash|e]; [|discriminate].
  destruct (PromptCache.cache_size self <=? Z.of_nat (length (PromptCache.cache self)))%Z eqn:Hfull.
  - apply Z.leb_le in Hfull.
    destruct (PromptCache.cache self) as [|[oldest_key v0] rest] eqn:Hc; [discriminate|].
    intros [= <-]. cbn [PromptCache.cache PromptCache.cache_size].
    match goal with
    | |- context [PyDict.assign ?d _ _] =>
        change d with (PyDict.del ((oldest_key, v0) :: rest) oldest_key)
    end.
    destruct (dict_keys_del ((oldest_key, v0) :: rest) oldest_key Hnd) as (Hnd' & _ & Hlen').
    split; [now apply dict_nodup_assign|].
    specialize (Hlen' ltac:(unfold PyDict.keys; simpl; constructor)).
    pose proof (dict_length_assign (PyDict.del ((oldest_key, v0) :: rest) oldest_key)
                  prompt_hash response).
    lia.
  - apply Z.leb_gt in Hfull. intros [= <-]. cbn [PromptCache.cache PromptCache.cache_size].
    split; [now apply dict_nodup_assign|].
    pose proof (dict_length_assign (PromptCache.cache self) prompt_hash response).
    lia.
Qed.

(** In a full cache, adding a prompt with a new hash removes the oldest
    entry, stores the new one and leaves every other entry as it was. *)
Theorem prompt_cache_evicts_oldest (self : PromptCache.PromptCache V) (prompt : pystr)
    (response : V) (prompt_hash oldest_key : pystr) (oldest : V) (rest : PyDict.dict V) :
  NoDup (PyDict.keys (PromptCache.cache self)) ->
  PromptCache.cache self = (oldest_key, oldest) :: rest ->
  (PromptCache.cache_size self <= Z.of_nat (length (PromptCache.cache self)))%Z ->
  PromptCache.calculate_hash prompt = Returns prompt_hash ->
  prompt_hash <> oldest_key ->
  exists self',
    PromptCache.add self prompt response = Returns self' /\
    PyDict.get (PromptCache.cache self') oldest_key = None /\
    PromptCache.get self' prompt = Returns (Some response) /\
    forall k, k <> oldest_key -> k <> prompt_hash ->
              PyDict.get (PromptCache.cache self') k = PyDict.get (PromptCache.cache self) k.
Proof.
  intros Hnd Hc Hfull Hhash Hnew. unfold PromptCache.add, PromptCache.get.
  apply Z.leb_le in Hfull. rewrite Hhash, Hfull, Hc. eexists. split; [reflexivity|].
  cbn [PromptCache.cache PromptCache.cache_size].
  rewrite Hc in Hnd.
  destruct (dict_keys_del ((oldest_key, oldest) :: rest) oldest_key Hnd) as (_ & Hin & _).
  repeat split.
  - rewrite dict_get_assign_ne by exact Hnew.
    apply dict_get_none. rewrite Hin. tauto.
  - now rewrite dict_get_assign_eq.
  - intros k Hk1 Hk2. rewrite dict_get_assign_ne by congruence.
    now rewrite dict_get_del_ne.
Qed.

End PromptCacheBounds.

Lemma prompt_cache_add_keeps_bound_witness :
  NoDup (PyDict.keys [(cps "second", 2%nat); (cps "third", 3%nat)]) /\
  (Z.of_nat (length [(cps "second", 2%nat); (cps "third", 3%nat)]) <= 2)%Z.
Proof.
  apply (@prompt_cache_add_keeps_bound CacheExamples.plain_hashing nat
           CacheExamples.full_cache
           {| PromptCache.cache_size := 2;
              PromptCache.cache := [(cps "second", 2%nat); (cps "third", 3%nat)] |}
           (cps "third") 3%nat).
  - apply (bool_decide_unpack _). vm_compute. exact I.
  - vm_compute. discriminate.
  - vm_compute. discriminate.
  - reflexivity.
Defined.

Lemma prompt_cache_evicts_oldest_witness :
  exists self',
    @PromptCache.add CacheExamples.plain_hashing nat CacheExamples.full_cache (cps "third") 3%nat
    = Returns self' /\
    PyDict.get (PromptCache.cache self') (cps "first") = None /\
    @PromptCache.get CacheExamples.plain_hashing nat self' (cps "third") = Returns (Some 3%nat) /\
    forall k, k <> cps "first" -> k <> cps "third" ->
              PyDict.get (PromptCache.cache self') k
              = PyDict.get (PromptCache.cache CacheExamples.full_cache) k.
Proof.
  apply (@prompt_cache_evicts_oldest CacheExamples.plain_hashing nat CacheExamples.full_cache
           (cps "third") 3%nat (cps "third") (cps "first") 1%nat [(cps "second", 2%nat)]).
  - apply (bool_decide_unpack _). vm_compute. exact I.
  - reflexivity.
  - vm_compute. discriminate.
  - reflexivity.
  - vm_compute. discriminate.
Defined.
Section CleanInputAlgebra.

Lemma filter_filter {A : Type} (p q : A -> bool) (l : list A) :
  List.filter p (List.filter q l) = List.filter (fun x => q x && p x) l.
Proof.
  induction l as [|x l IH]; [reflexivity|]. simpl.
  destruct (q x); simpl; [destruct (p x)|]; rewrite IH; reflexivity.
Qed.

(** The character test the three filters of [_clean_input] come to. *)
Lemma clean_input_as_filter (s : pystr) :
  LLMClient._clean_input s
  = List.filter
      (fun c => negb (is_surrogate c)
                && negb (char_in c LLMClient.zero_width)
                && ((32 <=? c) || char_in c nl_cr_tab)) s.
Proof.
  unfold LLMClient._clean_input, utf8_roundtrip_ignore, LLMClient.zero_width, remove_char.
  cbn [fold_left].
  rewrite !filter_filter.
  apply List.filter_ext. intros c.
  unfold char_in. cbn [existsb].
  destruct (is_surrogate c), (c =? 0x200b), (c =? 0x200c), (c =? 0x200d), (c =? 0xfeff),
    (c =? 0x2060); reflexivity.
Qed.

Lemma filter_idempotent {A : Type} (p : A -> bool) (l : list A) :
  List.filter p (List.filter p l) = List.filter p l.
Proof.
  induction l as [|x l IH]; [reflexivity|]. simpl.
  destruct (p x) eqn:Hp; simpl; rewrite ?Hp, IH; reflexivity.
Qed.

Lemma filter_fixed {A : Type} (p : A -> bool) (l : list A) :
  List.filter p l = l <-> forall x, In x l -> p x = true.
Proof.
  split.
  - intros Heq x Hx. rewrite <- Heq in Hx. now apply filter_In in Hx.
  - induction l as [|x l IH]; intros Hall; [reflexivity|]. simpl.
    rewrite (Hall x (or_introl eq_refl)). f_equal. apply IH. intros y Hy. apply Hall. now right.
Qed.

Lemma clean_input_app (a b : pystr) :
  LLMClient._clean_input (a ++ b) = LLMClient._clean_input a ++ LLMClient._clean_input b.
Proof. rewrite !clean_input_as_filter. apply List.filter_app. Qed.

Lemma clean_input_idem (s : pystr) :
  LLMClient._clean_input (LLMClient._clean_input s) = LLMClient._clean_input s.
Proof. rewrite !clean_input_as_filter. apply filter_idempotent. Qed.

End CleanInputAlgebra.

(** Cleaning twice is cleaning once, and cleaning a concatenation is
    concatenating the cleaned parts; the same holds for the Numa client's
    copy of the function. *)
Theorem clean_input_idempotent_and_additive (s1 s2 : pystr) :
  LLMClient._clean_input (LLMClient._clean_input s1) = LLMClient._clean_input s1 /\
  LLMClient._clean_input (s1 ++ s2) = LLMClient._clean_input s1 ++ LLMClient._clean_input s2 /\
  NumaClient._clean_input (NumaClient._clean_input s1) = NumaClient._clean_input s1 /\
  NumaClient._clean_input (s1 ++ s2) = NumaClient._clean_input s1 ++ NumaClient._clean_input s2.
Proof.
  change NumaClient._clean_input with LLMClient._clean_input.
  split; [apply clean_input_idem|]. split; [apply clean_input_app|].
  split; [apply clean_input_idem | apply clean_input_app].
Qed.

(** [_clean_input] leaves a text as it is exactly when the text holds no
    surrogate, none of the five zero-width characters and no control
    character other than newline, carriage return and tab. *)
Theorem clean_input_fixed_points (s : pystr) :
  LLMClient._clean_input s = s <->
  forall c, In c s ->
    ~ (0xD800 <= c <= 0xDFFF) /\
    ~ In c [0x200B; 0x200C; 0x200D; 0xFEFF; 0x2060] /\
    (32 <= c \/ c = 10 \/ c = 13 \/ c = 9).
Proof.
  rewrite clean_input_as_filter. etransitivity; [apply filter_fixed|]. cbv beta.
  assert (Hchar : forall c,
            negb (is_surrogate c) && negb (char_in c LLMClient.zero_width)
            && ((32 <=? c) || char_in c nl_cr_tab) = true <->
            ~ (0xD800 <= c <= 0xDFFF) /\
            ~ In c [0x200B; 0x200C; 0x200D; 0xFEFF; 0x2060] /\
            (32 <= c \/ c = 10 \/ c = 13 \/ c = 9)).
  { intros c. rewrite !andb_true_iff, !negb_true_iff, orb_true_iff.
    unfold is_surrogate, char_in, LLMClient.zero_width, nl_cr_tab.
    rewrite <- !not_true_iff_false, andb_true_iff, !existsb_exists, !N.leb_le.
    split.
    - intros [[Hs Hz] Hk]. split; [tauto|]. split.
      + intros Hin. apply Hz. exists c. split; [exact Hin | apply N.eqb_refl].
      + destruct Hk as [Hk | (x & Hx & Heq)]; [now left|].
        apply N.eqb_eq in Heq. subst x. simpl in Hx. right. intuition.
    - intros (Hs & Hz & Hk). repeat split; [tauto | |].
      + intros (x & Hx & Heq). apply N.eqb_eq in Heq. subst x. contradiction.
      + destruct Hk as [Hk | Hk]; [now left|]. right. exists c.
        split; [simpl; intuition | apply N.eqb_refl]. }
  split; intros Hall c Hc; apply Hchar; auto.
Qed.
Section GenerateResponse.

Context {R : Type} (serialized_model : ResponseModel -> pystr).

Lemma retry_first_attempt_final (attempt : nat -> outcome R) :
  (forall e, attempt 1%nat = Raises e -> LLMClient.is_server_or_retry_error e = false) ->
  LLMClient._generate_response_with_retry attempt = (attempt 1%nat, 1%nat).
Proof.
  intros Hfinal. unfold LLMClient._generate_response_with_retry, LLMClient.stop_after_attempt.
  cbn -[Nat.leb]. destruct (attempt 1%nat) as [r | e]; [reflexivity|].
  now rewrite (Hfinal e eq_refl).
Qed.

Lemma retry_every_attempt_retryable (attempt : nat -> outcome R) :
  (forall n, (1 <= n <= 4)%nat ->
     exists e, attempt n = Raises e /\ LLMClient.is_server_or_retry_error e = true) ->
  LLMClient._generate_response_with_retry attempt = (attempt 4%nat, 4%nat).
Proof.
  intros Hall. unfold LLMClient._generate_response_with_retry, LLMClient.stop_after_attempt.
  destruct (Hall 1%nat ltac:(lia)) as (e1 & H1 & R1).
  destruct (Hall 2%nat ltac:(lia)) as (e2 & H2 & R2).
  destruct (Hall 3%nat ltac:(lia)) as (e3 & H3 & R3).
  destruct (Hall 4%nat ltac:(lia)) as (e4 & H4 & R4).
  cbn. rewrite H1, R1. cbn. rewrite H2, R2. cbn. rewrite H3, R3. cbn. rewrite H4, R4. reflexivity.
Qed.

Lemma retry_attempts_positive (attempt : nat -> outcome R) :
  (1 <= snd (LLMClient._generate_response_with_retry attempt))%nat.
Proof.
  unfold LLMClient._generate_response_with_retry.
  pose proof (retry_loop_spec attempt 4 1 eq_refl ltac:(lia)) as H.
  unfold LLMClient.stop_after_attempt.
  destruct (LLMClient.retry_loop attempt 4 1) as [res n]. simpl. lia.
Qed.

Lemma append_to_last_spec (suffix : pystr) (messages : list Message) :
  messages <> [] ->
  exists before m,
    messages = before ++ [m] /\
    LLMGenerate.append_to_last suffix messages
    = Returns (before ++ [LLMGenerate.with_content m (content m ++ suffix)]).
Proof.
  intros Hne. unfold LLMGenerate.append_to_last.
  destruct (rev messages) as [|m before] eqn:Hrev.
  - apply (f_equal (@rev _)) in Hrev. rewrite rev_involutive in Hrev. contradiction.
  - exists (rev before), m. apply (f_equal (@rev _)) in Hrev.
    rewrite rev_involutive in Hrev. simpl in Hrev. split; [exact Hrev | reflexivity].
Qed.

Lemma clean_multilingual :
  LLMClient._clean_input LLMGenerate.MULTILINGUAL_EXTRACTION_RESPONSES
  = LLMGenerate.MULTILINGUAL_EXTRACTION_RESPONSES.
Proof. vm_compute. reflexivity. Qed.

(** What [prepare_messages] returns on a list that is not empty. *)
Lemma prepare_messages_spec (messages : list Message) (response_model : option ResponseModel) :
  messages <> [] ->
  exists m rest with_schema,
    map role (m :: rest) = map role messages /\
    length with_schema = length messages /\
    with_schema = m :: rest /\
    (response_model = None -> with_schema = messages) /\
    LLMGenerate.prepare_messages serialized_model messages response_model
    = Returns
        (LLMGenerate.with_content m
           (LLMClient._clean_input (content m) ++ LLMGenerate.MULTILINGUAL_EXTRACTION_RESPONSES)
         :: map (fun message =>
                   LLMGenerate.with_content message (LLMClient._clean_input (content message)))
              rest).
Proof.
  intros Hne. unfold LLMGenerate.prepare_messages.
  assert (Hfirst : forall l : list Message, l <> [] -> map role l = map role messages ->
            length l = length messages -> (response_model = None -> l = messages) ->
            exists m rest with_schema,
              map role (m :: rest) = map role messages /\
              length with_schema = length messages /\
              with_schema = m :: rest /\
              (response_model = None -> with_schema = messages) /\
              match LLMGenerate.append_to_first LLMGenerate.MULTILINGUAL_EXTRACTION_RESPONSES l with
              | Raises e => Raises e
              | Returns messages2 =>
                  Returns (map (fun message =>
                     LLMGenerate.with_content message (LLMClient._clean_input (content message)))
                     messages2)
              end
              = Returns
                  (LLMGenerate.with_content m
                     (LLMClient._clean_input (content m)
                      ++ LLMGenerate.MULTILINGUAL_EXTRACTION_RESPONSES)
                   :: map (fun message =>
                        LLMGenerate.with_content message (LLMClient._clean_input (content message)))
                        rest)).
  { intros [|m rest] Hl Hroles Hlen Hnone; [contradiction|].
    exists m, rest, (m :: rest). repeat split; try assumption.
    cbn [LLMGenerate.append_to_first map LLMGenerate.with_content role content].
    now rewrite clean_input_app, clean_multilingual. }
  destruct response_model as [model|].
  - destruct (append_to_last_spec
                (cps "

Respond with a JSON object in the following format:

" ++ serialized_model model) messages Hne) as (before & m & Hmsgs & ->).
    apply Hfirst.
    + now destruct before.
    + rewrite Hmsgs, !map_app. reflexivity.
    + rewrite Hmsgs, !length_app. reflexivity.
    + discriminate.
  - apply Hfirst; auto.
Qed.

End GenerateResponse.

(** Whatever the caller passes, the backend of [generate_response] is
    called (under the retry policy) with as many messages, in the same
    roles, each of them left unchanged by another [_clean_input], and the
    first one ending with the language instruction. *)
Theorem generate_response_dispatches_clean_messages (R : Type)
    (serialized_model : ResponseModel -> pystr) (self_max_tokens : Z)
    (_generate_response : list Message -> option ResponseModel -> Z -> nat -> outcome R)
    (messages : list Message) (response_model : option ResponseModel) (max_tokens : option Z) :
  messages <> [] ->
  exists first rest,
    LLMGenerate.generate_response serialized_model self_max_tokens _generate_response
      messages response_model max_tokens
    = LLMClient._generate_response_with_retry
        (_generate_response (first :: rest) response_model (default self_max_tokens max_tokens)) /\
    map role (first :: rest) = map role messages /\
    (forall m, In m (first :: rest) -> LLMClient._clean_input (content m) = content m) /\
    exists text, content first = text ++ LLMGenerate.MULTILINGUAL_EXTRACTION_RESPONSES.
Proof.
  intros Hne.
  destruct (prepare_messages_spec serialized_model messages response_model Hne)
    as (m & rest & with_schema & Hroles & _ & _ & _ & Hprep).
  eexists _, _. unfold LLMGenerate.generate_response. rewrite Hprep.
  split; [reflexivity|]. split; [|split].
  - cbn [map LLMGenerate.with_content role]. rewrite <- Hroles. cbn [map]. f_equal.
    rewrite map_map. reflexivity.
  - intros m' [<- | Hin].
    + cbn [LLMGenerate.with_content content].
      now rewrite clean_input_app, clean_input_idem, clean_multilingual.
    + apply in_map_iff in Hin as (m0 & <- & _). cbn [LLMGenerate.with_content content].
      apply clean_input_idem.
  - eexists. reflexivity.
Qed.

(** [generate_response] makes no call of the backend exactly when the list
    of messages is empty, and then it raises the [IndexError] of
    [messages[0]] (or of [messages[-1]]). *)
Theorem generate_response_empty_messages (R : Type)
    (serialized_model : ResponseModel -> pystr) (self_max_tokens : Z)
    (_generate_response : list Message -> option ResponseModel -> Z -> nat -> outcome R)
    (messages : list Message) (response_model : option ResponseModel) (max_tokens : option Z) :
  (snd (LLMGenerate.generate_response serialized_model self_max_tokens _generate_response
          messages response_model max_tokens) = 0%nat
   <-> messages = []) /\
  LLMGenerate.generate_response serialized_model self_max_tokens _generate_response
    [] response_model max_tokens = (Raises LLMGenerate.IndexError, 0%nat).
Proof.
  split.
  - split.
    + intros Hzero. destruct messages as [|m0 rest0]; [reflexivity|]. exfalso.
      destruct (prepare_messages_spec serialized_model (m0 :: rest0) response_model ltac:(discriminate))
        as (m & rest & with_schema & _ & _ & _ & _ & Hprep).
      unfold LLMGenerate.generate_response in Hzero. rewrite Hprep in Hzero.
      match type of Hzero with
      | snd (LLMClient._generate_response_with_retry ?a) = _ =>
          pose proof (retry_attempts_positive a)
      end. lia.
    + intros ->. now destruct response_model.
  - now destruct response_model.
Qed.

(** The caller's [Message] objects are changed in place, so a list of
    messages that is passed a second time (without a response model)
    reaches the backend with the language instruction twice at the end of
    its first message. *)
Theorem generate_response_accumulates_instruction
    (serialized_model : ResponseModel -> pystr) (messages after_first : list Message) :
  LLMGenerate.prepare_messages serialized_model messages None = Returns after_first ->
  exists first rest,
    LLMGenerate.prepare_messages serialized_model after_first None = Returns (first :: rest) /\
    exists text,
      content first = text ++ LLMGenerate.MULTILINGUAL_EXTRACTION_RESPONSES
                           ++ LLMGenerate.MULTILINGUAL_EXTRACTION_RESPONSES.
Proof.
  intros Hfirst.
  destruct messages as [|m0 rest0]; [discriminate|].
  destruct (prepare_messages_spec serialized_model (m0 :: rest0) None ltac:(discriminate))
    as (m & rest & with_schema & _ & _ & Hws & Hnone & Hprep).
  rewrite Hprep in Hfirst. injection Hfirst as <-.
  match goal with
  | |- context [LLMGenerate.prepare_messages _ (?a :: ?l) None] =>
      destruct (prepare_messages_spec serialized_model (a :: l) None ltac:(discriminate))
        as (m' & rest' & with_schema' & _ & _ & Hws' & Hnone' & Hprep')
  end.
  rewrite Hprep'. eexists _, _. split; [reflexivity|].
  specialize (Hnone' eq_refl). rewrite Hws' in Hnone'. injection Hnone' as -> ->.
  cbn [LLMGenerate.with_content content].
  rewrite clean_input_app, clean_input_idem, clean_multilingual.
  eexists. rewrite <- app_assoc. reflexivity.
Qed.

Lemma generate_response_dispatches_clean_messages_witness :
  exists first rest,
    LLMGenerate.generate_response (fun _ => cps "{}") 2000
      (fun _ _ _ _ => Returns tt) [LLMExamples.user_message] (Some ExtractedEntities) None
    = LLMClient._generate_response_with_retry
        ((fun _ _ _ _ => Returns tt) (first :: rest) (Some ExtractedEntities) (default 2000%Z None)) /\
    map role (first :: rest) = map role [LLMExamples.user_message] /\
    (forall m, In m (first :: rest) -> LLMClient._clean_input (content m) = content m) /\
    exists text, content first = text ++ LLMGenerate.MULTILINGUAL_EXTRACTION_RESPONSES.
Proof.
  apply (generate_response_dispatches_clean_messages unit (fun _ => cps "{}") 2000
           (fun _ _ _ _ => Returns tt) [LLMExamples.user_message] (Some ExtractedEntities) None).
  discriminate.
Defined.

Lemma generate_response_accumulates_instruction_witness :
  exists first rest,
    LLMGenerate.prepare_messages (fun _ => cps "{}")
      [{| role := cps "user";
          content := cps "Hi" ++ LLMGenerate.MULTILINGUAL_EXTRACTION_RESPONSES |}] None
    = Returns (first :: rest) /\
    exists text,
      content first = text ++ LLMGenerate.MULTILINGUAL_EXTRACTION_RESPONSES
                           ++ LLMGenerate.MULTILINGUAL_EXTRACTION_RESPONSES.
Proof.
  apply (generate_response_accumulates_instruction (fun _ => cps "{}") [LLMExamples.user_message]).
  vm_compute. reflexivity.
Defined.

(** The OpenAI client's call fails with an error the retry policy acts on
    in exactly these cases: the status is 429 or from 500 to 599, the body
    of the reply is not JSON, or a response model was given and the text
    of the completion is not JSON. *)
Theorem openai_retryable_replies (D : Type) (json_loads : pystr -> D + pystr)
    (reply : OpenAIClient.http_reply) (response_model : option ResponseModel) :
  (exists e, OpenAIClient._generate_response json_loads reply response_model = Raises e /\
             LLMClient.is_server_or_retry_error e = true)
  <->
  match reply with
  | OpenAIClient.RequestError _ => False
  | OpenAIClient.StatusError status_code _ => status_code = 429%Z \/ (500 <= status_code < 600)%Z
  | OpenAIClient.Reply (OpenAIClient.BodyNotJson _) => True
  | OpenAIClient.Reply (OpenAIClient.BodyWithoutContent _) => False
  | OpenAIClient.Reply (OpenAIClient.BodyContent content) =>
      response_model <> None /\ exists msg, json_loads content = inr msg
  end.
Proof.
  destruct reply as [msg | status_code msg | [msg | msg | c]]; cbn [OpenAIClient._generate_response].
  - split; [intros (e & [= <-] & He); discriminate | tauto].
  - destruct (status_code =? 429)%Z eqn:H429.
    + apply Z.eqb_eq in H429. split; [tauto|]. intros _. eexists. split; reflexivity.
    + apply Z.eqb_neq in H429. split.
      * intros (e & [= <-] & He). right. unfold LLMClient.is_server_or_retry_error in He.
        cbn in He. apply andb_true_iff in He as [H1 H2].
        apply Z.leb_le in H1. apply Z.ltb_lt in H2. lia.
      * intros [? | Hrange]; [contradiction|]. eexists. split; [reflexivity|].
        unfold LLMClient.is_server_or_retry_error. cbn. apply andb_true_iff.
        split; [apply Z.leb_le | apply Z.ltb_lt]; lia.
  - split; [tauto|]. intros _. eexists. split; reflexivity.
  - split; [intros (e & [= <-] & He); discriminate | tauto].
  - destruct response_model as [model|].
    + destruct (json_loads c) as [d | msg].
      * split; [intros (e & Hr & _); discriminate | intros (_ & msg & Hm); discriminate].
      * split; [intros _; split; [discriminate | eauto] |].
        intros _. eexists. split; reflexivity.
    + split; [intros (e & Hr & _); discriminate | intros (Hn & _); contradiction].
Qed.

(** A request that cannot be sent is not tried again: the client raises
    [RuntimeError("Request failed: ...")] after the one attempt. *)
Theorem openai_request_error_fails_fast (D : Type) (json_loads : pystr -> D + pystr)
    (replies : nat -> OpenAIClient.http_reply) (response_model : option ResponseModel)
    (msg : pystr) :
  replies 1%nat = OpenAIClient.RequestError msg ->
  OpenAIClient._generate_response_with_retry json_loads replies response_model
  = (Raises {| exn_cls := RuntimeError; exn_msg := cps "Request failed: " ++ msg |}, 1%nat).
Proof.
  intros H1. unfold OpenAIClient._generate_response_with_retry.
  rewrite retry_first_attempt_final; rewrite H1; cbn [OpenAIClient._generate_response].
  - reflexivity.
  - now intros e [= <-].
Qed.

(** Against a server that answers 429 to each of the four attempts the
    client gives up with [RateLimitError("Rate limit exceeded")] after the
    fourth. *)
Theorem openai_rate_limit_exhausts_attempts (D : Type) (json_loads : pystr -> D + pystr)
    (replies : nat -> OpenAIClient.http_reply) (response_model : option ResponseModel) :
  (forall n, (1 <= n <= 4)%nat -> exists msg, replies n = OpenAIClient.StatusError 429 msg) ->
  OpenAIClient._generate_response_with_retry json_loads replies response_model
  = (Raises {| exn_cls := RateLimitError; exn_msg := cps "Rate limit exceeded" |}, 4%nat).
Proof.
  intros Hall. unfold OpenAIClient._generate_response_with_retry.
  rewrite retry_every_attempt_retryable.
  - destruct (Hall 4%nat ltac:(lia)) as (msg & ->). reflexivity.
  - intros n Hn. destruct (Hall n Hn) as (msg & ->). eexists. split; reflexivity.
Qed.

Lemma openai_request_error_fails_fast_witness :
  OpenAIClient._generate_response_with_retry LLMExamples.braces_only
    LLMExamples.connection_refused (Some ExtractedEntities)
  = (Raises {| exn_cls := RuntimeError;
               exn_msg := cps "Request failed: " ++ cps "connection refused" |}, 1%nat).
Proof.
  apply (openai_request_error_fails_fast unit LLMExamples.braces_only
           LLMExamples.connection_refused (Some ExtractedEntities) (cps "connection refused")).
  reflexivity.
Defined.

Lemma openai_rate_limit_exhausts_attempts_witness :
  OpenAIClient._generate_response_with_retry LLMExamples.braces_only
    LLMExamples.always_rate_limited None
  = (Raises {| exn_cls := RateLimitError; exn_msg := cps "Rate limit exceeded" |}, 4%nat).
Proof.
  apply (openai_rate_limit_exhausts_attempts unit LLMExamples.braces_only
           LLMExamples.always_rate_limited None).
  intros n _. eexists. reflexivity.
Defined.
Section NumaResultFacts.

Context `{PyRuntime} `{NumaResult.ValueStr}.

Lemma flat_map_singletons {A B : Type} (f : A -> B) (l : list A) :
  flat_map (fun x => [f x]) l = map f l.
Proof. induction l as [|x l IH]; simpl; [|rewrite IH]; reflexivity. Qed.

Lemma flat_map_nothing {A B : Type} (f : A -> list B) (l : list A) :
  (forall x, In x l -> f x = []) -> flat_map f l = [].
Proof.
  induction l as [|x l IH]; intros Hf; [reflexivity|]. simpl.
  rewrite (Hf x (or_introl eq_refl)), IH; [reflexivity|]. intros y Hy. apply Hf. now right.
Qed.

Lemma edges_of_relation_dicts (rels : list NumaModule.Relation) :
  NumaResult.edges_of_list (map NumaResult.relation_dict rels)
  = map (fun r => {| NumaResult.raw_source_name := NumaResult.VStr (NumaModule.rel_source r);
                     NumaResult.raw_target_name := NumaResult.VStr (NumaModule.rel_target r);
                     NumaResult.raw_relation_type := NumaResult.VStr (NumaModule.rel_relation r);
                     NumaResult.raw_summary := NumaResult.VNone |}) rels.
Proof.
  unfold NumaResult.edges_of_list. induction rels as [|r rels IH]; [reflexivity|].
  cbn [map flat_map]. rewrite IH. reflexivity.
Qed.

Lemma lower_plain_literal (Hlower : lower_on_plain_text) (s : pystr) :
  forallb (fun c => is_space c || is_upper_az c || is_lower_az c) s = true ->
  py_lower s = map lower_az s.
Proof.
  intros Hs. apply Hlower. apply List.Forall_forall. intros c Hc.
  rewrite forallb_forall in Hs. now apply Hs.
Qed.

End NumaResultFacts.

(** Every relation the local extractor finds is reported as an edge twice:
    once for the key ["relations"] and once more because that key contains
    the word ["relation"]. *)
Theorem numa_edges_reported_twice `{PyRuntime} (result : NumaModule.ExtractionResult) :
  lower_on_plain_text ->
  let edges :=
    map (fun r => {| NumaResult.raw_source_name := NumaResult.VStr (NumaModule.rel_source r);
                     NumaResult.raw_target_name := NumaResult.VStr (NumaModule.rel_target r);
                     NumaResult.raw_relation_type := NumaResult.VStr (NumaModule.rel_relation r);
                     NumaResult.raw_summary := NumaResult.VNone |})
        (NumaModule.relations result) in
  NumaResult._extract_edges_from_result (NumaResult.completion_of result) = edges ++ edges.
Proof.
  intros Hlower edges.
  unfold NumaResult._extract_edges_from_result, NumaResult.completion_of, NumaResult.edges_from_dict.
  assert (Hget : NumaResult.get_default
            [(cps "entities", NumaResult.VList (map NumaResult.VStr (NumaModule.entities result)));
             (cps "relations",
              NumaResult.VList (map NumaResult.relation_dict (NumaModule.relations result)))]
            (cps "relations") (NumaResult.VList [])
          = NumaResult.VList (map NumaResult.relation_dict (NumaModule.relations result))).
  { reflexivity. }
  rewrite Hget. cbn [flat_map].
  rewrite !(lower_plain_literal Hlower) by reflexivity.
  replace (contains (cps "relation") (map lower_az (cps "entities"))) with false
    by (vm_compute; reflexivity).
  replace (contains (cps "relation") (map lower_az (cps "relations"))) with true
    by (vm_compute; reflexivity).
  rewrite edges_of_relation_dicts, !app_nil_r. reflexivity.
Qed.

(** The entities of the local extractor are reported once each, in order,
    with type 0 and no summary; the relations add no entity. *)
Theorem numa_entities_reported_once `{NumaResult.ValueStr} (result : NumaModule.ExtractionResult) :
  NumaResult._extract_entities_from_result (NumaResult.completion_of result)
  = map NumaResult.entity_named (NumaModule.entities result).
Proof.
  unfold NumaResult._extract_entities_from_result, NumaResult.completion_of,
    NumaResult.entities_from_dict.
  assert (Hget : NumaResult.get_default
            [(cps "entities", NumaResult.VList (map NumaResult.VStr (NumaModule.entities result)));
             (cps "relations",
              NumaResult.VList (map NumaResult.relation_dict (NumaModule.relations result)))]
            (cps "entities") (NumaResult.VList [])
          = NumaResult.VList (map NumaResult.VStr (NumaModule.entities result))).
  { reflexivity. }
  rewrite Hget. cbn [flat_map].
  replace (negb (bool_decide (cps "entities" = cps "entities"))) with false
    by (vm_compute; reflexivity).
  replace (negb (bool_decide (cps "relations" = cps "entities"))) with true
    by (vm_compute; reflexivity).
  rewrite map_map. cbn [NumaResult.py_str].
  rewrite (flat_map_nothing _ (map NumaResult.relation_dict (NumaModule.relations result))).
  - now rewrite !app_nil_r.
  - intros x Hx. apply in_map_iff in Hx as (r & <- & _). reflexivity.
Qed.

(** Asked for missed entities, the client answers with every entity the
    local extractor found, followed by the text of every relation; the
    answer is empty only if nothing was found at all. *)
Theorem numa_missed_entities_are_all_findings `{NumaResult.ValueStr}
    (result : NumaModule.ExtractionResult) :
  NumaResult._extract_missed_entities_from_result (NumaResult.completion_of result)
  = NumaModule.entities result
    ++ map (fun r => NumaResult.str_of_value (NumaResult.relation_dict r))
         (NumaModule.relations result) /\
  (NumaResult._extract_missed_entities_from_result (NumaResult.completion_of result) = [] <->
   NumaModule.entities result = [] /\ NumaModule.relations result = []).
Proof.
  assert (Heq : NumaResult._extract_missed_entities_from_result (NumaResult.completion_of result)
                = NumaModule.entities result
                  ++ map (fun r => NumaResult.str_of_value (NumaResult.relation_dict r))
                       (NumaModule.relations result)).
  { unfold NumaResult._extract_missed_entities_from_result, NumaResult.completion_of.
    cbn [flat_map]. rewrite !map_map, app_nil_r. cbn [NumaResult.py_str].
    rewrite map_id. reflexivity. }
  split; [exact Heq|]. rewrite Heq. split.
  - intros Happ. apply app_eq_nil in Happ as [-> Hrel]. split; [reflexivity|].
    now destruct (NumaModule.relations result).
  - intros [-> ->]. reflexivity.
Qed.

(** For each of the four response models of the repository the client
    renders the node template or, for [ExtractedEdges] alone, the edge
    template: the reflexion and the deduplication templates are never
    chosen, while the result is still formatted under the model's own
    key. *)
Theorem numa_template_never_reflexion `{PyRuntime} `{NumaResult.ValueStr}
    (response_model : ResponseModel) (result : NumaResult.value) :
  lower_on_plain_text ->
  NumaResult._determine_template_type (Some response_model)
  = match response_model with
    | ExtractedEdges => NumaResult.extract_edges
    | _ => NumaResult.extract_nodes
    end /\
  NumaResult._format_result_for_model result response_model
  = match response_model with
    | ExtractedEntities =>
        NumaResult.extracted_entities_key (NumaResult._extract_entities_from_result result)
    | ExtractedEdges =>
        NumaResult.extracted_edges_key (NumaResult._extract_edges_from_result result)
    | MissedEntities =>
        NumaResult.missed_entities_key (NumaResult._extract_missed_entities_from_result result)
    | DuplicateEntities =>
        NumaResult.duplicates_key (NumaResult._extract_duplicates_from_result result)
    end.
Proof.
  intros Hlower.
  unfold NumaResult._determine_template_type, NumaResult._format_result_for_model.
  destruct response_model; cbn [NumaResult.model_name];
    rewrite !(lower_plain_literal Hlower) by reflexivity;
    split; vm_compute contains; reflexivity.
Qed.


Lemma numa_edges_reported_twice_witness :
  @NumaResult._extract_edges_from_result Examples.ascii_runtime
    (NumaResult.completion_of NumaResultExamples.ann_acme)
  = (let edges :=
       map (fun r => {| NumaResult.raw_source_name := NumaResult.VStr (NumaModule.rel_source r);
                        NumaResult.raw_target_name := NumaResult.VStr (NumaModule.rel_target r);
                        NumaResult.raw_relation_type := NumaResult.VStr (NumaModule.rel_relation r);
                        NumaResult.raw_summary := NumaResult.VNone |})
           (NumaModule.relations NumaResultExamples.ann_acme) in
     edges ++ edges).
Proof.
  apply (@numa_edges_reported_twice Examples.ascii_runtime NumaResultExamples.ann_acme).
  intros s _. reflexivity.
Defined.

Lemma numa_template_never_reflexion_witness :
  @NumaResult._determine_template_type Examples.ascii_runtime (Some MissedEntities)
  = NumaResult.extract_nodes /\
  @NumaResult._format_result_for_model Examples.ascii_runtime NumaResultExamples.opaque_str
    (NumaResult.completion_of NumaResultExamples.ann_acme) MissedEntities
  = NumaResult.missed_entities_key
      (@NumaResult._extract_missed_entities_from_result NumaResultExamples.opaque_str
         (NumaResult.completion_of NumaResultExamples.ann_acme)).
Proof.
  apply (@numa_template_never_reflexion Examples.ascii_runtime NumaResultExamples.opaque_str
           MissedEntities (NumaResult.completion_of NumaResultExamples.ann_acme)).
  intros s _. reflexivity.
Defined.
Section NodeIdentifiers.

Context `{PyRuntime}.

Lemma cps_inj (s1 s2 : string) : cps s1 = cps s2 -> s1 = s2.
Proof.
  unfold cps. intros Heq.
  rewrite <- (string_of_list_ascii_of_string s1), <- (string_of_list_ascii_of_string s2).
  f_equal. revert Heq.
  generalize (list_ascii_of_string s1) (list_ascii_of_string s2).
  induction l as [|a l IH]; intros [|b l']; simpl; intros Heq; try discriminate; [reflexivity|].
  injection Heq as Hab Hl. f_equal; [|now apply IH].
  rewrite <- (ascii_N_embedding a), <- (ascii_N_embedding b). now rewrite Hab.
Qed.

(** [str(n)] tells the numbers apart. *)
Lemma str_of_nat_inj (n m : nat) : str_of_nat n = str_of_nat m -> n = m.
Proof.
  unfold str_of_nat. intros Heq. apply cps_inj in Heq.
  apply DecimalNat.Unsigned.to_uint_inj.
  pose proof (NilEmpty.usu (Nat.to_uint n)) as Hn.
  pose proof (NilEmpty.usu (Nat.to_uint m)) as Hm.
  rewrite Heq in Hn. congruence.
Qed.

(** The node built from the [i]-th entity that passed the filter. *)
Lemma to_entity_nodes_imap (episode : EpisodicNode) (types : list NumaExtractor.EntityTypeInfo)
    (filtered : list ExtractedEntity) :
  NumaExtractor.to_entity_nodes episode types filtered
  = imap (fun i extracted_entity =>
            {| node_uuid := episode_group_id episode ++ cps "-" ++ str_of_nat i;
               node_name := entity_name extracted_entity;
               node_labels :=
                 NumaExtractor.labels_of
                   (NumaExtractor.entity_type_name_of types (entity_type_id extracted_entity));
               node_summary := default [] (entity_summary extracted_entity);
               node_group_id := episode_group_id episode |}) filtered.
Proof.
  unfold NumaExtractor.to_entity_nodes.
  set (mk := fun i extracted_entity =>
            {| node_uuid := episode_group_id episode ++ cps "-" ++ str_of_nat i;
               node_name := entity_name extracted_entity;
               node_labels :=
                 NumaExtractor.labels_of
                   (NumaExtractor.entity_type_name_of types (entity_type_id extracted_entity));
               node_summary := default [] (entity_summary extracted_entity);
               node_group_id := episode_group_id episode |}).
  change (fold_left (fun extracted_nodes extracted_entity =>
                       extracted_nodes ++ [mk (length extracted_nodes) extracted_entity])
            filtered [] = imap mk filtered).
  assert (Hgen : forall todo acc,
            fold_left (fun extracted_nodes extracted_entity =>
                         extracted_nodes ++ [mk (length extracted_nodes) extracted_entity])
              todo acc
            = acc ++ imap (fun i => mk (length acc + i)%nat) todo).
  { induction todo as [|x todo IH]; intros acc.
    - simpl. now rewrite app_nil_r.
    - cbn [fold_left]. rewrite IH, imap_cons, <- app_assoc. cbn [app].
      rewrite Nat.add_0_r. do 2 f_equal. apply imap_ext. intros i y _.
      unfold compose. rewrite length_app. cbn [length]. f_equal. lia. }
  apply (Hgen filtered []).
Qed.

(** The same for the edges that pass the test of [extract_edges]. *)
Lemma to_edge_nodes_imap (episode : EpisodicNode) (nodes : list EntityNode)
    (extracted : list ExtractedEdge) :
  NumaExtractor.to_edge_nodes episode nodes extracted
  = imap (fun i extracted_edge =>
            {| edge_uuid := episode_group_id episode ++ cps "-edge-" ++ str_of_nat i;
               source_node_uuid :=
                 default [] (NumaExtractor.node_name_to_uuid nodes !! source_name extracted_edge);
               target_node_uuid :=
                 default [] (NumaExtractor.node_name_to_uuid nodes !! target_name extracted_edge);
               edge_relation_type := relation_type extracted_edge;
               edge_summary := default [] (summary extracted_edge);
               edge_group_id := episode_group_id episode |})
      (List.filter
         (fun extracted_edge =>
            NumaExtractor.truthy_opt (NumaExtractor.node_name_to_uuid nodes !! source_name extracted_edge)
            && NumaExtractor.truthy_opt (NumaExtractor.node_name_to_uuid nodes !! target_name extracted_edge)
            && negb (bool_decide (NumaExtractor.node_name_to_uuid nodes !! source_name extracted_edge
                                  = NumaExtractor.node_name_to_uuid nodes !! target_name extracted_edge)))
         extracted).
Proof.
  unfold NumaExtractor.to_edge_nodes.
  set (mk := fun i extracted_edge =>
            {| edge_uuid := episode_group_id episode ++ cps "-edge-" ++ str_of_nat i;
               source_node_uuid :=
                 default [] (NumaExtractor.node_name_to_uuid nodes !! source_name extracted_edge);
               target_node_uuid :=
                 default [] (NumaExtractor.node_name_to_uuid nodes !! target_name extracted_edge);
               edge_relation_type := relation_type extracted_edge;
               edge_summary := default [] (summary extracted_edge);
               edge_group_id := episode_group_id episode |}).
  set (keep := fun extracted_edge =>
            NumaExtractor.truthy_opt (NumaExtractor.node_name_to_uuid nodes !! source_name extracted_edge)
            && NumaExtractor.truthy_opt (NumaExtractor.node_name_to_uuid nodes !! target_name extracted_edge)
            && negb (bool_decide (NumaExtractor.node_name_to_uuid nodes !! source_name extracted_edge
                                  = NumaExtractor.node_name_to_uuid nodes !! target_name extracted_edge))).
  change (fold_left (fun edge_nodes extracted_edge =>
                       if keep extracted_edge
                       then edge_nodes ++ [mk (length edge_nodes) extracted_edge]
                       else edge_nodes)
            extracted [] = imap mk (List.filter keep extracted)).
  assert (Hgen : forall todo acc,
            fold_left (fun edge_nodes extracted_edge =>
                         if keep extracted_edge
                         then edge_nodes ++ [mk (length edge_nodes) extracted_edge]
                         else edge_nodes)
              todo acc
            = acc ++ imap (fun i => mk (length acc + i)%nat) (List.filter keep todo)).
  { induction todo as [|x todo IH]; intros acc.
    - simpl. now rewrite app_nil_r.
    - cbn [fold_left List.filter]. destruct (keep x); [|apply IH].
      rewrite IH, imap_cons, <- app_assoc. cbn [app].
      rewrite Nat.add_0_r. do 2 f_equal. apply imap_ext. intros i y _.
      unfold compose. rewrite length_app. cbn [length]. f_equal. lia. }
  apply (Hgen extracted []).
Qed.

Lemma entity_label_present (entity_type_name : pystr) :
  In (cps "Entity") (NumaExtractor.labels_of entity_type_name).
Proof.
  unfold NumaExtractor.labels_of.
  destruct (decide _); [now left|].
  destruct (entity_label_first entity_type_name); [now left | right; now left].
Qed.

End NodeIdentifiers.

(** The two labels of a typed node come in the order of the process. *)
Example labels_follow_the_process :
  @NumaExtractor.labels_of Examples.ascii_runtime (cps "Person") = [cps "Entity"; cps "Person"] /\
  @NumaExtractor.labels_of ExtractorExamples.name_first_runtime (cps "Person")
  = [cps "Person"; cps "Entity"] /\
  @NumaExtractor.labels_of ExtractorExamples.name_first_runtime (cps "Entity") = [cps "Entity"].
Proof. repeat split. Qed.

Section ExtractNodesFacts.

Context {B : Type} `{Client B} `{PyRuntime}.

(** The nodes [extract_nodes] returns come out of its conversion loop. *)
Lemma extract_nodes_returns (episode : EpisodicNode) (previous_episodes : list EpisodicNode)
    (entity_types : NumaExtractor.EntityTypes) (w w' : World B) (nodes : list EntityNode) :
  NumaExtractor.extract_nodes episode previous_episodes entity_types w = (Returns nodes, w') ->
  exists extracted,
    nodes = NumaExtractor.to_entity_nodes episode
              (NumaExtractor.entity_types_context entity_types)
              (List.filter (fun entity => truthy (strip (entity_name entity))) extracted).
Proof.
  unfold NumaExtractor.extract_nodes, bind, ret.
  destruct (NumaExtractor.reflexion_loop _ _ _ _ _ w) as [[v | e] w1]; [|discriminate].
  intros [= <- _]. eexists. reflexivity.
Qed.

Lemma loop_body_models (episode : EpisodicNode) (previous_episodes : list EpisodicNode)
    (context : NumaExtractor.NodeContext) (v : NumaExtractor.LoopVars) (w : World B) :
  exists new,
    calls (snd (NumaExtractor.loop_body episode previous_episodes context v w)) = calls w ++ new /\
    List.Forall entity_or_missed new /\
    uuids_drawn (snd (NumaExtractor.loop_body episode previous_episodes context v w))
    = uuids_drawn w.
Proof.
  unfold NumaExtractor.loop_body, NumaExtractor._extract_nodes_reflexion, bind, ret, call.
  destruct (episode_source episode); simpl;
    repeat match goal with
    | |- context [generate_response ?m ?r ?b] =>
        destruct (generate_response m r b) as [[?|?] ?]; simpl
    | |- context [(?a <? ?b)%nat] => destruct (a <? b)%nat; simpl
    end;
    eexists; (split;
      [ first [ symmetry; apply app_nil_r
              | reflexivity
              | rewrite <- app_assoc; reflexivity ] | ]);
    (split; [|reflexivity]);
    repeat first [apply List.Forall_nil | apply List.Forall_cons];
    unfold entity_or_missed; simpl; auto.
Qed.

Lemma reflexion_loop_models (episode : EpisodicNode) (previous_episodes : list EpisodicNode)
    (context : NumaExtractor.NodeContext) (fuel : nat) :
  forall (v : NumaExtractor.LoopVars) (w : World B),
  exists new,
    calls (snd (NumaExtractor.reflexion_loop fuel episode previous_episodes context v w))
    = calls w ++ new /\
    List.Forall entity_or_missed new /\
    uuids_drawn (snd (NumaExtractor.reflexion_loop fuel episode previous_episodes context v w))
    = uuids_drawn w.
Proof.
  induction fuel as [|fuel IH]; intros v w; simpl.
  - exists []. rewrite app_nil_r. repeat split. constructor.
  - destruct (NumaExtractor.entities_missed v
              && (NumaExtractor.reflexion_iterations v <=? NumaExtractor.MAX_REFLEXION_ITERATIONS)%nat).
    + destruct (loop_body_models episode previous_episodes context v w) as (new1 & Hc1 & Hm1 & Hu1).
      unfold bind.
      destruct (NumaExtractor.loop_body episode previous_episodes context v w)
        as [[v' | e] w1]; simpl in *.
      * destruct (IH v' w1) as (new2 & Hc2 & Hm2 & Hu2).
        exists (new1 ++ new2). rewrite Hc2, Hc1, app_assoc, Hu2, Hu1.
        repeat split. now apply List.Forall_app.
      * exists new1. auto.
    + exists []. rewrite app_nil_r. repeat split. constructor.
Qed.

Lemma length_by_model (new : list Call) :
  List.Forall entity_or_missed new ->
  length new
  = (length (calls_of ExtractedEntities new) + length (calls_of MissedEntities new))%nat.
Proof.
  induction 1 as [|c new Hc _ IH]; [reflexivity|].
  unfold calls_of in *. cbn [List.filter length].
  destruct Hc as [-> | ->]; cbn [length]; lia.
Qed.

End ExtractNodesFacts.

(** Whatever the backend answers, one run of [extract_nodes] asks it at
    most six times: at most four times for entities and at most twice for
    missed entities, and for nothing else; it draws no identifier. *)
Theorem extract_nodes_call_budget {B : Type} `{Client B} `{PyRuntime}
    (episode : EpisodicNode) (previous_episodes : list EpisodicNode)
    (entity_types : NumaExtractor.EntityTypes) (w : World B) :
  exists new,
    calls (snd (NumaExtractor.extract_nodes episode previous_episodes entity_types w))
    = calls w ++ new /\
    (length new <= 6)%nat /\
    (length (calls_of ExtractedEntities new) <= 4)%nat /\
    (length (calls_of MissedEntities new) <= 2)%nat /\
    (forall c, In c new -> call_model c = ExtractedEntities \/ call_model c = MissedEntities) /\
    uuids_drawn (snd (NumaExtractor.extract_nodes episode previous_episodes entity_types w))
    = uuids_drawn w.
Proof.
  destruct (extract_nodes_calls episode previous_episodes entity_types w)
    as (new & Hcalls & Hee & Hme & _ & _).
  exists new. split; [exact Hcalls|].
  assert (Hmodels : List.Forall entity_or_missed new /\
            uuids_drawn (snd (NumaExtractor.extract_nodes episode previous_episodes entity_types w))
            = uuids_drawn w).
  { revert Hcalls. unfold NumaExtractor.extract_nodes, bind.
    destruct (reflexion_loop_models episode previous_episodes
                (NumaExtractor.initial_context episode previous_episodes entity_types)
                (NumaExtractor.MAX_REFLEXION_ITERATIONS + 2) NumaExtractor.initial_vars w)
      as (new' & Hcalls' & Hmodels & Hu).
    destruct (NumaExtractor.reflexion_loop _ _ _ _ _ w) as [[v | e] w1]; simpl in *;
      intros Hcalls; rewrite Hcalls' in Hcalls; apply app_inv_head in Hcalls; subst new';
      auto. }
  destruct Hmodels as [Hmodels Hu].
  rewrite (length_by_model new Hmodels).
  repeat split; try lia; try assumption.
  intros c Hc. rewrite List.Forall_forall in Hmodels. now apply Hmodels.
Qed.

(** When the first reflexion reports nothing missed, [extract_nodes] is
    done after one call for entities and one reflexion call, and its nodes
    are those of the one answer. *)
Theorem extract_nodes_single_pass {B : Type} `{Client B} `{PyRuntime}
    (episode : EpisodicNode) (previous_episodes : list EpisodicNode)
    (entity_types : NumaExtractor.EntityTypes) (w : World B)
    (prompt : list Message) (answer reflexion_answer : Response) (b1 b2 : B) :
  let context := NumaExtractor.initial_context episode previous_episodes entity_types in
  let extracted := default [] (extracted_entities answer) in
  let reflexion_prompt :=
    NumaExtractor._create_reflexion_prompt (episode_content episode)
      (map episode_content previous_episodes) (map entity_name extracted) in
  NumaExtractor.extract_prompt (episode_source episode) context = Some prompt ->
  generate_response prompt ExtractedEntities (backend w) = (Returns answer, b1) ->
  generate_response reflexion_prompt MissedEntities b1 = (Returns reflexion_answer, b2) ->
  default [] (missed_entities reflexion_answer) = [] ->
  NumaExtractor.extract_nodes episode previous_episodes entity_types w
  = (Returns
       (NumaExtractor.to_entity_nodes episode (NumaExtractor.ctx_entity_types context)
          (List.filter (fun entity => truthy (strip (entity_name entity))) extracted)),
     {| backend := b2;
        calls := calls w ++ [{| call_messages := prompt; call_model := ExtractedEntities |};
                             {| call_messages := reflexion_prompt; call_model := MissedEntities |}];
        uuids_drawn := uuids_drawn w |}).
Proof.
  intros context extracted reflexion_prompt Hprompt Hanswer Hreflexion Hnone.
  unfold NumaExtractor.extract_nodes.
  fold context.
  assert (Hbody : NumaExtractor.loop_body episode previous_episodes context
                    NumaExtractor.initial_vars w
                  = (Returns {| NumaExtractor.llm_response := answer;
                                NumaExtractor.custom_prompt := NumaExtractor.missed_instruction [];
                                NumaExtractor.entities_missed := false;
                                NumaExtractor.reflexion_iterations := 1;
                                NumaExtractor.loop_extracted_entities := extracted |},
                     {| backend := b2;
                        calls := calls w ++ [{| call_messages := prompt; call_model := ExtractedEntities |};
                                             {| call_messages := reflexion_prompt;
                                                call_model := MissedEntities |}];
                        uuids_drawn := uuids_drawn w |})).
  { unfold NumaExtractor.loop_body, NumaExtractor._extract_nodes_reflexion.
    unfold NumaExtractor.extract_prompt in Hprompt.
    assert (Hcall : match episode_source episode with
                    | message => call (NumaExtractor._create_extract_message_prompt context)
                                   ExtractedEntities
                    | text => call (NumaExtractor._create_extract_text_prompt context)
                                ExtractedEntities
                    | json => call (NumaExtractor._create_extract_json_prompt context)
                                ExtractedEntities
                    | conversation => ret (NumaExtractor.llm_response NumaExtractor.initial_vars)
                    end w
                    = (Returns answer,
                       {| backend := b1;
                          calls := calls w ++ [{| call_messages := prompt;
                                                  call_model := ExtractedEntities |}];
                          uuids_drawn := uuids_drawn w |})).
    { destruct (episode_source episode); try discriminate;
        injection Hprompt as <-; unfold call; rewrite Hanswer; reflexivity. }
    unfold bind at 1. rewrite Hcall.
    fold extracted. cbn [NumaExtractor.reflexion_iterations NumaExtractor.initial_vars].
    change (1 <? NumaExtractor.MAX_REFLEXION_ITERATIONS)%nat with true. cbv iota.
    unfold bind, call, ret. cbn [backend calls uuids_drawn].
    fold reflexion_prompt. rewrite Hreflexion. rewrite Hnone.
    cbn [length Nat.eqb negb]. rewrite <- app_assoc. reflexivity. }
  unfold bind at 1.
  change (NumaExtractor.MAX_REFLEXION_ITERATIONS + 2)%nat with 5%nat.
  cbn [NumaExtractor.reflexion_loop].
  cbn [NumaExtractor.entities_missed NumaExtractor.reflexion_iterations NumaExtractor.initial_vars].
  change (0 <=? NumaExtractor.MAX_REFLEXION_ITERATIONS)%nat with true. cbn [andb].
  unfold bind at 1. rewrite Hbody.
  cbn [NumaExtractor.entities_missed andb]. unfold ret. reflexivity.
Qed.

(** The nodes [extract_nodes] returns: the [i]-th has the identifier
    [<group_id>-<i>], so the identifiers differ from one another; each is
    in the episode's group, is labelled [Entity] and has a name that is
    not blank. *)
Theorem extract_nodes_node_invariants {B : Type} `{Client B} `{PyRuntime}
    (episode : EpisodicNode) (previous_episodes : list EpisodicNode)
    (entity_types : NumaExtractor.EntityTypes) (w w' : World B) (nodes : list EntityNode) :
  NumaExtractor.extract_nodes episode previous_episodes entity_types w = (Returns nodes, w') ->
  (forall i node, nodes !! i = Some node ->
     node_uuid node = episode_group_id episode ++ cps "-" ++ str_of_nat i /\
     node_group_id node = episode_group_id episode /\
     In (cps "Entity") (node_labels node) /\
     (length (node_labels node) <= 2)%nat /\
     truthy (strip (node_name node)) = true) /\
  NoDup (map node_uuid nodes).
Proof.
  intros Hret. apply extract_nodes_returns in Hret as (extracted & ->).
  rewrite to_entity_nodes_imap.
  assert (Hnth : forall i node,
            imap (fun i extracted_entity =>
                    {| node_uuid := episode_group_id episode ++ cps "-" ++ str_of_nat i;
                       node_name := entity_name extracted_entity;
                       node_labels :=
                         NumaExtractor.labels_of
                           (NumaExtractor.entity_type_name_of
                              (NumaExtractor.entity_types_context entity_types)
                              (entity_type_id extracted_entity));
                       node_summary := default [] (entity_summary extracted_entity);
                       node_group_id := episode_group_id episode |})
              (List.filter (fun entity => truthy (strip (entity_name entity))) extracted) !! i
            = Some node ->
            node_uuid node = episode_group_id episode ++ cps "-" ++ str_of_nat i /\
            node_group_id node = episode_group_id episode /\
            In (cps "Entity") (node_labels node) /\
            (length (node_labels node) <= 2)%nat /\
            truthy (strip (node_name node)) = true).
  { intros i node Hi. apply list_lookup_imap_Some in Hi as (x & Hx & ->).
    cbn [node_uuid node_group_id node_labels node_name].
    repeat split.
    - apply entity_label_present.
    - unfold NumaExtractor.labels_of.
      destruct (decide _); [|destruct (entity_label_first _)]; simpl; lia.
    - apply list_elem_of_lookup_2, list_elem_of_In, filter_In in Hx. apply Hx. }
  split; [exact Hnth|].
  apply NoDup_alt. intros i j u Hi Hj.
  rewrite list_lookup_fmap in Hi, Hj.
  destruct (_ !! i) as [ni|] eqn:Hni; [|discriminate].
  destruct (_ !! j) as [nj|] eqn:Hnj; [|discriminate].
  apply Hnth in Hni as (Hui & _). apply Hnth in Hnj as (Huj & _).
  simpl in Hi, Hj. injection Hi as Hi. injection Hj as Hj.
  rewrite Hui in Hi. rewrite Huj in Hj. rewrite <- Hj in Hi.
  apply app_inv_head in Hi. apply app_inv_head in Hi. now apply str_of_nat_inj.
Qed.

(** Node identifiers are made of the group and the position only: two
    extractions for episodes of one group give their [i]-th nodes the same
    identifier, whatever the episodes, the backends and the names found. *)
Theorem extract_nodes_identifiers_repeat {B B' : Type} `{PyRuntime}
    (client : Client B) (client' : Client B')
    (episode episode' : EpisodicNode) (previous_episodes previous_episodes' : list EpisodicNode)
    (entity_types entity_types' : NumaExtractor.EntityTypes)
    (w1 w2 : World B) (w1' w2' : World B') (nodes nodes' : list EntityNode)
    (i : nat) (node node' : EntityNode) :
  episode_group_id episode = episode_group_id episode' ->
  @NumaExtractor.extract_nodes B client _ episode previous_episodes entity_types w1
  = (Returns nodes, w2) ->
  @NumaExtractor.extract_nodes B' client' _ episode' previous_episodes' entity_types' w1'
  = (Returns nodes', w2') ->
  nodes !! i = Some node -> nodes' !! i = Some node' ->
  node_uuid node = node_uuid node'.
Proof.
  intros Hgroup Hret Hret' Hi Hi'.
  apply extract_nodes_returns in Hret as (extracted & ->).
  apply extract_nodes_returns in Hret' as (extracted' & ->).
  rewrite to_entity_nodes_imap in Hi, Hi'.
  apply list_lookup_imap_Some in Hi as (x & _ & ->).
  apply list_lookup_imap_Some in Hi' as (x' & _ & ->).
  cbn [node_uuid]. now rewrite Hgroup.
Qed.

Section ConversationEpisodes.

Context {B : Type} `{Client B} `{PyRuntime}.

(** For a conversation episode the loop never has an answer to read
    entities from. *)
Lemma reflexion_loop_conversation (episode : EpisodicNode)
    (previous_episodes : list EpisodicNode) (context : NumaExtractor.NodeContext) (fuel : nat) :
  episode_source episode = conversation ->
  forall (v v' : NumaExtractor.LoopVars) (w w' : World B),
  NumaExtractor.llm_response v = empty_response ->
  NumaExtractor.loop_extracted_entities v = [] ->
  NumaExtractor.reflexion_loop fuel episode previous_episodes context v w = (Returns v', w') ->
  NumaExtractor.loop_extracted_entities v' = [].
Proof.
  intros Hsource. induction fuel as [|fuel IH]; intros v v' w w' Hresp Hnone; simpl.
  - unfold ret. now intros [= <- _].
  - destruct (NumaExtractor.entities_missed v
              && (NumaExtractor.reflexion_iterations v <=? NumaExtractor.MAX_REFLEXION_ITERATIONS)%nat);
      [|unfold ret; now intros [= <- _]].
    unfold bind at 1.
    destruct (NumaExtractor.loop_body episode previous_episodes context v w)
      as [[v1 | e] w1] eqn:Hbody; [|discriminate].
    apply IH.
    + revert Hbody. unfold NumaExtractor.loop_body. rewrite Hsource.
      unfold bind at 1. unfold ret at 1.
      destruct (S (NumaExtractor.reflexion_iterations v) <? NumaExtractor.MAX_REFLEXION_ITERATIONS)%nat.
      * unfold bind.
        destruct (NumaExtractor._extract_nodes_reflexion _ _ _ _) as [[missing | e] w2];
          [|discriminate].
        unfold ret. now intros [= <- _].
      * unfold ret. now intros [= <- _].
    + revert Hbody. unfold NumaExtractor.loop_body. rewrite Hsource.
      unfold bind at 1. unfold ret at 1.
      destruct (S (NumaExtractor.reflexion_iterations v) <? NumaExtractor.MAX_REFLEXION_ITERATIONS)%nat.
      * unfold bind.
        destruct (NumaExtractor._extract_nodes_reflexion _ _ _ _) as [[missing | e] w2];
          [|discriminate].
        unfold ret. intros [= <- _]. cbn [NumaExtractor.loop_extracted_entities].
        now rewrite Hresp.
      * unfold ret. intros [= <- _]. cbn [NumaExtractor.loop_extracted_entities].
        now rewrite Hresp.
Qed.

End ConversationEpisodes.

(** An episode whose source is [conversation] takes none of the three
    branches of the loop: the backend is never asked for entities (only
    for missed ones), and the nodes returned are none. *)
Theorem extract_nodes_conversation_episode {B : Type} `{Client B} `{PyRuntime}
    (episode : EpisodicNode) (previous_episodes : list EpisodicNode)
    (entity_types : NumaExtractor.EntityTypes) (w : World B) :
  episode_source episode = conversation ->
  (exists new,
     calls (snd (NumaExtractor.extract_nodes episode previous_episodes entity_types w))
     = calls w ++ new /\
     forall c, In c new -> call_model c = MissedEntities) /\
  (forall nodes w',
     NumaExtractor.extract_nodes episode previous_episodes entity_types w = (Returns nodes, w') ->
     nodes = []).
Proof.
  intros Hsource. split.
  - destruct (extract_nodes_calls episode previous_episodes entity_types w)
      as (new & Hcalls & _ & _ & Hprompt & _).
    exists new. split; [exact Hcalls|].
    assert (Hmodels : List.Forall entity_or_missed new).
    { revert Hcalls. unfold NumaExtractor.extract_nodes, bind.
      destruct (reflexion_loop_models episode previous_episodes
                  (NumaExtractor.initial_context episode previous_episodes entity_types)
                  (NumaExtractor.MAX_REFLEXION_ITERATIONS + 2) NumaExtractor.initial_vars w)
        as (new' & Hcalls' & Hmodels & _).
      destruct (NumaExtractor.reflexion_loop _ _ _ _ _ w) as [[v | e] w1]; simpl in *;
        intros Hcalls; rewrite Hcalls' in Hcalls; apply app_inv_head in Hcalls; subst new';
        auto. }
    intros c Hc. rewrite List.Forall_forall in Hmodels.
    destruct (Hmodels c Hc) as [Hentity | Hmissed]; [|exact Hmissed].
    exfalso. specialize (Hprompt c). rewrite Hsource in Hprompt.
    assert (Hin : In c (calls_of ExtractedEntities new)).
    { unfold calls_of. apply filter_In. split; [exact Hc|]. now rewrite Hentity. }
    specialize (Hprompt Hin). discriminate.
  - intros nodes w'. unfold NumaExtractor.extract_nodes, bind at 1.
    destruct (NumaExtractor.reflexion_loop _ _ _ _ _ w) as [[v | e] w1] eqn:Hloop; [|discriminate].
    apply reflexion_loop_conversation in Hloop; try assumption; try reflexivity.
    unfold ret. intros [= <- _]. now rewrite Hloop.
Qed.

(** With two nodes or more, [extract_edges] asks the backend once, for
    edges.  The [i]-th edge it returns has the identifier
    [<group_id>-edge-<i>], so the identifiers differ from one another; it
    is in the episode's group and joins two of the given nodes with
    different identifiers; and there are no more edges than the backend
    proposed. *)
Theorem numa_extract_edges_invariants {B : Type} `{Client B} `{PyRuntime}
    (nodes : list EntityNode) (episode : EpisodicNode)
    (previous_episodes : list EpisodicNode) (w : World B) :
  (2 <= length nodes)%nat ->
  let prompt :=
    NumaExtractor._create_extract_edges_prompt (episode_content episode)
      (map episode_content previous_episodes) (map node_name nodes) in
  calls (snd (NumaExtractor.extract_edges nodes episode previous_episodes w))
  = calls w ++ [{| call_messages := prompt; call_model := ExtractedEdges |}] /\
  forall edges w',
    NumaExtractor.extract_edges nodes episode previous_episodes w = (Returns edges, w') ->
    (forall i edge, edges !! i = Some edge ->
       edge_uuid edge = episode_group_id episode ++ cps "-edge-" ++ str_of_nat i /\
       edge_group_id edge = episode_group_id episode /\
       source_node_uuid edge <> target_node_uuid edge /\
       In (source_node_uuid edge) (map node_uuid nodes) /\
       In (target_node_uuid edge) (map node_uuid nodes)) /\
    NoDup (map edge_uuid edges) /\
    exists answer,
      fst (generate_response prompt ExtractedEdges (backend w)) = Returns answer /\
      (length edges <= length (default [] (extracted_edges answer)))%nat.
Proof.
  intros Hlen prompt.
  unfold NumaExtractor.extract_edges.
  replace (length nodes <? 2)%nat with false by (symmetry; apply Nat.ltb_ge; lia).
  fold prompt. unfold bind. split.
  - pose proof (call_calls prompt ExtractedEdges w) as Hcalls.
    destruct (call prompt ExtractedEdges w) as [[answer | e] w1]; exact Hcalls.
  - intros edges w'. unfold call.
    destruct (generate_response prompt ExtractedEdges (backend w)) as [[answer | e] b1];
      [|discriminate].
    unfold ret. intros [= <- _].
    assert (Hnth : forall i edge,
              NumaExtractor.to_edge_nodes episode nodes (default [] (extracted_edges answer)) !! i
              = Some edge ->
              edge_uuid edge = episode_group_id episode ++ cps "-edge-" ++ str_of_nat i /\
              edge_group_id edge = episode_group_id episode /\
              source_node_uuid edge <> target_node_uuid edge /\
              In (source_node_uuid edge) (map node_uuid nodes) /\
              In (target_node_uuid edge) (map node_uuid nodes)).
    { intros i edge Hi.
      pose proof (list_elem_of_lookup_2 _ _ _ Hi) as Hin. apply list_elem_of_In in Hin.
      destruct (numa_edges_resolved_distinct episode nodes _ edge Hin)
        as ((x & n1 & n2 & _ & Hn1 & Hn2 & _ & _ & Hs & Ht) & Hne).
      rewrite to_edge_nodes_imap in Hi.
      apply list_lookup_imap_Some in Hi as (y & _ & Hedge).
      split; [now rewrite Hedge|]. split; [now rewrite Hedge|]. split; [exact Hne|].
      rewrite Hs, Ht. split; now apply in_map. }
    split; [exact Hnth|]. split.
    + apply NoDup_alt. intros i j u Hi Hj.
      rewrite list_lookup_fmap in Hi, Hj.
      destruct (_ !! i) as [ei|] eqn:Hei; [|discriminate].
      destruct (_ !! j) as [ej|] eqn:Hej; [|discriminate].
      apply Hnth in Hei as (Hui & _). apply Hnth in Hej as (Huj & _).
      simpl in Hi, Hj. injection Hi as Hi. injection Hj as Hj.
      rewrite Hui in Hi. rewrite Huj in Hj. rewrite <- Hj in Hi.
      apply app_inv_head in Hi. apply app_inv_head in Hi. now apply str_of_nat_inj.
    + exists answer. split; [reflexivity|].
      rewrite to_edge_nodes_imap, length_imap. apply List.filter_length_le.
Qed.

Lemma extract_nodes_single_pass_witness :
  @NumaExtractor.extract_nodes unit ExtractorExamples.satisfied_client Examples.ascii_runtime
    ExtractorExamples.episode_text [] NumaExtractor.NoEntityTypes (Examples.new_world tt)
  = (Returns
       (@NumaExtractor.to_entity_nodes Examples.ascii_runtime ExtractorExamples.episode_text
          (NumaExtractor.ctx_entity_types
             (NumaExtractor.initial_context ExtractorExamples.episode_text []
                NumaExtractor.NoEntityTypes))
          (List.filter (fun entity => truthy (strip (entity_name entity)))
             (default [] (extracted_entities ExtractorExamples.entities_answer)))),
     {| backend := tt;
        calls :=
          calls (Examples.new_world tt) ++
          [{| call_messages :=
                @NumaExtractor._create_extract_text_prompt Examples.ascii_runtime
                  (NumaExtractor.initial_context ExtractorExamples.episode_text []
                     NumaExtractor.NoEntityTypes);
              call_model := ExtractedEntities |};
           {| call_messages :=
                @NumaExtractor._create_reflexion_prompt Examples.ascii_runtime
                  (episode_content ExtractorExamples.episode_text) (map episode_content [])
                  (map entity_name
                     (default [] (extracted_entities ExtractorExamples.entities_answer)));
              call_model := MissedEntities |}];
        uuids_drawn := uuids_drawn (Examples.new_world tt) |}).
Proof.
  apply (@extract_nodes_single_pass unit ExtractorExamples.satisfied_client Examples.ascii_runtime
           ExtractorExamples.episode_text [] NumaExtractor.NoEntityTypes (Examples.new_world tt)
           (@NumaExtractor._create_extract_text_prompt Examples.ascii_runtime
              (NumaExtractor.initial_context ExtractorExamples.episode_text []
                 NumaExtractor.NoEntityTypes))
           ExtractorExamples.entities_answer ExtractorExamples.nothing_missed tt tt);
    reflexivity.
Defined.

Lemma extract_nodes_node_invariants_witness :
  exists nodes,
    length nodes = 2%nat /\
    (forall i node, nodes !! i = Some node ->
       node_uuid node = cps "g" ++ cps "-" ++ str_of_nat i /\
       node_group_id node = cps "g" /\
       In (cps "Entity") (node_labels node) /\
       (length (node_labels node) <= 2)%nat /\
       truthy (strip (node_name node)) = true) /\
    NoDup (map node_uuid nodes).
Proof.
  eexists. split; [|
    eapply (@extract_nodes_node_invariants unit ExtractorExamples.satisfied_client
              Examples.ascii_runtime ExtractorExamples.episode_text []
              NumaExtractor.NoEntityTypes (Examples.new_world tt));
    vm_compute; reflexivity ].
  reflexivity.
Defined.

Lemma extract_nodes_identifiers_repeat_witness :
  node_uuid Examples.node_ann
  = node_uuid {| node_uuid := cps "g-0"; node_name := cps "Ann"; node_labels := [cps "Entity"];
                 node_summary := []; node_group_id := cps "g" |}.
Proof.
  eapply (@extract_nodes_identifiers_repeat unit unit Examples.ascii_runtime
            Examples.insistent_client ExtractorExamples.satisfied_client
            Examples.episode_ann ExtractorExamples.episode_text [] []
            NumaExtractor.NoEntityTypes NumaExtractor.NoEntityTypes
            (Examples.new_world tt) _ (Examples.new_world tt) _ _ _ 0%nat).
  - reflexivity.
  - vm_compute. reflexivity.
  - vm_compute. reflexivity.
  - reflexivity.
  - reflexivity.
Defined.

Lemma extract_nodes_conversation_episode_witness :
  (exists new,
     calls (snd (@NumaExtractor.extract_nodes unit Examples.insistent_client Examples.ascii_runtime
                   ExtractorExamples.episode_conversation [] NumaExtractor.NoEntityTypes
                   (Examples.new_world tt)))
     = calls (Examples.new_world tt) ++ new /\
     forall c, In c new -> call_model c = MissedEntities) /\
  (forall nodes w',
     @NumaExtractor.extract_nodes unit Examples.insistent_client Examples.ascii_runtime
       ExtractorExamples.episode_conversation [] NumaExtractor.NoEntityTypes
       (Examples.new_world tt) = (Returns nodes, w') ->
     nodes = []).
Proof.
  apply (@extract_nodes_conversation_episode unit Examples.insistent_client Examples.ascii_runtime
           ExtractorExamples.episode_conversation [] NumaExtractor.NoEntityTypes
           (Examples.new_world tt)).
  reflexivity.
Defined.

Lemma numa_extract_edges_invariants_witness :
  exists edges w',
    @NumaExtractor.extract_edges unit ExtractorExamples.satisfied_client Examples.ascii_runtime
      [Examples.node_ann; Examples.node_bob] Examples.episode_ann [] (Examples.new_world tt)
    = (Returns edges, w') /\
    length edges = 1%nat /\
    (forall i edge, edges !! i = Some edge ->
       edge_uuid edge = cps "g" ++ cps "-edge-" ++ str_of_nat i /\
       edge_group_id edge = cps "g" /\
       source_node_uuid edge <> target_node_uuid edge /\
       In (source_node_uuid edge) [cps "g-0"; cps "g-1"] /\
       In (target_node_uuid edge) [cps "g-0"; cps "g-1"]).
Proof.
  eexists _, _. split; [vm_compute; reflexivity|]. split; [reflexivity|].
  apply (proj2 (@numa_extract_edges_invariants unit ExtractorExamples.satisfied_client
                  Examples.ascii_runtime [Examples.node_ann; Examples.node_bob]
                  Examples.episode_ann [] (Examples.new_world tt) ltac:(simpl; lia))
           _ _ ltac:(vm_compute; reflexivity)).
Defined.
Section InHouseFacts.

Lemma in_firstn {A : Type} (n : nat) (l : list A) (x : A) : In x (firstn n l) -> In x l.
Proof. intros Hx. rewrite <- (firstn_skipn n l). apply in_or_app. now left. Qed.

Lemma underscored_no_space (indicator : pystr) :
  ~ In 32 (KnowledgeService.underscored indicator).
Proof.
  unfold KnowledgeService.underscored. intros Hin. apply in_map_iff in Hin as (c & Hc & _).
  destruct (c =? 32) eqn:E; [discriminate|]. apply N.eqb_neq in E. congruence.
Qed.

Lemma ellipsis_length (n : nat) (s : pystr) :
  (length (KnowledgeService.ellipsis n s) <= n + 3)%nat.
Proof.
  unfold KnowledgeService.ellipsis. destruct (n <? length s)%nat eqn:E.
  - rewrite length_app, length_firstn. simpl. lia.
  - apply Nat.ltb_ge in E. lia.
Qed.

Lemma last_n_short {A : Type} (n : nat) (l : list A) :
  (length l <= n)%nat -> KnowledgeService.last_n n l = l.
Proof.
  intros Hlen. unfold KnowledgeService.last_n.
  replace (length l - n)%nat with 0%nat by lia. reflexivity.
Qed.

Lemma last_n_length {A : Type} (n : nat) (l : list A) :
  length (KnowledgeService.last_n n l) = Nat.min n (length l).
Proof. unfold KnowledgeService.last_n. rewrite length_skipn. lia. Qed.

End InHouseFacts.

(** The edges the in-house client proposes: at most fifteen; the relation
    type is one of the seventeen indicators with its spaces turned into
    underscores; source and target are words of more than two characters
    that begin with an upper-case letter; the summary is at most 103
    characters long. *)
Theorem in_house_relationships_shape `{PyRuntime} (text : pystr) :
  (length (KnowledgeService._extract_relationships text) <= 15)%nat /\
  forall edge, In edge (KnowledgeService._extract_relationships text) ->
    (exists indicator,
       In indicator KnowledgeService.relationship_indicators /\
       relation_type edge = KnowledgeService.underscored indicator) /\
    ~ In 32 (relation_type edge) /\
    (exists c rest, source_name edge = c :: rest /\ py_isupper c = true /\ (2 <= length rest)%nat) /\
    (exists c rest, target_name edge = c :: rest /\ py_isupper c = true /\ (2 <= length rest)%nat) /\
    exists s, summary edge = Some s /\ (length s <= 103)%nat.
Proof.
  unfold KnowledgeService._extract_relationships. split; [apply firstn_le_length|].
  intros edge Hin. apply in_firstn in Hin.
  apply in_flat_map in Hin as (sentence & _ & Hin).
  destruct (length (strip sentence) <? 10)%nat; [destruct Hin|].
  apply in_flat_map in Hin as (indicator & Hindicator & Hin).
  destruct (contains indicator (py_lower (strip sentence))); [|destruct Hin].
  match type of Hin with
  | context [match ?l with _ => _ end] =>
      destruct l as [|source [|target others]] eqn:Hwords; try (now destruct Hin)
  end.
  destruct Hin as [<- | []]. cbn [relation_type source_name target_name summary].
  assert (Hword : forall word, In word (source :: target :: others) ->
            exists c rest, word = c :: rest /\ py_isupper c = true /\ (2 <= length rest)%nat).
  { intros word Hw. rewrite <- Hwords in Hw. apply filter_In in Hw as [_ Hw].
    apply andb_true_iff in Hw as [Hlen Hupper]. apply Nat.ltb_lt in Hlen.
    destruct word as [|c rest]; [discriminate|]. exists c, rest. simpl in Hlen.
    repeat split; [exact Hupper | lia]. }
  split; [eauto|]. split; [apply underscored_no_space|].
  split; [apply Hword; now left|]. split; [apply Hword; right; now left|].
  eexists. split; [reflexivity|]. apply (ellipsis_length 100).
Qed.

Section InHouseExtractNodes.

Context {B : Type} `{Client B} `{PyRuntime}.

(** [extract_nodes] is one call and the conversion loop. *)
Lemma in_house_extract_nodes_run (episode : EpisodicNode) (previous : list EpisodicNode)
    (w : World B) :
  KnowledgeService.extract_nodes episode previous w
  = bind (call [{| role := cps "user"; content := in_house_context_text episode previous |}]
            ExtractedEntities)
      (fun result =>
         KnowledgeService.fold_m (in_house_node_step episode)
           (default [] (extracted_entities result)) []) w.
Proof. reflexivity. Qed.

(** The conversion loop of the in-house [extract_nodes] over entities whose
    summaries are strings: one identifier drawn per entity, nothing
    raised. *)
Lemma in_house_nodes_loop (episode : EpisodicNode) (extracted : list ExtractedEntity) :
  forall (acc : list EntityNode) (b : B) (cs : list Call) (drawn : nat),
  List.Forall (fun entity_data => entity_summary entity_data <> None) extracted ->
  KnowledgeService.fold_m (in_house_node_step episode)
    extracted acc {| backend := b; calls := cs; uuids_drawn := drawn |}
  = (Returns (acc ++ imap (fun i entity_data =>
                             {| node_uuid := uuid4 (drawn + i)%nat;
                                node_name := entity_name entity_data;
                                node_labels := [cps "Entity"];
                                node_summary := default [] (entity_summary entity_data);
                                node_group_id := episode_group_id episode |}) extracted),
     {| backend := b; calls := cs; uuids_drawn := (drawn + length extracted)%nat |}).
Proof.
  induction extracted as [|x extracted IH]; intros acc b cs drawn Hall.
  - simpl. unfold ret. now rewrite app_nil_r, Nat.add_0_r.
  - apply List.Forall_cons_iff in Hall as [Hx Hall].
    cbn [KnowledgeService.fold_m]. unfold bind at 1. unfold in_house_node_step at 1.
    unfold bind at 1. unfold fresh_uuid at 1. cbn [backend calls uuids_drawn].
    destruct (entity_summary x) as [s|] eqn:Hs; [|congruence]. unfold ret at 1.
    rewrite (IH _ _ _ _ Hall), imap_cons, <- app_assoc. cbn [app length].
    rewrite Nat.add_0_r, Hs. cbn [default]. f_equal; [|f_equal; lia].
    do 3 f_equal. apply imap_ext. intros i y _. unfold compose. do 2 f_equal. lia.
Qed.

(** The loop raises at the first entity whose summary is [None]: it
    returns over entities with string summaries only. *)
Lemma in_house_nodes_loop_returns (episode : EpisodicNode) (extracted : list ExtractedEntity) :
  forall (acc nodes : list EntityNode) (w w' : World B),
  KnowledgeService.fold_m (in_house_node_step episode) extracted acc w = (Returns nodes, w') ->
  List.Forall (fun entity_data => entity_summary entity_data <> None) extracted.
Proof.
  induction extracted as [|x extracted IH]; intros acc nodes w w' Hret; [constructor|].
  cbn [KnowledgeService.fold_m] in Hret. unfold bind at 1 in Hret.
  unfold in_house_node_step at 1 in Hret. unfold bind at 1, fresh_uuid at 1 in Hret.
  destruct (entity_summary x) as [s|] eqn:Hs; [|discriminate].
  unfold ret at 1 in Hret. constructor; [congruence|]. exact (IH _ _ _ _ Hret).
Qed.

Lemma in_house_context_by_excerpts (episode : EpisodicNode)
    (previous_episodes previous_episodes' : list EpisodicNode) :
  map (fun ep => firstn 100 (episode_content ep)) (KnowledgeService.last_n 3 previous_episodes)
  = map (fun ep => firstn 100 (episode_content ep)) (KnowledgeService.last_n 3 previous_episodes') ->
  in_house_context_text episode previous_episodes
  = in_house_context_text episode previous_episodes'.
Proof.
  intros Hsame. unfold in_house_context_text.
  assert (Hfold : forall (l : list EpisodicNode) (start : pystr),
            fold_left
              (fun context_text prev_ep =>
                 context_text ++ cps "- " ++ firstn 100 (episode_content prev_ep)
                 ++ cps "..." ++ [10]) l start
            = fold_left (fun context_text excerpt =>
                           context_text ++ cps "- " ++ excerpt ++ cps "..." ++ [10])
                (map (fun ep => firstn 100 (episode_content ep)) l) start).
  { induction l as [|x l IH]; intros start; [reflexivity|]. simpl. apply IH. }
  assert (Hempty : previous_episodes = [] <-> previous_episodes' = []).
  { apply (f_equal (@length _)) in Hsame.
    rewrite !length_map, !last_n_length in Hsame.
    destruct previous_episodes, previous_episodes'; simpl in Hsame; split; intros; 
      try reflexivity; try discriminate; lia. }
  destruct previous_episodes as [|p ps], previous_episodes' as [|p' ps'];
    try reflexivity;
    try (exfalso; destruct Hempty as [H1 H2];
         first [specialize (H1 eq_refl) | specialize (H2 eq_refl)]; discriminate).
  rewrite !Hfold, Hsame. reflexivity.
Qed.

End InHouseExtractNodes.

(** The in-house [extract_nodes] looks at the last three previous episodes
    only, and at the first hundred characters of each: two histories that
    agree there give the same run. *)
Theorem in_house_extract_nodes_context_window {B : Type} `{Client B} `{PyRuntime}
    (episode : EpisodicNode) (previous_episodes previous_episodes' : list EpisodicNode)
    (w : World B) :
  map (fun ep => firstn 100 (episode_content ep)) (KnowledgeService.last_n 3 previous_episodes)
  = map (fun ep => firstn 100 (episode_content ep)) (KnowledgeService.last_n 3 previous_episodes') ->
  KnowledgeService.extract_nodes episode previous_episodes w
  = KnowledgeService.extract_nodes episode previous_episodes' w.
Proof.
  intros Hsame. rewrite !in_house_extract_nodes_run.
  now rewrite (in_house_context_by_excerpts episode _ _ Hsame).
Qed.

(** The in-house [extract_nodes] asks the backend once and, when it
    returns, has turned every entity of the answer into a node, blank
    names included: every summary of the answer is a string (a summary
    that is [None] makes the call raise); names and summaries are those of
    the answer, in order; the [i]-th node carries the [i]-th identifier
    drawn in this run, the one label [Entity] and the episode's group. *)
Theorem in_house_extract_nodes_invariants {B : Type} `{Client B} `{PyRuntime}
    (episode : EpisodicNode) (previous_episodes : list EpisodicNode)
    (w w' : World B) (nodes : list EntityNode) :
  KnowledgeService.extract_nodes episode previous_episodes w = (Returns nodes, w') ->
  exists prompt answer,
    fst (generate_response prompt ExtractedEntities (backend w)) = Returns answer /\
    calls w' = calls w ++ [{| call_messages := prompt; call_model := ExtractedEntities |}] /\
    map node_name nodes = map entity_name (default [] (extracted_entities answer)) /\
    map (fun node => Some (node_summary node)) nodes
    = map entity_summary (default [] (extracted_entities answer)) /\
    uuids_drawn w' = (uuids_drawn w + length nodes)%nat /\
    forall i node, nodes !! i = Some node ->
      node_uuid node = uuid4 (uuids_drawn w + i)%nat /\
      node_labels node = [cps "Entity"] /\
      node_group_id node = episode_group_id episode.
Proof.
  rewrite in_house_extract_nodes_run.
  set (prompt := [{| role := cps "user";
                     content := in_house_context_text episode previous_episodes |}]).
  unfold bind at 1. unfold call.
  destruct (generate_response prompt ExtractedEntities (backend w)) as [[answer | e] b1] eqn:Hanswer;
    [|discriminate].
  cbn [calls uuids_drawn backend]. intros Hret.
  pose proof (in_house_nodes_loop_returns _ _ _ _ _ _ Hret) as Hall.
  rewrite (in_house_nodes_loop _ _ _ _ _ _ Hall) in Hret. cbn [app] in Hret.
  injection Hret as <- <-.
  exists prompt, answer. rewrite Hanswer. cbn [fst calls uuids_drawn].
  split; [reflexivity|]. split; [reflexivity|]. split; [|split].
  - rewrite fmap_imap. unfold compose. cbn [node_name].
    rewrite (imap_const entity_name). reflexivity.
  - rewrite fmap_imap. unfold compose. cbn [node_summary].
    rewrite (imap_const (fun entity_data => Some (default [] (entity_summary entity_data)))).
    apply List.map_ext_in. intros x Hx.
    rewrite List.Forall_forall in Hall. specialize (Hall x Hx).
    destruct (entity_summary x); [reflexivity | congruence].
  - rewrite length_imap. split; [reflexivity|].
    intros i node Hi. apply list_lookup_imap_Some in Hi as (x & _ & ->).
    repeat split.
Qed.

Lemma in_house_extract_nodes_context_window_witness :
  @KnowledgeService.extract_nodes unit ExtractorExamples.summarising_client Examples.ascii_runtime
    Examples.episode_ann
    [Examples.episode_self_loop; Examples.episode_ann; Examples.episode_ann; Examples.episode_ann]
    (Examples.new_world tt)
  = @KnowledgeService.extract_nodes unit ExtractorExamples.summarising_client Examples.ascii_runtime
      Examples.episode_ann
      [Examples.episode_ann; Examples.episode_ann; Examples.episode_ann]
      (Examples.new_world tt).
Proof.
  apply (@in_house_extract_nodes_context_window unit ExtractorExamples.summarising_client
           Examples.ascii_runtime).
  reflexivity.
Defined.

Lemma in_house_extract_nodes_invariants_witness :
  exists nodes prompt answer,
    length nodes = 3%nat /\
    fst (@generate_response unit ExtractorExamples.summarising_client prompt ExtractedEntities tt)
    = Returns answer /\
    map node_name nodes = map entity_name (default [] (extracted_entities answer)) /\
    map (fun node => Some (node_summary node)) nodes
    = map entity_summary (default [] (extracted_entities answer)) /\
    forall i node, nodes !! i = Some node ->
      node_uuid node = @uuid4 Examples.ascii_runtime (0 + i)%nat /\
      node_labels node = [cps "Entity"] /\
      node_group_id node = cps "g".
Proof.
  destruct (@in_house_extract_nodes_invariants unit ExtractorExamples.summarising_client
              Examples.ascii_runtime Examples.episode_ann [] (Examples.new_world tt) _ _
              ltac:(vm_compute; reflexivity))
    as (prompt & answer & Hanswer & _ & Hnames & Hsummaries & _ & Hnodes).
  eexists _, prompt, answer.
  split; [|split; [exact Hanswer | split; [exact Hnames | split; [exact Hsummaries | exact Hnodes]]]].
  reflexivity.
Defined.

(** An answer with a summary that is [None] makes the in-house
    [extract_nodes] raise the validation error of [EntityNode], after one
    identifier has been drawn. *)
Example in_house_extract_nodes_none_summary :
  @KnowledgeService.extract_nodes unit ExtractorExamples.satisfied_client Examples.ascii_runtime
    Examples.episode_ann [] (Examples.new_world tt)
  = (Raises (@none_summary_error Examples.ascii_runtime "EntityNode"),
     {| backend := tt;
        calls := [{| call_messages :=
                       [{| role := cps "user";
                           content := in_house_context_text Examples.episode_ann [] |}];
                     call_model := ExtractedEntities |}];
        uuids_drawn := 1 |}).
Proof. vm_compute. reflexivity. Qed.
Section NumaResponses.

Import ExtractionService.

Context {L B : Type} `{KnowledgeExtractor L} `{Client B} `{PyRuntime}.

Lemma to_entity_nodes_distinct (episode : EpisodicNode)
    (types : list NumaExtractor.EntityTypeInfo) (filtered : list ExtractedEntity) :
  NoDup (map node_uuid (NumaExtractor.to_entity_nodes episode types filtered)) /\
  forall node, In node (NumaExtractor.to_entity_nodes episode types filtered) ->
    node_group_id node = episode_group_id episode.
Proof.
  rewrite to_entity_nodes_imap. split.
  - apply NoDup_alt. intros i j u Hi Hj.
    rewrite list_lookup_fmap in Hi, Hj.
    destruct (_ !! i) as [ni|] eqn:Hni; [|discriminate].
    destruct (_ !! j) as [nj|] eqn:Hnj; [|discriminate].
    apply list_lookup_imap_Some in Hni as (x & _ & ->).
    apply list_lookup_imap_Some in Hnj as (y & _ & ->).
    cbn [fmap option_fmap option_map node_uuid] in Hi, Hj.
    injection Hi as Hi. injection Hj as Hj. rewrite <- Hj in Hi.
    apply app_inv_head in Hi. injection Hi as Hi. now apply str_of_nat_inj.
  - intros node Hin. apply list_elem_of_In, elem_of_lookup_imap_1 in Hin as (i & x & -> & _).
    reflexivity.
Qed.

Lemma numa_extract_edges_returns (nodes : list EntityNode) (episode : EpisodicNode)
    (previous : list EpisodicNode) (w w' : World B) (edges : list EdgeNode) :
  NumaExtractor.extract_edges nodes episode previous w = (Returns edges, w') ->
  exists extracted, edges = NumaExtractor.to_edge_nodes episode nodes extracted.
Proof.
  unfold NumaExtractor.extract_edges.
  destruct (length nodes <? 2)%nat.
  - unfold ret. intros [= <- _]. now exists [].
  - unfold bind. destruct (call _ ExtractedEdges w) as [[answer | e] w1]; [|discriminate].
    unfold ret. intros [= <- _]. eexists. reflexivity.
Qed.

(** What a response of [_extract_with_numa] is made of. *)
Lemma extract_with_numa_returns (request : ExtractionRequest) (w w' : World B)
    (result : ExtractionResponse) :
  _extract_with_numa request w = (Returns result, w') ->
  exists episode previous entity_types w1 w2 nodes edges,
    episode_group_id episode = group_id request /\
    NumaExtractor.extract_nodes episode previous entity_types w1 = (Returns nodes, w2) /\
    NumaExtractor.extract_edges nodes episode previous w2 = (Returns edges, w') /\
    result = {| success := true; extracted_nodes := nodes; extracted_edges := edges;
                error := None |}.
Proof.
  unfold _extract_with_numa. unfold bind at 1.
  unfold _convert_to_episode at 1. unfold bind at 1. unfold fresh_uuid at 1. unfold ret at 1.
  unfold bind at 1.
  destruct (_convert_previous_episodes _ _) as [[previous | e] w1]; [|discriminate].
  unfold bind at 1.
  destruct (NumaExtractor.extract_nodes _ previous _ w1) as [[nodes | e] w2] eqn:Hnodes;
    [|discriminate].
  unfold bind at 1.
  destruct (NumaExtractor.extract_edges nodes _ previous w2) as [[edges | e] w3] eqn:Hedges;
    [|discriminate].
  unfold ret. intros [= <- <-].
  eexists _, previous, _, w1, w2, nodes, edges.
  split; [|split; [exact Hnodes | split; [exact Hedges | reflexivity]]]. reflexivity.
Qed.

(** A timestamp that does not parse stops the conversion where it stands;
    the world is as it was. *)
Lemma convert_previous_episodes_raises {W : Type} (previous : list EpisodeData) (w : World W) :
  (exists ep, In ep previous /\ fromisoformat_error (data_timestamp ep) <> None) ->
  exists e, _convert_previous_episodes previous w = (Raises e, w).
Proof.
  induction previous as [|ep previous IH]; intros (bad & Hin & Hbad); [destruct Hin|].
  cbn [_convert_previous_episodes].
  destruct (fromisoformat_error (data_timestamp ep)) as [e|] eqn:Hep.
  - exists e. reflexivity.
  - destruct Hin as [-> | Hin]; [contradiction|].
    destruct (IH (ex_intro _ bad (conj Hin Hbad))) as (e & He).
    exists e. unfold bind. now rewrite He.
Qed.

Lemma extract_with_numa_bad_timestamp (request : ExtractionRequest) (w : World B) :
  (exists ep, In ep (default [] (previous_episodes request)) /\
              fromisoformat_error (data_timestamp ep) <> None) ->
  exists e w', _extract_with_numa request w = (Raises e, w') /\ calls w' = calls w.
Proof.
  intros Hbad. unfold _extract_with_numa. unfold bind at 1.
  unfold _convert_to_episode at 1. unfold bind at 1. unfold fresh_uuid at 1. unfold ret at 1.
  unfold bind at 1.
  match goal with
  | |- context [_convert_previous_episodes ?l ?w1] =>
      destruct (convert_previous_episodes_raises l w1 Hbad) as (e & ->)
  end.
  eexists _, _. split; reflexivity.
Qed.

Lemma extract_with_llm_bad_timestamp (request : ExtractionRequest) (w : World L) :
  (exists ep, In ep (default [] (previous_episodes request)) /\
              fromisoformat_error (data_timestamp ep) <> None) ->
  exists e w', _extract_with_llm request w = (Raises e, w') /\ calls w' = calls w.
Proof.
  intros Hbad. unfold _extract_with_llm. unfold bind at 1.
  unfold _convert_to_episode at 1. unfold bind at 1. unfold fresh_uuid at 1. unfold ret at 1.
  unfold bind at 1.
  match goal with
  | |- context [_convert_previous_episodes ?l ?w1] =>
      destruct (convert_previous_episodes_raises l w1 Hbad) as (e & ->)
  end.
  eexists _, _. split; reflexivity.
Qed.

(** With [use_numa] set, [extract_knowledge] goes to the Numa client
    without touching the LLM client. *)
Lemma extract_knowledge_use_numa (request : ExtractionRequest) (svc : Service L B) :
  use_numa request = Some true ->
  extract_knowledge request svc
  = match numa_or_raise request svc with
    | (Returns result, svc') => (Returns result, svc')
    | (Raises e, svc') => (Returns (failure_response e), svc')
    end.
Proof.
  intros Huse. unfold extract_knowledge, extract_knowledge_body. rewrite Huse. reflexivity.
Qed.

End NumaResponses.

(** A response of [extract_knowledge] on the Numa path is a graph of its
    own: every edge joins two nodes of the same response, with different
    identifiers; the nodes' identifiers differ from one another; nodes and
    edges are in the request's group; and the LLM client is left as it
    was. *)
Theorem numa_response_is_a_graph {L B : Type} `{ExtractionService.KnowledgeExtractor L}
    `{Client B} `{PyRuntime}
    (request : ExtractionService.ExtractionRequest) (svc svc' : ExtractionService.Service L B)
    (result : ExtractionService.ExtractionResponse) :
  ExtractionService.use_numa request = Some true ->
  ExtractionService.extract_knowledge request svc = (Returns result, svc') ->
  (forall edge, In edge (ExtractionService.extracted_edges result) ->
     source_node_uuid edge <> target_node_uuid edge /\
     In (source_node_uuid edge) (map node_uuid (ExtractionService.extracted_nodes result)) /\
     In (target_node_uuid edge) (map node_uuid (ExtractionService.extracted_nodes result)) /\
     edge_group_id edge = ExtractionService.group_id request) /\
  NoDup (map node_uuid (ExtractionService.extracted_nodes result)) /\
  (forall node, In node (ExtractionService.extracted_nodes result) ->
     node_group_id node = ExtractionService.group_id request) /\
  ExtractionService.llm_client svc' = ExtractionService.llm_client svc.
Proof.
  intros Huse. rewrite (extract_knowledge_use_numa request svc Huse).
  unfold ExtractionService.numa_or_raise.
  assert (Hfailure : forall e,
            (forall edge, In edge (ExtractionService.extracted_edges
                                     (ExtractionService.failure_response e)) ->
               source_node_uuid edge <> target_node_uuid edge /\
               In (source_node_uuid edge)
                 (map node_uuid (ExtractionService.extracted_nodes
                                   (ExtractionService.failure_response e))) /\
               In (target_node_uuid edge)
                 (map node_uuid (ExtractionService.extracted_nodes
                                   (ExtractionService.failure_response e))) /\
               edge_group_id edge = ExtractionService.group_id request) /\
            NoDup (map node_uuid (ExtractionService.extracted_nodes
                                    (ExtractionService.failure_response e))) /\
            (forall node, In node (ExtractionService.extracted_nodes
                                     (ExtractionService.failure_response e)) ->
               node_group_id node = ExtractionService.group_id request)).
  { intros e. simpl. split; [intros edge []|]. split; [constructor | intros node []]. }
  destruct (ExtractionService.numa_client svc) as [w|].
  - destruct (ExtractionService._extract_with_numa request w) as [[r | e] w'] eqn:Hrun.
    + intros [= <- <-]. split; [|split; [|split]]; try reflexivity.
      * apply extract_with_numa_returns in Hrun
          as (episode & previous & types & w1 & w2 & nodes & edges & Hgroup & Hnodes & Hedges & ->).
        cbn [ExtractionService.extracted_edges ExtractionService.extracted_nodes].
        apply numa_extract_edges_returns in Hedges as (extracted & ->).
        intros edge Hin.
        destruct (numa_edges_resolved_distinct episode nodes extracted edge Hin)
          as ((x & n1 & n2 & _ & Hn1 & Hn2 & _ & _ & Hs & Ht) & Hne).
        split; [exact Hne|]. rewrite Hs, Ht.
        split; [now apply in_map|]. split; [now apply in_map|].
        rewrite to_edge_nodes_imap in Hin.
        apply list_elem_of_In, elem_of_lookup_imap_1 in Hin as (i & y & -> & _).
        exact Hgroup.
      * apply extract_with_numa_returns in Hrun
          as (episode & previous & types & w1 & w2 & nodes & edges & Hgroup & Hnodes & Hedges & ->).
        cbn [ExtractionService.extracted_nodes].
        apply extract_nodes_returns in Hnodes as (extracted & ->).
        apply to_entity_nodes_distinct.
      * apply extract_with_numa_returns in Hrun
          as (episode & previous & types & w1 & w2 & nodes & edges & Hgroup & Hnodes & Hedges & ->).
        cbn [ExtractionService.extracted_nodes].
        apply extract_nodes_returns in Hnodes as (extracted & ->).
        intros node Hin. rewrite <- Hgroup. revert node Hin. apply to_entity_nodes_distinct.
    + intros [= <- <-]. destruct (Hfailure e) as (H2 & H3 & H4). repeat split; auto; apply H2; auto.
  - intros [= <- <-]. destruct (Hfailure ExtractionService.no_clients) as (H2 & H3 & H4).
    repeat split; auto; apply H2; auto.
Qed.

(** A previous episode whose timestamp does not parse makes the request
    fail before either client is called: the response reports failure and
    no call is logged, whichever path the request takes. *)
Theorem unparsable_timestamp_fails_before_any_call {L B : Type}
    `{ExtractionService.KnowledgeExtractor L} `{Client B} `{PyRuntime}
    (request : ExtractionService.ExtractionRequest) (svc : ExtractionService.Service L B)
    (ep : ExtractionService.EpisodeData) :
  In ep (default [] (ExtractionService.previous_episodes request)) ->
  fromisoformat_error (ExtractionService.data_timestamp ep) <> None ->
  (exists e, fst (ExtractionService.extract_knowledge request svc)
             = Returns (ExtractionService.failure_response e)) /\
  option_map calls (ExtractionService.llm_client
                      (snd (ExtractionService.extract_knowledge request svc)))
  = option_map calls (ExtractionService.llm_client svc) /\
  option_map calls (ExtractionService.numa_client
                      (snd (ExtractionService.extract_knowledge request svc)))
  = option_map calls (ExtractionService.numa_client svc).
Proof.
  intros Hin Hbad.
  assert (Hex : exists ep, In ep (default [] (ExtractionService.previous_episodes request)) /\
                           fromisoformat_error (ExtractionService.data_timestamp ep) <> None)
    by eauto.
  assert (Hnuma : forall svc0 : ExtractionService.Service L B,
            (exists e, fst (ExtractionService.numa_or_raise request svc0) = Raises e) /\
            option_map calls (ExtractionService.llm_client
                                (snd (ExtractionService.numa_or_raise request svc0)))
            = option_map calls (ExtractionService.llm_client svc0) /\
            option_map calls (ExtractionService.numa_client
                                (snd (ExtractionService.numa_or_raise request svc0)))
            = option_map calls (ExtractionService.numa_client svc0)).
  { intros svc0. unfold ExtractionService.numa_or_raise.
    destruct (ExtractionService.numa_client svc0) as [w|] eqn:Hclient.
    - destruct (extract_with_numa_bad_timestamp request w Hex) as (e & w' & -> & Hcalls).
      simpl. rewrite Hcalls. eauto.
    - simpl. rewrite Hclient. eauto. }
  unfold ExtractionService.extract_knowledge, ExtractionService.extract_knowledge_body.
  destruct (negb _) eqn:Hneg; [destruct (ExtractionService.llm_client svc) as [llm|] eqn:Hllm|].
  - destruct (extract_with_llm_bad_timestamp request llm Hex) as (e & llm' & -> & Hcalls).
    match goal with
    | |- context [ExtractionService.numa_or_raise request ?s] =>
        destruct (Hnuma s) as ((e' & He') & Hl & Hn);
        destruct (ExtractionService.numa_or_raise request s) as [[r | e''] s'] eqn:Hrun
    end; simpl in *; [discriminate|].
    rewrite Hl, Hn, Hcalls. eauto.
  - destruct (Hnuma svc) as ((e' & He') & Hl & Hn).
    destruct (ExtractionService.numa_or_raise request svc) as [[r | e''] s'] eqn:Hrun;
      simpl in *; [discriminate|]. rewrite Hl, Hn, Hllm. eauto.
  - destruct (Hnuma svc) as ((e' & He') & Hl & Hn).
    destruct (ExtractionService.numa_or_raise request svc) as [[r | e''] s'] eqn:Hrun;
      simpl in *; [discriminate|]. rewrite Hl, Hn. eauto.
Qed.

Section Handlers.

Import ExtractionService.

Context {L B : Type} `{KnowledgeExtractor L} `{Client B} `{PyRuntime}
  `{ExtractionHandlers.HandlerRuntime}.

(** A response that reports failure lists nothing. *)
Lemma failed_response_is_empty (request : ExtractionRequest) (svc : Service L B)
    (response : ExtractionResponse) :
  fst (extract_knowledge request svc) = Returns response ->
  success response = false ->
  extracted_nodes response = [] /\ extracted_edges response = [].
Proof.
  rewrite extract_knowledge_by_body.
  destruct (extract_knowledge_body request svc) as [[r | e] svc'] eqn:Hbody; simpl.
  - intros [= <-] Hfalse. exfalso.
    revert Hbody. unfold extract_knowledge_body.
    assert (Hnuma : forall s s' : Service L B, numa_or_raise request s = (Returns r, s') -> False).
    { intros s s'. unfold numa_or_raise. destruct (numa_client s) as [w|]; [|discriminate].
      destruct (_extract_with_numa request w) as [[r' | e'] w'] eqn:Hrun; [|discriminate].
      intros [= -> _].
      pose proof (extract_with_numa_success request w r) as Hs. rewrite Hrun in Hs.
      specialize (Hs eq_refl). congruence. }
    destruct (negb _); [destruct (llm_client svc) as [llm|]|]; try (now apply Hnuma).
    destruct (_extract_with_llm request llm) as [[r' | e'] llm'] eqn:Hrun; [|now apply Hnuma].
    intros [= -> _].
    pose proof (extract_with_llm_success request llm r) as Hs. rewrite Hrun in Hs.
    specialize (Hs eq_refl). congruence.
  - intros [= <-] _. split; reflexivity.
Qed.

End Handlers.

(** [handle_add_episode] exits with 1 exactly when it gets fewer than
    three arguments, and then the service is not used; otherwise it exits
    with 0, prints the counts of the lists of identifiers it prints, names
    the episode by its first argument, and leaves the LLM client as it
    was. *)
Theorem handle_add_episode_exit_code {L B : Type} `{ExtractionService.KnowledgeExtractor L}
    `{Client B} `{PyRuntime} `{ExtractionHandlers.HandlerRuntime}
    (service : ExtractionService.Service L B) (args : list pystr) :
  (fst (fst (ExtractionHandlers.handle_add_episode service args)) = 1%Z <->
   (length args < 3)%nat) /\
  ((length args < 3)%nat ->
   snd (ExtractionHandlers.handle_add_episode service args) = service /\
   exists error,
     snd (fst (ExtractionHandlers.handle_add_episode service args))
     = ExtractionHandlers.PrintedError error) /\
  ((3 <= length args)%nat ->
   fst (fst (ExtractionHandlers.handle_add_episode service args)) = 0%Z /\
   ExtractionService.llm_client (snd (ExtractionHandlers.handle_add_episode service args))
   = ExtractionService.llm_client service /\
   exists episode_uuid node_uuids edge_uuids,
     snd (fst (ExtractionHandlers.handle_add_episode service args))
     = ExtractionHandlers.PrintedResult episode_uuid (nth 0 args [])
         (length node_uuids) (length edge_uuids) node_uuids edge_uuids).
Proof.
  unfold ExtractionHandlers.handle_add_episode.
  destruct (length args <? 3)%nat eqn:Hlen;
    [apply Nat.ltb_lt in Hlen | apply Nat.ltb_ge in Hlen].
  - simpl. split; [tauto|]. split; [eauto | lia].
  - assert (Huse : ExtractionService.use_numa (ExtractionHandlers.add_episode_request args)
                   = Some true) by reflexivity.
    rewrite (extract_knowledge_use_numa _ service Huse).
    assert (Hllm : ExtractionService.llm_client
                     (snd (ExtractionService.numa_or_raise
                             (ExtractionHandlers.add_episode_request args) service))
                   = ExtractionService.llm_client service).
    { unfold ExtractionService.numa_or_raise.
      destruct (ExtractionService.numa_client service) as [w|]; [|reflexivity].
      destruct (ExtractionService._extract_with_numa _ w); reflexivity. }
    destruct (ExtractionService.numa_or_raise _ service) as [[r | e] svc'];
      cbn [fst snd] in *;
      (split; [split; [discriminate | lia]|]); (split; [lia|]); intros _;
      (split; [reflexivity|]); (split; [exact Hllm|]);
      match goal with
      | |- context [ExtractionHandlers.PrintedResult ?u _ _ _ ?ns ?es] => exists u, ns, es
      end;
      rewrite !length_map; reflexivity.
Qed.

(** A failed extraction does not show in the outcome of the command: with
    three arguments or more and a response that reports failure, the
    handler still exits with 0 and prints a result with zero nodes and
    zero edges. *)
Theorem handle_add_episode_masks_failure {L B : Type} `{ExtractionService.KnowledgeExtractor L}
    `{Client B} `{PyRuntime} `{ExtractionHandlers.HandlerRuntime}
    (service : ExtractionService.Service L B) (args : list pystr)
    (response : ExtractionService.ExtractionResponse) :
  (3 <= length args)%nat ->
  fst (ExtractionService.extract_knowledge (ExtractionHandlers.add_episode_request args) service)
  = Returns response ->
  ExtractionService.success response = false ->
  exists episode_uuid,
    fst (ExtractionHandlers.handle_add_episode service args)
    = (0%Z, ExtractionHandlers.PrintedResult episode_uuid (nth 0 args []) 0 0 [] []).
Proof.
  intros Hlen Hresponse Hfailed.
  destruct (failed_response_is_empty _ _ _ Hresponse Hfailed) as [Hnodes Hedges].
  unfold ExtractionHandlers.handle_add_episode.
  replace (length args <? 3)%nat with false by (symmetry; apply Nat.ltb_ge; lia).
  destruct (ExtractionService.extract_knowledge _ service) as [[r | e] svc'];
    cbn [fst snd] in *; [|discriminate].
  injection Hresponse as ->. rewrite Hnodes, Hedges. eexists. reflexivity.
Qed.

Lemma numa_response_is_a_graph_witness :
  exists result svc',
    @ExtractionService.extract_knowledge unit unit Examples.unavailable_extractor
      ExtractorExamples.satisfied_client Examples.ascii_runtime
      Examples.request_numa Examples.service_both = (Returns result, svc') /\
    length (ExtractionService.extracted_nodes result) = 2%nat /\
    (forall edge, In edge (ExtractionService.extracted_edges result) ->
       source_node_uuid edge <> target_node_uuid edge /\
       In (source_node_uuid edge) (map node_uuid (ExtractionService.extracted_nodes result)) /\
       In (target_node_uuid edge) (map node_uuid (ExtractionService.extracted_nodes result)) /\
       edge_group_id edge = cps "g") /\
    NoDup (map node_uuid (ExtractionService.extracted_nodes result)) /\
    (forall node, In node (ExtractionService.extracted_nodes result) ->
       node_group_id node = cps "g") /\
    ExtractionService.llm_client svc' = ExtractionService.llm_client Examples.service_both.
Proof.
  eexists _, _. split; [vm_compute; reflexivity|]. split; [reflexivity|].
  apply (@numa_response_is_a_graph unit unit Examples.unavailable_extractor
           ExtractorExamples.satisfied_client Examples.ascii_runtime
           Examples.request_numa Examples.service_both).
  - reflexivity.
  - vm_compute. reflexivity.
Defined.

Lemma unparsable_timestamp_fails_before_any_call_witness :
  (exists e,
     fst (@ExtractionService.extract_knowledge unit unit Examples.unavailable_extractor
            ExtractorExamples.satisfied_client Examples.strict_dates_runtime
            Examples.request_yesterday Examples.service_both)
     = Returns (ExtractionService.failure_response e)) /\
  option_map calls
    (ExtractionService.llm_client
       (snd (@ExtractionService.extract_knowledge unit unit Examples.unavailable_extractor
               ExtractorExamples.satisfied_client Examples.strict_dates_runtime
               Examples.request_yesterday Examples.service_both)))
  = option_map calls (ExtractionService.llm_client Examples.service_both) /\
  option_map calls
    (ExtractionService.numa_client
       (snd (@ExtractionService.extract_knowledge unit unit Examples.unavailable_extractor
               ExtractorExamples.satisfied_client Examples.strict_dates_runtime
               Examples.request_yesterday Examples.service_both)))
  = option_map calls (ExtractionService.numa_client Examples.service_both).
Proof.
  apply (@unparsable_timestamp_fails_before_any_call unit unit Examples.unavailable_extractor
           ExtractorExamples.satisfied_client Examples.strict_dates_runtime
           Examples.request_yesterday Examples.service_both
           {| ExtractionService.data_uuid := cps "e0";
              ExtractionService.data_content := cps "Bob left";
              ExtractionService.data_timestamp := cps "yesterday";
              ExtractionService.data_source := cps "chat";
              ExtractionService.data_group_id := cps "g" |}).
  - left. reflexivity.
  - vm_compute. discriminate.
Defined.

Lemma handle_add_episode_masks_failure_witness :
  exists episode_uuid,
    fst (@ExtractionHandlers.handle_add_episode unit unit Examples.unavailable_extractor
           ExtractorExamples.satisfied_client Examples.ascii_runtime HandlerExamples.numbered_uuids
           HandlerExamples.service_llm_only [cps "first"; cps "Ann met Bob"; cps "chat"])
    = (0%Z, ExtractionHandlers.PrintedResult episode_uuid
              (nth 0 [cps "first"; cps "Ann met Bob"; cps "chat"] []) 0 0 [] []).
Proof.
  apply (@handle_add_episode_masks_failure unit unit Examples.unavailable_extractor
           ExtractorExamples.satisfied_client Examples.ascii_runtime HandlerExamples.numbered_uuids
           HandlerExamples.service_llm_only [cps "first"; cps "Ann met Bob"; cps "chat"]
           (ExtractionService.failure_response ExtractionService.no_clients)).
  - simpl. lia.
  - reflexivity.
  - reflexivity.
Defined.
(** What the local extractor reports: every entity is a run of capitalised
    ASCII words, at least two characters long and no stop word; there are
    at most five relations, each of one of the four kinds, between two
    stripped names of at least two characters that are no stop words. *)
Theorem local_extractor_findings_shape `{PyRuntime} (prompt : pystr) :
  (forall entity, In entity (NumaModule.entities (NumaModule._extract_from_prompt prompt)) ->
     (entity ∉ NumaModule.stopwords) /\ (2 <= length entity)%nat /\
     NumaModule.capitalised true entity) /\
  (length (NumaModule.relations (NumaModule._extract_from_prompt prompt)) <= 5)%nat /\
  forall rel, In rel (NumaModule.relations (NumaModule._extract_from_prompt prompt)) ->
    In (NumaModule.rel_relation rel)
       [cps "works_at"; cps "lives_in"; cps "leads"; cps "founded"] /\
    (2 <= length (NumaModule.rel_source rel))%nat /\
    (2 <= length (NumaModule.rel_target rel))%nat /\
    (NumaModule.rel_source rel ∉ NumaModule.stopwords) /\
    (NumaModule.rel_target rel ∉ NumaModule.stopwords).
Proof.
  unfold NumaModule._extract_from_prompt.
  cbn [NumaModule.entities NumaModule.relations].
  set (input_text := NumaModule._extract_input_text_from_prompt prompt).
  split; [|split].
  - unfold NumaModule.entities_of_input_text. intros entity Hin.
    apply in_firstn in Hin. apply list_elem_of_In in Hin.
    apply dict_fromkeys_spec in Hin. apply list_elem_of_In in Hin.
    apply filter_In in Hin as [Hfound Hkeep].
    apply andb_true_iff in Hkeep as [Hstop Hlen].
    apply bool_decide_eq_true in Hstop. apply Nat.ltb_lt in Hlen.
    split; [exact Hstop|]. split; [lia|].
    apply proper_noun_capitalised. eapply findall_sound. exact Hfound.
  - apply firstn_le_length.
  - unfold NumaModule.relations_of_input_text. intros rel Hin.
    apply in_firstn in Hin.
    apply in_flat_map in Hin as ([pattern rel_type] & Hpattern & Hin).
    apply in_flat_map in Hin as ([m0 m1] & _ & Hin).
    destruct (truthy (strip m0) && truthy (strip m1)
              && (1 <? length (strip m0))%nat && (1 <? length (strip m1))%nat
              && bool_decide (strip m0 ∉ NumaModule.stopwords)
              && bool_decide (strip m1 ∉ NumaModule.stopwords)) eqn:Hkeep; [|destruct Hin].
    destruct Hin as [<- | []].
    cbn [NumaModule.rel_relation NumaModule.rel_source NumaModule.rel_target].
    repeat (apply andb_true_iff in Hkeep as [Hkeep ?]).
    repeat match goal with
           | Hb : bool_decide _ = true |- _ => apply bool_decide_eq_true in Hb
           | Hl : (_ <? _)%nat = true |- _ => apply Nat.ltb_lt in Hl
           end.
    split; [|repeat split; solve [lia | assumption]].
    unfold NumaModule.relation_patterns in Hpattern. simpl in Hpattern.
    destruct Hpattern as [[= _ <-] | [[= _ <-] | [[= _ <-] | [[= _ <-] | []]]]]; simpl; tauto.
Qed.
Section InHouseTotality.

Context `{PyRuntime}.

(** The in-house client gives every entity and every relationship a
    summary that is a string. *)
Lemma in_house_entities_summarised (text : pystr) :
  List.Forall (fun entity_data => entity_summary entity_data <> None)
    (KnowledgeService._extract_entities text).
Proof.
  unfold KnowledgeService._extract_entities. apply Forall_take.
  unfold KnowledgeService.scan_patterns.
  set (P := fun entity_data : ExtractedEntity => entity_summary entity_data <> None).
  assert (Hmatch : forall acc matched,
            List.Forall P (KnowledgeService.scan_entities acc) ->
            List.Forall P (KnowledgeService.scan_entities
                             (KnowledgeService.scan_match text acc matched))).
  { intros acc matched Hacc. unfold KnowledgeService.scan_match.
    destruct (_ && _); [|exact Hacc]. cbn [KnowledgeService.scan_entities].
    apply List.Forall_app. split; [exact Hacc|]. constructor; [|constructor].
    unfold P. cbn [entity_summary]. discriminate. }
  assert (Hmatches : forall matches acc,
            List.Forall P (KnowledgeService.scan_entities acc) ->
            List.Forall P (KnowledgeService.scan_entities
                             (fold_left (KnowledgeService.scan_match text) matches acc))).
  { induction matches as [|m matches IH]; intros acc Hacc; [exact Hacc|].
    cbn [fold_left]. apply IH, Hmatch, Hacc. }
  assert (Hpatterns : forall patterns acc,
            List.Forall P (KnowledgeService.scan_entities acc) ->
            List.Forall P (KnowledgeService.scan_entities
                             (fold_left
                                (fun acc pattern =>
                                   fold_left (KnowledgeService.scan_match text)
                                     (re_finditer_ignorecase pattern text) acc)
                                patterns acc))).
  { induction patterns as [|p patterns IH]; intros acc Hacc; [exact Hacc|].
    cbn [fold_left]. apply IH, Hmatches, Hacc. }
  apply Hpatterns. constructor.
Qed.

Lemma in_house_relationships_summarised (text : pystr) :
  List.Forall (fun edge_data => summary edge_data <> None)
    (KnowledgeService._extract_relationships text).
Proof.
  unfold KnowledgeService._extract_relationships. apply Forall_take.
  apply List.Forall_flat_map, List.Forall_forall. intros sentence _.
  destruct (length (strip sentence) <? 10)%nat; [constructor|].
  apply List.Forall_flat_map, List.Forall_forall. intros indicator _.
  destruct (contains indicator (py_lower (strip sentence))); [|constructor].
  match goal with
  | |- context [match ?l with _ => _ end] => destruct l as [|source [|target others]]
  end; repeat constructor. cbn [summary]. discriminate.
Qed.

(** Over the in-house client, which never raises, the in-house extractor
    returns. *)
Lemma in_house_extract_nodes_total (episode : EpisodicNode)
    (previous_episodes : list EpisodicNode) (w : World unit) :
  exists nodes w',
    @KnowledgeService.extract_nodes unit KnowledgeService.InHouseLLMClient _
      episode previous_episodes w = (Returns nodes, w').
Proof.
  rewrite in_house_extract_nodes_run.
  unfold bind at 1. unfold call. cbn [generate_response KnowledgeService.InHouseLLMClient].
  cbn [calls uuids_drawn backend].
  unfold KnowledgeService.in_house_generate_response.
  cbn [extracted_entities default].
  rewrite in_house_nodes_loop by apply in_house_entities_summarised. eauto.
Qed.

Lemma in_house_extract_edges_total (nodes : list EntityNode) (episode : EpisodicNode)
    (previous_episodes : list EpisodicNode) (w : World unit) :
  exists edges w',
    @KnowledgeService.extract_edges unit KnowledgeService.InHouseLLMClient _
      nodes episode previous_episodes w = (Returns edges, w').
Proof.
  unfold KnowledgeService.extract_edges.
  destruct (length nodes <? 2)%nat; [unfold ret; eauto|].
  cbv zeta. unfold bind at 1. unfold call.
  cbn [generate_response KnowledgeService.InHouseLLMClient].
  unfold KnowledgeService.in_house_generate_response.
  cbn [extracted_edges default].
  match goal with
  | |- context [KnowledgeService.fold_m ?f ?l ?acc ?w0] => set (step := f)
  end.
  assert (Hgen : forall l acc w0,
            List.Forall (fun edge_data => summary edge_data <> None) l ->
            exists edges w',
              KnowledgeService.fold_m step l acc w0 = (Returns edges, w')).
  { induction l as [|x l IH]; intros acc w0 Hall;
      [unfold KnowledgeService.fold_m, ret; eauto|].
    apply List.Forall_cons_iff in Hall as [Hx Hall].
    cbn [KnowledgeService.fold_m]. unfold bind at 1. unfold step at 1.
    destruct (KnowledgeService.node_map nodes !! source_name x);
      [destruct (KnowledgeService.node_map nodes !! target_name x)|];
      try (unfold ret at 1; now apply IH).
    unfold bind at 1, fresh_uuid at 1.
    destruct (summary x); [|congruence]. unfold ret at 1. now apply IH. }
  apply Hgen, in_house_relationships_summarised.
Qed.

End InHouseTotality.

(** [add_episode] checks the episode type before it stores anything and
    stores before it saves: with a type that is none of the four, it
    raises [ValueError] and the three stores and the database are as they
    were; with a valid type the episode is in [self.episodes] under its
    identifier afterwards, whether the call returns or raises, and
    without a driver the call does raise. *)
Theorem add_episode_stores_before_saving {D : Type} `{EionKnowledgeService.Neo4jSession D}
    `{PyRuntime} `{EionKnowledgeService.ReprStr}
    (name content source_description group_id episode_type : pystr)
    (self : EionKnowledgeService.Service D) :
  let run :=
    EionKnowledgeService.add_episode name content source_description group_id episode_type self in
  match EionKnowledgeService.EpisodeType_of episode_type with
  | None =>
      fst run = Raises (EionKnowledgeService.invalid_episode_type episode_type) /\
      EionKnowledgeService.episodes (snd run) = EionKnowledgeService.episodes self /\
      EionKnowledgeService.entities (snd run) = EionKnowledgeService.entities self /\
      EionKnowledgeService.edges (snd run) = EionKnowledgeService.edges self /\
      EionKnowledgeService.neo4j_driver (snd run) = EionKnowledgeService.neo4j_driver self
  | Some source =>
      PyDict.get (EionKnowledgeService.episodes (snd run))
        (uuid4 (uuids_drawn (EionKnowledgeService.world self)))
      = Some {| episode_uuid := uuid4 (uuids_drawn (EionKnowledgeService.world self));
                episode_group_id := if truthy group_id then group_id else cps "default";
                episode_source := source;
                episode_content := content;
                episode_source_description := Some source_description |} /\
      (EionKnowledgeService.neo4j_driver self = None ->
       fst run = Raises EionKnowledgeService.no_driver) /\
      forall result, fst run = Returns result ->
        EionKnowledgeService.nodes_created result
        = length (EionKnowledgeService.result_node_uuids result) /\
        EionKnowledgeService.edges_created result
        = length (EionKnowledgeService.result_edge_uuids result) /\
        EionKnowledgeService.result_episode_uuid result
        = uuid4 (uuids_drawn (EionKnowledgeService.world self))
  end.
Proof.
  intros run. subst run. unfold EionKnowledgeService.add_episode, fresh_uuid.
  cbv beta iota zeta.
  destruct (EionKnowledgeService.EpisodeType_of episode_type) as [source|];
    [|cbn [fst snd EionKnowledgeService.episodes EionKnowledgeService.entities
           EionKnowledgeService.edges EionKnowledgeService.neo4j_driver];
      repeat split].
  cbn [episode_uuid episode_group_id].
  match goal with
  | |- context [@KnowledgeService.extract_nodes _ _ _ ?ep ?prev ?w] =>
      destruct (in_house_extract_nodes_total ep prev w) as (nodes & w1 & ->)
  end.
  match goal with
  | |- context [@KnowledgeService.extract_edges _ _ _ ?ns ?ep ?prev ?w] =>
      destruct (in_house_extract_edges_total ns ep prev w) as (edges & w2 & ->)
  end.
  unfold EionKnowledgeService._save_episode_to_neo4j.
  destruct (EionKnowledgeService.neo4j_driver self) as [db|].
  - destruct (EionKnowledgeService.run_all _ db) as [[[] | e] db'];
      cbn [fst snd EionKnowledgeService.episodes];
      (split; [apply dict_get_assign_eq|]); (split; [discriminate|]);
      intros result Hresult; [|discriminate].
    injection Hresult as <-.
    cbn [EionKnowledgeService.nodes_created EionKnowledgeService.edges_created
         EionKnowledgeService.result_node_uuids EionKnowledgeService.result_edge_uuids
         EionKnowledgeService.result_episode_uuid].
    now rewrite !length_map.
  - cbn [fst snd EionKnowledgeService.episodes].
    split; [apply dict_get_assign_eq|]. split; [reflexivity | discriminate].
Qed.
